(** * The DP-100 hands-on lab notebooks, embedded in Rocq

    The repository is four Jupyter notebooks (batch inferencing,
    telemetry, hyperdrive, data drift) and the three Python scripts the
    notebooks write to disk ([batch_diabetes.py], [score_diabetes.py],
    [diabetes_training.py]).  Each code cell and each script function is
    embedded as a function in a state-and-exception monad.  Calls into
    libraries the repository does not own (azureml, pandas, numpy,
    scikit-learn, joblib, requests, the operating system) are answered by
    an explicit oracle and recorded in a trace, so that statements about
    which calls are made, with which arguments, and which failures are
    caught become statements about traces. *)

From Stdlib Require Import ZArith String Ascii List Bool Lia.
From Stdlib Require Import DecimalString DecimalZ.
From Stdlib Require Floats.SpecFloat.
From stdpp Require Import base gmap strings list.

Set Warnings "-register-all".

Open Scope string_scope.
Open Scope Z_scope.

(** ** Python runtime: exceptions, the monad, strings and list indexing *)

Module Py.

(** The exceptions the code can meet.  [ComputeTargetException] is the
    only class the notebooks name in an [except] clause besides
    [Exception] itself; [LibraryError] stands for every other subclass of
    [Exception] a library may raise; [BaseOnly] for [KeyboardInterrupt],
    [SystemExit] and the like, which are not subclasses of
    [Exception]. *)
Inductive exn :=
| ComputeTargetException (msg : string)
| NameError (name : string)
| KeyError (key : string)
| IndexError
| TypeError (msg : string)
| StopIteration
| LibraryError (cls msg : string)
| BaseOnly (cls : string).

(** The two classes that appear after [except]. *)
Inductive exn_class := ComputeTargetExceptionCls | ExceptionCls.

Definition isinstance (e : exn) (c : exn_class) : bool :=
  match c, e with
  | ComputeTargetExceptionCls, ComputeTargetException _ => true
  | ComputeTargetExceptionCls, _ => false
  | ExceptionCls, BaseOnly _ => false
  | ExceptionCls, _ => true
  end.

Inductive outcome (A : Type) :=
| Ok (a : A)
| Raise (e : exn).
Arguments Ok {A} a.
Arguments Raise {A} e.

Definition is_ok {A} (o : outcome A) : bool :=
  match o with Ok _ => true | Raise _ => false end.


(** Computations over a state [St] that may raise. *)
Definition M (St A : Type) : Type := St -> outcome A * St.

Definition ret {St A} (a : A) : M St A := fun s => (Ok a, s).

Definition raise {St A} (e : exn) : M St A := fun s => (Raise e, s).

Definition bind {St A B} (m : M St A) (f : A -> M St B) : M St B :=
  fun s => match m s with
           | (Ok a, s') => f a s'
           | (Raise e, s') => (Raise e, s')
           end.

(** [try: body  except cls as ex: handler ex].  State changes made by
    the body before it raised are kept, as in Python. *)
Definition try_except {St A} (body : M St A) (cls : exn_class)
    (handler : exn -> M St A) : M St A :=
  fun s => match body s with
           | (Ok a, s') => (Ok a, s')
           | (Raise e, s') =>
               if isinstance e cls then handler e s' else (Raise e, s')
           end.

(** [for x in xs: body x], the body run for its effect. *)
Fixpoint for_ {St A} (xs : list A) (body : A -> M St unit) : M St unit :=
  match xs with
  | [] => ret tt
  | x :: xs' => bind (body x) (fun _ => for_ xs' body)
  end.

(** A loop that carries a local variable [acc] through its iterations. *)
Fixpoint fold_for {St A B} (xs : list A) (acc : B)
    (body : B -> A -> M St B) : M St B :=
  match xs with
  | [] => ret acc
  | x :: xs' => bind (body acc x) (fun acc' => fold_for xs' acc' body)
  end.

(** [str(n)] for an integer. *)
Definition str_int (z : Z) : string := NilEmpty.string_of_int (Z.to_int z).

(** [posixpath.basename]: [i = p.rfind('/') + 1; return p[i:]]. *)
Fixpoint basename_from (cur p : string) : string :=
  match p with
  | EmptyString => cur
  | String c rest =>
      if Ascii.eqb c "/" then basename_from rest rest
      else basename_from cur rest
  end.

Definition basename (p : string) : string := basename_from p p.

(** [seq[i]] for a Python list: a negative index counts from the end,
    anything outside [-len, len) raises [IndexError]. *)
Definition list_getitem {A} (l : list A) (i : Z) : outcome A :=
  let n := Z.of_nat (length l) in
  let j := if i <? 0 then i + n else i in
  if (j <? 0) || (n <=? j) then Raise IndexError
  else match nth_error l (Z.to_nat j) with
       | Some x => Ok x
       | None => Raise IndexError
       end.

(** [sep.join(xs)]. *)
Fixpoint join (sep : string) (xs : list string) : string :=
  match xs with
  | [] => ""
  | [x] => x
  | x :: rest => x +:+ sep +:+ join sep rest
  end.

(** [json.dumps] of a list of strings none of which holds a character
    that JSON escapes (quote, backslash, control or non-ASCII). *)
Definition dquote : string := String "034"%char EmptyString.

Definition json_dumps_strs (xs : list string) : string :=
  "[" +:+ join ", " (map (fun x => dquote +:+ x +:+ dquote) xs) +:+ "]".

End Py.

Declare Scope py_scope.
Delimit Scope py_scope with py.
Notation "x <- m ;; k" := (Py.bind m (fun x => k))
  (at level 100, m at next level, k at level 200, right associativity)
  : py_scope.
Notation "m ;;; k" := (Py.bind m (fun _ => k))
  (at level 100, k at level 200, right associativity) : py_scope.
Open Scope py_scope.

(** ** IEEE binary64, as numpy and pandas compute with it *)

Module F64.

Import SpecFloat.

Definition prec : Z := 53.
Definition emax : Z := 1024.

Definition float : Type := spec_float.

(** Conversion of an integer, rounding to nearest even. *)
Definition of_Z (z : Z) : float := binary_normalize prec emax z 0 false.

Definition mul (x y : float) : float := SFmul prec emax x y.
Definition div (x y : float) : float := SFdiv prec emax x y.

(** The literals [1.2] and [1.1]: the doubles nearest to 12/10 and 11/10. *)
Definition lit_1_2 : float := div (of_Z 12) (of_Z 10).
Definition lit_1_1 : float := div (of_Z 11) (of_Z 10).

(** [numpy.rint]: the nearest integer, ties to even; [None] for NaN and
    the infinities. *)
Definition rint (x : float) : option Z :=
  match x with
  | S754_zero _ => Some 0
  | S754_finite s m e =>
      let v :=
        if 0 <=? e then Z.pos m * 2 ^ e
        else
          let d := 2 ^ (- e) in
          let q := Z.pos m / d in
          let r := Z.pos m mod d in
          match 2 * r ?= d with
          | Lt => q
          | Gt => q + 1
          | Eq => if Z.even q then q else q + 1
          end in
      Some (if s then - v else v)
  | _ => None
  end.

Definition int64_min : Z := - 2 ^ 63.
Definition int64_max : Z := 2 ^ 63 - 1.

(** Addition of int64 values as numpy performs it: two's complement. *)
Definition wrap64 (z : Z) : Z := (z + 2 ^ 63) mod 2 ^ 64 - 2 ^ 63.

(** [round(col).astype(int)] on one element; a value that is not a
    finite number inside the int64 range becomes the minimum int64, as
    the x86-64 conversion gives. *)
Definition round_astype_int (x : float) : Z :=
  match rint x with
  | Some v => if (int64_min <=? v) && (v <=? int64_max) then v else int64_min
  | None => int64_min
  end.

End F64.

(** ** [batch_diabetes.py], the entry script of the ParallelRunStep *)

Module BatchDiabetes.
Import Py.

(** A handle on an unpickled scikit-learn model. *)
Definition model_t : Type := nat.

Record ndarray := { shape : list Z; flat : list F64.float }.

(** [a.reshape(1, -1)]: one row holding every element. *)
Definition reshape_1_m1 (a : ndarray) : ndarray :=
  {| shape := [1; Z.of_nat (length (flat a))]; flat := flat a |}.

(** What the script imports: [Model.get_model_path], [joblib.load],
    [np.genfromtxt(f, delimiter=',')] and the model's [predict], whose
    result is the array of int64 class labels. *)
Record library := {
  get_model_path : string -> outcome string;
  joblib_load : string -> outcome model_t;
  genfromtxt : string -> outcome ndarray;
  predict : model_t -> ndarray -> outcome (list Z)
}.

Inductive event :=
| GetModelPath (name : string)
| JoblibLoad (path : string)
| Genfromtxt (f : string)
| Predict (m : model_t) (x : ndarray).

(** The module's namespace holds one global, [model]; [trace] lists the
    library calls made so far, oldest first. *)
Record globals := { model : option model_t; trace : list event }.

(** A library call: recorded, then answered. *)
Definition lib {A} (ev : event) (answer : outcome A) : M globals A :=
  fun g => (answer, {| model := model g; trace := (trace g ++ [ev])%list |}).

Definition set_model (m : model_t) : M globals unit :=
  fun g => (Ok tt, {| model := Some m; trace := trace g |}).

(** Reading the global [model] before [init] has bound it. *)
Definition get_model : M globals model_t :=
  fun g => match model g with
           | Some m => (Ok m, g)
           | None => (Raise (NameError "model"), g)
           end.

Definition lift {A} (o : outcome A) : M globals A := fun g => (o, g).

Definition init (L : library) : M globals unit :=
  model_path <- lib (GetModelPath "diabetes_model")
                    (get_model_path L "diabetes_model") ;;
  m <- lib (JoblibLoad model_path) (joblib_load L model_path) ;;
  set_model m.

(** ["{}: {}".format(os.path.basename(f), prediction[0])] *)
Definition format_result (f : string) (p : Z) : string :=
  basename f +:+ ": " +:+ str_int p.

(** The body of [for f in mini_batch]. *)
Definition score_file (L : library) (resultList : list string) (f : string)
  : M globals (list string) :=
  data <- lib (Genfromtxt f) (genfromtxt L f) ;;
  m <- get_model ;;
  prediction <- lib (Predict m (reshape_1_m1 data))
                    (predict L m (reshape_1_m1 data)) ;;
  p0 <- lift (list_getitem prediction 0) ;;
  ret (resultList ++ [format_result f p0])%list.

Definition run (L : library) (mini_batch : list string)
  : M globals (list string) :=
  fold_for mini_batch [] (score_file L).

End BatchDiabetes.

(** ** [score_diabetes.py], the entry script of the web service *)

Module ScoreDiabetes.
Import Py.

Definition model_t : Type := nat.

(** What [json.loads] returns. *)
Inductive json :=
| JNull
| JBool (b : bool)
| JInt (z : Z)
| JFloat (x : F64.float)
| JStr (s : string)
| JArr (l : list json)
| JObj (l : list (string * json)).

Definition ndarray : Type := BatchDiabetes.ndarray.

Record library := {
  get_model_path : string -> outcome string;
  joblib_load : string -> outcome model_t;
  json_loads : string -> outcome json;
  np_array : json -> outcome ndarray;
  predict : model_t -> ndarray -> outcome (list Z)
}.

Inductive event :=
| GetModelPath (name : string)
| JoblibLoad (path : string)
| JsonLoads (raw : string)
| NpArray (data : json)
| Predict (m : model_t) (x : ndarray)
| Print (data : json) (predictions : list Z).

Record globals := { model : option model_t; trace : list event }.

Definition lib {A} (ev : event) (answer : outcome A) : M globals A :=
  fun g => (answer, {| model := model g; trace := (trace g ++ [ev])%list |}).

Definition set_model (m : model_t) : M globals unit :=
  fun g => (Ok tt, {| model := Some m; trace := trace g |}).

Definition get_model : M globals model_t :=
  fun g => match model g with
           | Some m => (Ok m, g)
           | None => (Raise (NameError "model"), g)
           end.

Definition lift {A} (o : outcome A) : M globals A := fun g => (o, g).

(** [d[key]] on a dict built by [json.loads] (the last of several equal
    keys is the one kept); any other JSON value has no string keys. *)
Fixpoint dict_get (l : list (string * json)) (key : string) : option json :=
  match l with
  | [] => None
  | (k, v) :: rest =>
      match dict_get rest key with
      | Some v' => Some v'
      | None => if String.eqb k key then Some v else None
      end
  end.

Definition getitem_str (v : json) (key : string) : outcome json :=
  match v with
  | JObj l => match dict_get l key with
              | Some x => Ok x
              | None => Raise (KeyError key)
              end
  | _ => Raise (TypeError "indices must be integers")
  end.

Definition init (L : library) : M globals unit :=
  model_path <- lib (GetModelPath "diabetes_model")
                    (get_model_path L "diabetes_model") ;;
  m <- lib (JoblibLoad model_path) (joblib_load L model_path) ;;
  set_model m.

Definition classnames : list string := ["not-diabetic"; "diabetic"].

(** The body of [for prediction in predictions]. *)
Definition classify (predicted_classes : list string) (prediction : Z)
  : M globals (list string) :=
  c <- lift (list_getitem classnames prediction) ;;
  ret (predicted_classes ++ [c])%list.

Definition run (L : library) (raw_data : string) : M globals string :=
  loaded <- lib (JsonLoads raw_data) (json_loads L raw_data) ;;
  data <- lift (getitem_str loaded "data") ;;
  np_data <- lib (NpArray data) (np_array L data) ;;
  m <- get_model ;;
  predictions <- lib (Predict m np_data) (predict L m np_data) ;;
  lib (Print data predictions) (Ok tt) ;;;
  predicted_classes <- fold_for predictions [] classify ;;
  ret (json_dumps_strs predicted_classes).

End ScoreDiabetes.

(** ** The notebooks: values, library calls, the oracle *)

Module Notebook.
Import Py.

(** Where a call goes.  [AzureML] is the platform SDK (every [azureml.*]
    package); [PyStdlib] is Python's standard library ([os], [shutil],
    [json], [datetime], [open]); [IPython] the notebook's own magics. *)
Inductive library :=
| AzureML | Pandas | NumPy | Sklearn | Joblib | Requests
| PyStdlib | Builtins | IPython.

(** The columns of [data/diabetes2.csv] that the drift notebook
    rewrites; the other columns are never touched. *)
Record frame := {
  Pregnancies : list Z;
  Age : list Z;
  BMI : list F64.float
}.

(** Python values that cross the boundary with a library.  [VDec m e] is
    the float literal [m * 10^e]; [VObj cls id] is an object only its
    library can look into; [VDate n] is the [datetime.date] whose
    proleptic Gregorian ordinal is [n]; [VBuiltin name] is a builtin such
    as [str] passed as an argument; [VFormat t args] is the string
    [t.format( *args)], kept unrendered because the rendering of library
    objects is the library's. *)
Inductive value :=
| VNone
| VBool (b : bool)
| VInt (z : Z)
| VDec (m e : Z)
| VStr (s : string)
| VList (l : list value)
| VTuple (l : list value)
| VDict (l : list (string * value))
| VObj (cls : string) (id : nat)
| VExn (e : exn)
| VDate (ordinal : Z)
| VTimedelta (days : Z)
| VFrame (f : frame)
| VBuiltin (name : string)
| VFormat (template : string) (args : list value).

Coercion VStr : string >-> value.
Coercion VInt : Z >-> value.

(** A call into a library: a function or method invoked with positional
    and keyword arguments (for a method, the first positional argument is
    the receiver), or an attribute read off a library object. *)
Inductive call :=
| Invoke (l : library) (fn : string)
         (args : list value) (kwargs : list (string * value))
| GetAttr (l : library) (name : string) (obj : value)
| SetAttr (l : library) (name : string) (obj v : value).

Definition call_lib (c : call) : library :=
  match c with
  | Invoke l _ _ _ => l
  | GetAttr l _ _ => l
  | SetAttr l _ _ _ => l
  end.

Definition call_name (c : call) : string :=
  match c with
  | Invoke _ fn _ _ => fn
  | GetAttr _ name _ => name
  | SetAttr _ name _ _ => name
  end.

Inductive response :=
| Returns (v : value)
| Raises (e : exn).

(** What a cell leaves behind: every library call with its answer, every
    [print], every value a cell displays as its last expression, every
    shell escape ([!cmd]). *)
Inductive event :=
| ECall (c : call) (r : response)
| EPrint (args : list value)
| EDisplay (v : value)
| EShell (cmd : string).

(** The world outside the repository answers a call knowing everything
    that happened before it. *)
Definition platform : Type := list event -> call -> response.

(** The kernel's state: the global namespace shared by the cells of one
    notebook, the trace so far (oldest first), and the world. *)
Record state := {
  ns : gmap string value;
  trace : list event;
  world : platform
}.

Definition initial (P : platform) : state :=
  {| ns := ∅; trace := []; world := P |}.

Definition emit (ev : event) (s : state) : state :=
  {| ns := ns s; trace := (trace s ++ [ev])%list; world := world s |}.

Definition do_call (c : call) : M state value :=
  fun s => match world s (trace s) c with
           | Returns v => (Ok v, emit (ECall c (Returns v)) s)
           | Raises e => (Raise e, emit (ECall c (Raises e)) s)
           end.

Definition invoke (l : library) (fn : string) (args : list value)
    (kwargs : list (string * value)) : M state value :=
  do_call (Invoke l fn args kwargs).

Definition getattr (l : library) (name : string) (obj : value)
  : M state value :=
  do_call (GetAttr l name obj).

Definition setattr (l : library) (name : string) (obj v : value)
  : M state unit :=
  do_call (SetAttr l name obj v) ;;; ret tt.

(** An attribute of an imported module, such as a constant. *)
Definition module_attr (l : library) (name : string) : M state value :=
  do_call (GetAttr l name VNone).

Definition display (v : value) : M state unit :=
  fun s => (Ok tt, emit (EDisplay v) s).

Definition print_ (args : list value) : M state unit :=
  fun s => (Ok tt, emit (EPrint args) s).

Definition shell (cmd : string) : M state unit :=
  fun s => (Ok tt, emit (EShell cmd) s).

(** Reading and binding a global name. *)
Definition get (name : string) : M state value :=
  fun s => match ns s !! name with
           | Some v => (Ok v, s)
           | None => (Raise (NameError name), s)
           end.

Definition set (name : string) (v : value) : M state unit :=
  fun s => (Ok tt, {| ns := <[name := v]> (ns s);
                      trace := trace s; world := world s |}).

(** [del name]; also what the end of [except ... as name:] does. *)
Definition unset (name : string) : M state unit :=
  fun s => (Ok tt, {| ns := delete name (ns s);
                      trace := trace s; world := world s |}).

Definition lift {A} (o : outcome A) : M state A := fun s => (o, s).

(** [name = <expression>] at the top level of a cell. *)
Definition assign (name : string) (m : M state value) : M state value :=
  v <- m ;; set name v ;;; ret v.

(** [with open(path, mode) as f: body f].  The file is closed when the
    body is left, also by an exception; the file's [__exit__] returns
    [None], so the body's exception goes on, unless closing fails
    itself. *)
Definition file_exit (f : value) : call :=
  Invoke PyStdlib "file.__exit__" [f] [].

Definition with_open {A} (path mode : value) (body : value -> M state A)
  : M state A :=
  f <- invoke PyStdlib "open" [path; mode] [] ;;
  fun s => match body f s with
           | (r, s') =>
               match do_call (file_exit f) s' with
               | (Ok _, s'') => (r, s'')
               | (Raise e, s'') => (Raise e, s'')
               end
           end.

(** [$name] in the line of a cell magic: the variable's value, or the
    text itself when no such variable is bound. *)
Definition expand_var (name : string) : M state string :=
  fun s => match ns s !! name with
           | Some (VStr v) => (Ok v, s)
           | _ => (Ok ("$" +:+ name), s)
           end.

(** *** Operations of the language on values *)

Definition as_str (v : value) : outcome string :=
  match v with
  | VStr s => Ok s
  | _ => Raise (TypeError "must be str")
  end.

(** [a == b] where [a] is a [str]. *)
Definition str_eq (a b : value) : bool :=
  match a, b with
  | VStr x, VStr y => String.eqb x y
  | _, _ => false
  end.

(** [a + b] on strings. *)
Definition str_add (a b : value) : outcome value :=
  match a, b with
  | VStr x, VStr y => Ok (VStr (x +:+ y))
  | _, _ => Raise (TypeError "can only concatenate str")
  end.

Fixpoint assoc (l : list (string * value)) (key : string) : option value :=
  match l with
  | [] => None
  | (k, v) :: rest => if String.eqb k key then Some v else assoc rest key
  end.

(** [d[key]] on a dict. *)
Definition dict_getitem (d : value) (key : string) : outcome value :=
  match d with
  | VDict l => match assoc l key with
               | Some v => Ok v
               | None => Raise (KeyError key)
               end
  | _ => Raise (TypeError "object is not subscriptable")
  end.

(** [v[i]] on a list or tuple. *)
Definition getitem_int (v : value) (i : Z) : outcome value :=
  match v with
  | VList l => list_getitem l i
  | VTuple l => list_getitem l i
  | _ => Raise (TypeError "object is not subscriptable by an integer")
  end.

(** [d.get(key)] on a dict. *)
Definition dict_get (d : value) (key : string) : outcome value :=
  match d with
  | VDict l => match assoc l key with
               | Some v => Ok v
               | None => Ok VNone
               end
  | _ => Raise (TypeError "object has no attribute get")
  end.

(** [key in d]. *)
Definition contains (d : value) (key : string) : outcome bool :=
  match d with
  | VDict l => Ok (match assoc l key with Some _ => true | None => false end)
  | _ => Raise (TypeError "argument is not iterable")
  end.

(** What a [for] loop walks over: the items of a list or tuple, the keys
    of a dict. *)
Definition iterate (v : value) : outcome (list value) :=
  match v with
  | VList l => Ok l
  | VTuple l => Ok l
  | VDict l => Ok (map (fun kv => VStr (fst kv)) l)
  | _ => Raise (TypeError "object is not iterable")
  end.

(** [next(it)] on a fresh iterator. *)
Definition next (v : value) : outcome value :=
  match iterate v with
  | Ok (x :: _) => Ok x
  | Ok [] => Raise StopIteration
  | Raise e => Raise e
  end.

(** [a, b, c = v] and [a, b, c, d = v]. *)
Definition unpack3 (v : value) : outcome (value * value * value) :=
  match iterate v with
  | Ok [a; b; c] => Ok (a, b, c)
  | Ok _ => Raise (LibraryError "ValueError" "wrong number of values to unpack")
  | Raise e => Raise e
  end.

Definition unpack4 (v : value) : outcome (value * value * value * value) :=
  match iterate v with
  | Ok [a; b; c; d] => Ok (a, b, c, d)
  | Ok _ => Raise (LibraryError "ValueError" "wrong number of values to unpack")
  | Raise e => Raise e
  end.

(** [posixpath.join(a, b)]. *)
Definition ends_with_slash (a : string) : bool :=
  match String.get (String.length a - 1) a with
  | Some c => Ascii.eqb c "/"
  | None => false
  end.

Definition path_join (a b : string) : string :=
  match b with
  | String "/" _ => b
  | _ => if (String.eqb a "") || ends_with_slash a then a +:+ b
         else a +:+ "/" +:+ b
  end.

(** [s.endswith(suffix)]. *)
Definition endswith (s suffix : string) : bool :=
  let n := String.length s in
  let k := String.length suffix in
  (k <=? n)%nat && String.eqb (String.substring (n - k) k s) suffix.

(** [range(n)] and [reversed(range(n))]. *)
Definition range (n : nat) : list Z := map Z.of_nat (seq 0 n).
Definition reversed {A} (l : list A) : list A := rev l.

(** A keyword argument. *)
Definition kw (k : string) (v : value) : string * value := (k, v).

Definition strs (l : list string) : value := VList (map VStr l).

(** *** [datetime.date] *)

(** [datetime._ord2ymd]: year, month and day of a proleptic Gregorian
    ordinal (1 is 0001-01-01). *)
Definition days_in_month : list Z :=
  [-1; 31; 28; 31; 30; 31; 30; 31; 31; 30; 31; 30; 31].
Definition days_before_month : list Z :=
  [-1; 0; 31; 59; 90; 120; 151; 181; 212; 243; 273; 304; 334].

Definition ord2ymd (ordinal : Z) : Z * Z * Z :=
  let n := ordinal - 1 in
  let n400 := n / 146097 in
  let n := n mod 146097 in
  let year := n400 * 400 + 1 in
  let n100 := n / 36524 in
  let n := n mod 36524 in
  let n4 := n / 1461 in
  let n := n mod 1461 in
  let n1 := n / 365 in
  let n := n mod 365 in
  let year := year + n100 * 100 + n4 * 4 + n1 in
  if (n1 =? 4) || (n100 =? 4) then (year - 1, 12, 31)
  else
    let leapyear := (n1 =? 3) && (negb (n4 =? 24) || (n100 =? 3)) in
    let month := Z.shiftr (n + 50) 5 in
    let preceding :=
      nth (Z.to_nat month) days_before_month 0
      + (if (2 <? month) && leapyear then 1 else 0) in
    if n <? preceding then
      let month := month - 1 in
      let preceding :=
        preceding - (nth (Z.to_nat month) days_in_month 0
                     + (if (month =? 2) && leapyear then 1 else 0)) in
      (year, month, n - preceding + 1)
    else (year, month, n - preceding + 1).

Definition pad2 (z : Z) : string :=
  if z <? 10 then "0" +:+ str_int z else str_int z.

(** [d.strftime("%Y-%m-%d")]. *)
Definition strftime_ymd (ordinal : Z) : string :=
  let '(y, m, d) := ord2ymd ordinal in
  str_int y +:+ "-" +:+ pad2 m +:+ "-" +:+ pad2 d.

Definition max_ordinal : Z := 3652059.

(** [dt.timedelta(weeks=w)] *)
Definition timedelta_weeks (w : Z) : value := VTimedelta (7 * w).

(** [d - delta] for a date. *)
Definition date_sub (d delta : value) : outcome value :=
  match d, delta with
  | VDate n, VTimedelta days =>
      let r := n - days in
      if (1 <=? r) && (r <=? max_ordinal) then Ok (VDate r)
      else Raise (LibraryError "OverflowError" "date value out of range")
  | _, _ => Raise (TypeError "unsupported operand type(s) for -")
  end.

Definition date_strftime_ymd (d : value) : outcome string :=
  match d with
  | VDate n => Ok (strftime_ymd n)
  | _ => Raise (LibraryError "AttributeError" "strftime")
  end.

(** *** The three column updates of the drift notebook *)

(** [data['Pregnancies'] = data['Pregnancies'] + 1] *)
Definition bump_pregnancies (f : frame) : frame :=
  {| Pregnancies := map (fun x => F64.wrap64 (x + 1)) (Pregnancies f);
     Age := Age f; BMI := BMI f |}.

(** [data['Age'] = round(data['Age'] * 1.2).astype(int)] *)
Definition scale_age (f : frame) : frame :=
  {| Pregnancies := Pregnancies f;
     Age := map (fun a => F64.round_astype_int
                            (F64.mul (F64.of_Z a) F64.lit_1_2)) (Age f);
     BMI := BMI f |}.

(** [data['BMI'] = data['BMI'] * 1.1] *)
Definition scale_bmi (f : frame) : frame :=
  {| Pregnancies := Pregnancies f; Age := Age f;
     BMI := map (fun b => F64.mul b F64.lit_1_1) (BMI f) |}.

Definition as_frame (v : value) : outcome frame :=
  match v with
  | VFrame f => Ok f
  | _ => Raise (TypeError "object is not subscriptable")
  end.

End Notebook.

(** ** Notebook: Run a Batch Inferencing Pipeline and Obtain Outputs *)

Module BatchNotebook.
Import Py Notebook.

Definition feature_columns : list string :=
  ["Pregnancies"; "PlasmaGlucose"; "DiastolicBloodPressure";
   "TricepsThickness"; "SerumInsulin"; "BMI"; "DiabetesPedigree"; "Age"].

(** Connect to your workspace *)
Definition connect_to_workspace : M state unit :=
  ws <- assign "ws" (invoke AzureML "Workspace.from_config" [] []) ;;
  version <- module_attr AzureML "azureml.core.VERSION" ;;
  name <- getattr AzureML "Workspace.name" ws ;;
  print_ [VFormat "Ready to use Azure ML {} to work with {}" [version; name]].

(** Train and register a model *)
Definition train_and_register_model : M state unit :=
  ws <- get "ws" ;;
  experiment <- assign "experiment"
    (invoke AzureML "Experiment" []
       [kw "workspace" ws; kw "name" "mslearn-train-diabetes"]) ;;
  run <- assign "run"
    (invoke AzureML "Experiment.start_logging" [experiment] []) ;;
  experiment_name <- getattr AzureML "Experiment.name" experiment ;;
  print_ [VStr "Starting experiment:"; experiment_name] ;;;
  print_ [VStr "Loading Data..."] ;;;
  diabetes <- assign "diabetes"
    (invoke Pandas "read_csv" [VStr "data/diabetes.csv"] []) ;;
  features <- invoke Pandas "DataFrame.__getitem__"
                [diabetes; strs feature_columns] [] ;;
  X <- getattr Pandas "DataFrame.values" features ;;
  labels <- invoke Pandas "DataFrame.__getitem__"
              [diabetes; VStr "Diabetic"] [] ;;
  y <- getattr Pandas "Series.values" labels ;;
  set "X" X ;;; set "y" y ;;;
  split <- invoke Sklearn "train_test_split" [X; y]
             [kw "test_size" (VDec 30 (-2)); kw "random_state" 0] ;;
  parts <- lift (unpack4 split) ;;
  let '(X_train, X_test, y_train, y_test) := parts in
  set "X_train" X_train ;;; set "X_test" X_test ;;;
  set "y_train" y_train ;;; set "y_test" y_test ;;;
  print_ [VStr "Training a decision tree model"] ;;;
  classifier <- invoke Sklearn "DecisionTreeClassifier" [] [] ;;
  model <- assign "model"
    (invoke Sklearn "DecisionTreeClassifier.fit"
       [classifier; X_train; y_train] []) ;;
  y_hat <- assign "y_hat"
    (invoke Sklearn "DecisionTreeClassifier.predict" [model; X_test] []) ;;
  hits <- invoke NumPy "ndarray.__eq__" [y_hat; y_test] [] ;;
  acc <- assign "acc" (invoke NumPy "average" [hits] []) ;;
  print_ [VStr "Accuracy:"; acc] ;;;
  acc_float <- invoke Builtins "float" [acc] [] ;;
  invoke AzureML "Run.log" [run; VStr "Accuracy"; acc_float] [] ;;;
  y_scores <- assign "y_scores"
    (invoke Sklearn "DecisionTreeClassifier.predict_proba"
       [model; X_test] []) ;;
  positive <- invoke NumPy "ndarray.__getitem__" [y_scores; VStr ":,1"] [] ;;
  auc <- assign "auc"
    (invoke Sklearn "roc_auc_score" [y_test; positive] []) ;;
  print_ [VFormat "AUC: {}" [auc]] ;;;
  auc_float <- invoke Builtins "float" [auc] [] ;;
  invoke AzureML "Run.log" [run; VStr "AUC"; auc_float] [] ;;;
  let model_file := "diabetes_model.pkl" in
  set "model_file" model_file ;;;
  invoke Joblib "dump" [] [kw "value" model; kw "filename" model_file] ;;;
  invoke AzureML "Run.upload_file" [run]
    [kw "name" ("outputs/" +:+ model_file);
     kw "path_or_stream" ("./" +:+ model_file)] ;;;
  invoke AzureML "Run.complete" [run] [] ;;;
  metrics <- invoke AzureML "Run.get_metrics" [run] [] ;;
  auc_metric <- lift (dict_getitem metrics "AUC") ;;
  metrics' <- invoke AzureML "Run.get_metrics" [run] [] ;;
  acc_metric <- lift (dict_getitem metrics' "Accuracy") ;;
  invoke AzureML "Run.register_model" [run]
    [kw "model_path" "outputs/diabetes_model.pkl";
     kw "model_name" "diabetes_model";
     kw "tags" (VDict [("Training context", VStr "Inline Training")]);
     kw "properties" (VDict [("AUC", auc_metric);
                             ("Accuracy", acc_metric)])] ;;;
  print_ [VStr "Model trained and registered."].

(** The [try] of the "Simulate Sample Data" cell: registering the
    dataset. *)
Definition register_batch_data (ws batch_data_set : value) : M state unit :=
  try_except
    (assign "batch_data_set"
       (invoke AzureML "Dataset.register" [batch_data_set]
          [kw "workspace" ws; kw "name" "batch-data";
           kw "description" "batch data";
           kw "create_new_version" (VBool true)]) ;;;
     ret tt)
    ExceptionCls
    (fun ex => set "ex" (VExn ex) ;;; print_ [VExn ex] ;;; unset "ex").

(** Simulate Sample Data *)
Definition simulate_sample_data : M state unit :=
  ws <- get "ws" ;;
  invoke AzureML "Workspace.set_default_datastore"
    [ws; VStr "workspaceblobstore"] [] ;;;
  default_ds <- assign "default_ds"
    (invoke AzureML "Workspace.get_default_datastore" [ws] []) ;;
  datastores <- getattr AzureML "Workspace.datastores" ws ;;
  names <- lift (iterate datastores) ;;
  for_ names (fun ds_name =>
    set "ds_name" ds_name ;;;
    default_name <- getattr AzureML "Datastore.name" default_ds ;;
    print_ [ds_name; VStr "- Default ="; VBool (str_eq ds_name default_name)]) ;;;
  diabetes <- assign "diabetes"
    (invoke Pandas "read_csv" [VStr "data/diabetes2.csv"] []) ;;
  features <- invoke Pandas "DataFrame.__getitem__"
                [diabetes; strs feature_columns] [] ;;
  sampled <- invoke Pandas "DataFrame.sample" [features] [kw "n" 100] ;;
  sample <- assign "sample" (getattr Pandas "DataFrame.values" sampled) ;;
  let batch_folder := "./batch-data" in
  set "batch_folder" batch_folder ;;;
  invoke PyStdlib "os.makedirs" [VStr batch_folder]
    [kw "exist_ok" (VBool true)] ;;;
  print_ [VStr "Folder created!"] ;;;
  print_ [VStr "Saving files..."] ;;;
  for_ (range 100) (fun i =>
    set "i" i ;;;
    let fname := str_int (i + 1) +:+ ".csv" in
    set "fname" fname ;;;
    row <- invoke NumPy "ndarray.__getitem__" [sample; VInt i] [] ;;
    invoke NumPy "ndarray.tofile"
      [row; VStr (path_join batch_folder fname)] [kw "sep" ","] ;;;
    ret tt) ;;;
  print_ [VStr "files saved!"] ;;;
  print_ [VStr "Uploading files to datastore..."] ;;;
  default_ds <- assign "default_ds"
    (invoke AzureML "Workspace.get_default_datastore" [ws] []) ;;
  invoke AzureML "Datastore.upload" [default_ds]
    [kw "src_dir" "batch-data"; kw "target_path" "batch-data";
     kw "overwrite" (VBool true); kw "show_progress" (VBool true)] ;;;
  batch_data_set <- assign "batch_data_set"
    (invoke AzureML "Dataset.File.from_files" []
       [kw "path" (VTuple [default_ds; VStr "batch-data/"]);
        kw "validate" (VBool false)]) ;;
  register_batch_data ws batch_data_set ;;;
  print_ [VStr "Done!"].

(** Assign the compute target to the compute cluster already prepared
    for you *)
Definition assign_compute_target : M state unit :=
  let cluster_name := "acaml-****" in
  set "cluster_name" cluster_name ;;;
  try_except
    (ws <- get "ws" ;;
     assign "inference_cluster"
       (invoke AzureML "ComputeTarget" []
          [kw "workspace" ws; kw "name" cluster_name]) ;;;
     ws <- get "ws" ;;
     invoke AzureML "Workspace.update" [ws]
       [kw "image_build_compute" cluster_name] ;;;
     print_ [VStr "Found existing cluster and using it."])
    ComputeTargetExceptionCls
    (fun _ => print_ [VStr "There is no existing cluster by that name."]).

(** Create an experiment folder *)
Definition create_experiment_folder : M state unit :=
  let experiment_folder := "batch_pipeline" in
  set "experiment_folder" experiment_folder ;;;
  invoke PyStdlib "os.makedirs" [VStr experiment_folder]
    [kw "exist_ok" (VBool true)] ;;;
  print_ [VStr experiment_folder].

(** Create a Python script and save it in the pipeline folder:
    [%%writefile $experiment_folder/batch_diabetes.py].  The body of the
    cell is the script embedded as [BatchDiabetes]. *)
Definition write_batch_script : M state unit :=
  folder <- expand_var "experiment_folder" ;;
  invoke IPython "%%writefile"
    [VStr (folder +:+ "/batch_diabetes.py"); VStr "batch_diabetes.py"] [] ;;;
  ret tt.

(** Define a run context with the needed dependencies.  The cell
    starts by importing the constant [DEFAULT_CPU_IMAGE]. *)
Definition define_run_context : M state unit :=
  image <- assign "DEFAULT_CPU_IMAGE"
    (module_attr AzureML "azureml.core.runconfig.DEFAULT_CPU_IMAGE") ;;
  cd <- assign "cd"
    (invoke AzureML "CondaDependencies.create" []
       [kw "conda_packages" (strs ["scikit-learn=1.1.3"; "pip"]);
        kw "pip_packages" (strs ["azureml-defaults"; "azureml-core";
                                 "azureml-dataprep[fuse]"])]) ;;
  batch_env <- assign "batch_env"
    (invoke AzureML "Environment" [] [kw "name" "batch_environment"]) ;;
  python <- getattr AzureML "Environment.python" batch_env ;;
  setattr AzureML "PythonSection.conda_dependencies" python cd ;;;
  docker <- getattr AzureML "Environment.docker" batch_env ;;
  setattr AzureML "DockerSection.base_image" docker image ;;;
  print_ [VStr "Configuration ready."].

(** The keyword arguments of [ParallelRunConfig(...)]. *)
Definition parallel_run_config_kwargs
    (experiment_folder batch_env inference_cluster : value)
  : list (string * value) :=
  [kw "source_directory" experiment_folder;
   kw "entry_script" "batch_diabetes.py";
   kw "mini_batch_size" "5";
   kw "error_threshold" 10;
   kw "output_action" "append_row";
   kw "environment" batch_env;
   kw "compute_target" inference_cluster;
   kw "node_count" 2].

(** Configure a ParallelRunStep *)
Definition configure_parallel_run_step : M state unit :=
  ws <- get "ws" ;;
  default_ds <- assign "default_ds"
    (invoke AzureML "Workspace.get_default_datastore" [ws] []) ;;
  output_dir <- assign "output_dir"
    (invoke AzureML "PipelineData" []
       [kw "name" "inferences"; kw "datastore" default_ds;
        kw "output_path_on_compute" "diabetes/results"]) ;;
  experiment_folder <- get "experiment_folder" ;;
  batch_env <- get "batch_env" ;;
  inference_cluster <- get "inference_cluster" ;;
  parallel_run_config <- assign "parallel_run_config"
    (invoke AzureML "ParallelRunConfig" []
       (parallel_run_config_kwargs experiment_folder batch_env
          inference_cluster)) ;;
  batch_data_set <- get "batch_data_set" ;;
  named_input <- invoke AzureML "Dataset.as_named_input"
                   [batch_data_set; VStr "diabetes_batch"] [] ;;
  assign "parallelrun_step"
    (invoke AzureML "ParallelRunStep" []
       [kw "name" "batch-score-diabetes";
        kw "parallel_run_config" parallel_run_config;
        kw "inputs" (VList [named_input]);
        kw "output" output_dir;
        kw "arguments" (VList []);
        kw "allow_reuse" (VBool true)]) ;;;
  print_ [VStr "Steps defined"].

(** Build the pipeline from the defined steps and run *)
Definition build_and_run_pipeline : M state unit :=
  ws <- get "ws" ;;
  parallelrun_step <- get "parallelrun_step" ;;
  pipeline <- assign "pipeline"
    (invoke AzureML "Pipeline" []
       [kw "workspace" ws; kw "steps" (VList [parallelrun_step])]) ;;
  experiment <- invoke AzureML "Experiment"
                  [ws; VStr "mslearn-diabetes-batch"] [] ;;
  pipeline_run <- assign "pipeline_run"
    (invoke AzureML "Experiment.submit" [experiment; pipeline] []) ;;
  display pipeline_run.

(** Retrieve the saved outputs *)
Definition retrieve_saved_outputs : M state unit :=
  invoke PyStdlib "shutil.rmtree" [VStr "diabetes-results"]
    [kw "ignore_errors" (VBool true)] ;;;
  pipeline_run <- get "pipeline_run" ;;
  children <- invoke AzureML "PipelineRun.get_children" [pipeline_run] [] ;;
  prediction_run <- assign "prediction_run" (lift (next children)) ;;
  prediction_output <- assign "prediction_output"
    (invoke AzureML "StepRun.get_output_data"
       [prediction_run; VStr "inferences"] []) ;;
  invoke AzureML "PortDataReference.download" [prediction_output]
    [kw "local_path" "diabetes-results"] ;;;
  walk <- invoke PyStdlib "os.walk" [VStr "diabetes-results"] [] ;;
  entries <- lift (iterate walk) ;;
  for_ entries (fun entry =>
    triple <- lift (unpack3 entry) ;;
    let '(root, dirs, files) := triple in
    set "root" root ;;; set "dirs" dirs ;;; set "files" files ;;;
    names <- lift (iterate files) ;;
    for_ names (fun file =>
      set "file" file ;;;
      file_name <- lift (as_str file) ;;
      if endswith file_name "parallel_run_step.txt" then
        root_name <- lift (as_str root) ;;
        set "result_file" (VStr (path_join root_name file_name))
      else ret tt)) ;;;
  result_file <- get "result_file" ;;
  df <- assign "df"
    (invoke Pandas "read_csv" [result_file]
       [kw "delimiter" ":"; kw "header" VNone]) ;;
  setattr Pandas "DataFrame.columns" df (strs ["File"; "Prediction"]) ;;;
  head <- invoke Pandas "DataFrame.head" [df; VInt 20] [] ;;
  display head.

Definition cells : list (string * M state unit) :=
  [("Connect to your workspace", connect_to_workspace);
   ("Train and register a model", train_and_register_model);
   ("Simulate Sample Data", simulate_sample_data);
   ("Assign the compute target", assign_compute_target);
   ("Create an experiment folder", create_experiment_folder);
   ("Create a Python script", write_batch_script);
   ("Define a run context", define_run_context);
   ("Configure a ParallelRunStep", configure_parallel_run_step);
   ("Build the pipeline and run", build_and_run_pipeline);
   ("Retrieve the saved outputs", retrieve_saved_outputs)].

End BatchNotebook.

(** ** Notebook: Monitor the Environment (Telemetry) *)

Module TelemetryNotebook.
Import Py Notebook.

Definition feature_columns : list string :=
  ["Pregnancies"; "PlasmaGlucose"; "DiastolicBloodPressure";
   "TricepsThickness"; "SerumInsulin"; "BMI"; "DiabetesPedigree"; "Age"].

(** Connect to your workspace *)
Definition connect_to_workspace : M state unit :=
  ws <- assign "ws" (invoke AzureML "Workspace.from_config" [] []) ;;
  name <- getattr AzureML "Workspace.name" ws ;;
  print_ [VStr "Ready to work with"; name].

(** The [try] of the "Prepare a model for deployment" cell. *)
Definition register_dataset (ws data_set : value) : M state unit :=
  try_except
    (assign "data_set"
       (invoke AzureML "Dataset.register" [data_set]
          [kw "workspace" ws; kw "name" "diabetes dataset";
           kw "description" "diabetes data";
           kw "tags" (VDict [("format", VStr "CSV")]);
           kw "create_new_version" (VBool true)]) ;;;
     ret tt)
    ExceptionCls
    (fun ex => set "ex" (VExn ex) ;;; print_ [VExn ex] ;;; unset "ex").

(** Prepare a model for deployment *)
Definition prepare_model : M state unit :=
  ws <- get "ws" ;;
  default_ds <- assign "default_ds"
    (invoke AzureML "Workspace.get_default_datastore" [ws] []) ;;
  invoke AzureML "Datastore.upload_files" [default_ds]
    [kw "files" (strs ["./data/diabetes.csv"; "./data/diabetes2.csv"]);
     kw "target_path" "diabetes-data/";
     kw "overwrite" (VBool true); kw "show_progress" (VBool true)] ;;;
  print_ [VStr "Creating dataset..."] ;;;
  data_set <- assign "data_set"
    (invoke AzureML "Dataset.Tabular.from_delimited_files" []
       [kw "path" (VTuple [default_ds; VStr "diabetes-data/*.csv"])]) ;;
  print_ [VStr "Registering dataset..."] ;;;
  register_dataset ws data_set ;;;
  experiment <- assign "experiment"
    (invoke AzureML "Experiment" []
       [kw "workspace" ws; kw "name" "mslearn-train-diabetes"]) ;;
  run <- assign "run"
    (invoke AzureML "Experiment.start_logging" [experiment] []) ;;
  experiment_name <- getattr AzureML "Experiment.name" experiment ;;
  print_ [VStr "Starting experiment:"; experiment_name] ;;;
  print_ [VStr "Loading Data..."] ;;;
  data_set <- get "data_set" ;;
  diabetes <- assign "diabetes"
    (invoke AzureML "TabularDataset.to_pandas_dataframe" [data_set] []) ;;
  features <- invoke Pandas "DataFrame.__getitem__"
                [diabetes; strs feature_columns] [] ;;
  X <- getattr Pandas "DataFrame.values" features ;;
  labels <- invoke Pandas "DataFrame.__getitem__"
              [diabetes; VStr "Diabetic"] [] ;;
  y <- getattr Pandas "Series.values" labels ;;
  set "X" X ;;; set "y" y ;;;
  split <- invoke Sklearn "train_test_split" [X; y]
             [kw "test_size" (VDec 30 (-2)); kw "random_state" 0] ;;
  parts <- lift (unpack4 split) ;;
  let '(X_train, X_test, y_train, y_test) := parts in
  set "X_train" X_train ;;; set "X_test" X_test ;;;
  set "y_train" y_train ;;; set "y_test" y_test ;;;
  print_ [VStr "Training a decision tree model"] ;;;
  classifier <- invoke Sklearn "DecisionTreeClassifier" [] [] ;;
  model <- assign "model"
    (invoke Sklearn "DecisionTreeClassifier.fit"
       [classifier; X_train; y_train] []) ;;
  y_hat <- assign "y_hat"
    (invoke Sklearn "DecisionTreeClassifier.predict" [model; X_test] []) ;;
  hits <- invoke NumPy "ndarray.__eq__" [y_hat; y_test] [] ;;
  acc <- assign "acc" (invoke NumPy "average" [hits] []) ;;
  print_ [VStr "Accuracy:"; acc] ;;;
  acc_float <- invoke NumPy "float" [acc] [] ;;
  invoke AzureML "Run.log" [run; VStr "Accuracy"; acc_float] [] ;;;
  y_scores <- assign "y_scores"
    (invoke Sklearn "DecisionTreeClassifier.predict_proba"
       [model; X_test] []) ;;
  positive <- invoke NumPy "ndarray.__getitem__" [y_scores; VStr ":,1"] [] ;;
  auc <- assign "auc"
    (invoke Sklearn "roc_auc_score" [y_test; positive] []) ;;
  print_ [VFormat "AUC: {}" [auc]] ;;;
  auc_float <- invoke NumPy "float" [auc] [] ;;
  invoke AzureML "Run.log" [run; VStr "AUC"; auc_float] [] ;;;
  let model_file := "diabetes_model.pkl" in
  set "model_file" model_file ;;;
  invoke Joblib "dump" [] [kw "value" model; kw "filename" model_file] ;;;
  invoke AzureML "Run.upload_file" [run]
    [kw "name" ("outputs/" +:+ model_file);
     kw "path_or_stream" ("./" +:+ model_file)] ;;;
  invoke AzureML "Run.complete" [run] [] ;;;
  print_ [VStr "Registering model..."] ;;;
  metrics <- invoke AzureML "Run.get_metrics" [run] [] ;;
  auc_metric <- lift (dict_getitem metrics "AUC") ;;
  metrics' <- invoke AzureML "Run.get_metrics" [run] [] ;;
  acc_metric <- lift (dict_getitem metrics' "Accuracy") ;;
  invoke AzureML "Run.register_model" [run]
    [kw "model_path" "outputs/diabetes_model.pkl";
     kw "model_name" "diabetes_model";
     kw "tags" (VDict [("Training context", VStr "Inline Training")]);
     kw "properties" (VDict [("AUC", auc_metric);
                             ("Accuracy", acc_metric)])] ;;;
  models <- getattr AzureML "Workspace.models" ws ;;
  assign "model" (lift (dict_getitem models "diabetes_model")) ;;;
  print_ [VStr "Model trained and registered."].

(** Create an experiment folder. *)
Definition create_experiment_folder : M state unit :=
  let folder_name := "diabetes_service" in
  set "folder_name" folder_name ;;;
  let experiment_folder := "./" +:+ folder_name in
  set "experiment_folder" experiment_folder ;;;
  invoke PyStdlib "os.makedirs" [VStr experiment_folder]
    [kw "exist_ok" (VBool true)] ;;;
  print_ [VStr folder_name; VStr "folder created."] ;;;
  set "script_file" (VStr (path_join experiment_folder "score_diabetes.py")).

(** Create script that the service will be used to score new data:
    [%%writefile $script_file].  The body of the cell is the script
    embedded as [ScoreDiabetes]. *)
Definition write_scoring_script : M state unit :=
  path <- expand_var "script_file" ;;
  invoke IPython "%%writefile" [VStr path; VStr "score_diabetes.py"] [] ;;;
  ret tt.

(** Create a Conda configuration file for the service environment. *)
Definition create_conda_file : M state unit :=
  myenv <- assign "myenv" (invoke AzureML "CondaDependencies" [] []) ;;
  invoke AzureML "CondaDependencies.add_conda_package"
    [myenv; VStr "scikit-learn"] [] ;;;
  folder_name <- get "folder_name" ;;
  env_file <- assign "env_file"
    (lift (str_add folder_name (VStr "/diabetes_env.yml"))) ;;
  with_open env_file (VStr "w") (fun f =>
    set "f" f ;;;
    text <- invoke AzureML "CondaDependencies.serialize_to_string"
              [myenv] [] ;;
    invoke PyStdlib "file.write" [f; text] [] ;;;
    ret tt) ;;;
  print_ [VStr "Saved dependency info in"; env_file] ;;;
  with_open env_file (VStr "r") (fun f =>
    set "f" f ;;;
    text <- invoke PyStdlib "file.read" [f] [] ;;
    print_ [text]).

(** Deploy the service as an Azure Container Instance (ACI). *)
Definition deploy_service : M state unit :=
  script_file <- get "script_file" ;;
  env_file <- get "env_file" ;;
  inference_config <- assign "inference_config"
    (invoke AzureML "InferenceConfig" []
       [kw "runtime" "python"; kw "entry_script" script_file;
        kw "conda_file" env_file]) ;;
  let service_name := "diabetes-service-app-insights" in
  set "service_name" service_name ;;;
  deployment_config <- assign "deployment_config"
    (invoke AzureML "AciWebservice.deploy_configuration" []
       [kw "cpu_cores" 1; kw "memory_gb" 1]) ;;
  ws <- get "ws" ;;
  model <- get "model" ;;
  aci_service <- assign "aci_service"
    (invoke AzureML "Model.deploy" []
       [kw "workspace" ws; kw "name" service_name;
        kw "models" (VList [model]);
        kw "inference_config" inference_config;
        kw "deployment_config" deployment_config]) ;;
  invoke AzureML "Webservice.wait_for_deployment" [aci_service]
    [kw "show_output" (VBool true)] ;;;
  service_state <- getattr AzureML "Webservice.state" aci_service ;;
  print_ [service_state].

(** Enable Application Insights *)
Definition enable_app_insights : M state unit :=
  aci_service <- get "aci_service" ;;
  invoke AzureML "Webservice.update" [aci_service]
    [kw "enable_app_insights" (VBool true)] ;;;
  print_ [VStr "AppInsights enabled!"].

(** Determine the URL for submitting requests. *)
Definition determine_endpoint : M state unit :=
  aci_service <- get "aci_service" ;;
  endpoint <- assign "endpoint"
    (getattr AzureML "Webservice.scoring_uri" aci_service) ;;
  print_ [endpoint].

(** The two patients of the request: each number is [m * 10^e]. *)
Definition x_new : value :=
  VList [VList [VInt 2; VInt 180; VInt 74; VInt 24; VInt 21;
                VDec 239091702 (-7); VDec 1488172308 (-9); VInt 22];
         VList [VInt 0; VInt 148; VInt 58; VInt 11; VInt 179;
                VDec 3919207553 (-8); VDec 160829008 (-9); VInt 45]].

Definition value_eq_int (v : value) (z : Z) : bool :=
  match v with
  | VInt n => n =? z
  | _ => false
  end.

(** Make a call to the URI with the patient data and receive a predicted
    result. *)
Definition use_web_service : M state unit :=
  set "x_new" x_new ;;;
  input_json <- assign "input_json"
    (invoke PyStdlib "json.dumps" [VDict [("data", x_new)]] []) ;;
  let headers := VDict [("Content-Type", VStr "application/json")] in
  set "headers" headers ;;;
  endpoint <- get "endpoint" ;;
  predictions <- assign "predictions"
    (invoke Requests "post" [endpoint; input_json]
       [kw "headers" headers]) ;;
  status_code <- getattr Requests "Response.status_code" predictions ;;
  print_ [status_code] ;;;
  status_code' <- getattr Requests "Response.status_code" predictions ;;
  if value_eq_int status_code' 200 then
    body <- invoke Requests "Response.json" [predictions] [] ;;
    predicted_classes <- assign "predicted_classes"
      (invoke PyStdlib "json.loads" [body] []) ;;
    rows <- lift (iterate x_new) ;;
    for_ (range (length rows)) (fun i =>
      set "i" i ;;;
      row <- lift (list_getitem rows i) ;;
      cls <- lift (getitem_int predicted_classes i) ;;
      print_ [VFormat "Patient {}" [row]; cls])
  else ret tt.

Definition cells : list (string * M state unit) :=
  [("Connect to your workspace", connect_to_workspace);
   ("Prepare a model for deployment", prepare_model);
   ("Create an experiment folder", create_experiment_folder);
   ("Create the scoring script", write_scoring_script);
   ("Create a Conda configuration file", create_conda_file);
   ("Deploy the service", deploy_service);
   ("Enable Application Insights", enable_app_insights);
   ("Determine the URL", determine_endpoint);
   ("Use the web service", use_web_service)].

End TelemetryNotebook.

(** ** [diabetes_training.py], the script of the hyperdrive runs *)

Module DiabetesTraining.
Import Py Notebook.

Definition feature_columns : list string :=
  ["Pregnancies"; "PlasmaGlucose"; "DiastolicBloodPressure";
   "TricepsThickness"; "SerumInsulin"; "BMI"; "DiabetesPedigree"; "Age"].

(** The script's top level, run once per hyperdrive child run. *)
Definition main : M state unit :=
  run <- assign "run" (invoke AzureML "Run.get_context" [] []) ;;
  parser <- assign "parser"
    (invoke PyStdlib "argparse.ArgumentParser" [] []) ;;
  invoke PyStdlib "ArgumentParser.add_argument"
    [parser; VStr "--input-data"]
    [kw "type" (VBuiltin "str"); kw "dest" "input_data";
     kw "help" "training dataset"] ;;;
  invoke PyStdlib "ArgumentParser.add_argument"
    [parser; VStr "--learning_rate"]
    [kw "type" (VBuiltin "float"); kw "dest" "learning_rate";
     kw "default" (VDec 1 (-1)); kw "help" "learning rate"] ;;;
  invoke PyStdlib "ArgumentParser.add_argument"
    [parser; VStr "--n_estimators"]
    [kw "type" (VBuiltin "int"); kw "dest" "n_estimators";
     kw "default" 100; kw "help" "number of estimators"] ;;;
  args <- assign "args"
    (invoke PyStdlib "ArgumentParser.parse_args" [parser] []) ;;
  learning_rate <- getattr PyStdlib "Namespace.learning_rate" args ;;
  lr <- invoke NumPy "float" [learning_rate] [] ;;
  invoke AzureML "Run.log" [run; VStr "learning_rate"; lr] [] ;;;
  n_estimators <- getattr PyStdlib "Namespace.n_estimators" args ;;
  ne <- invoke NumPy "int" [n_estimators] [] ;;
  invoke AzureML "Run.log" [run; VStr "n_estimators"; ne] [] ;;;
  print_ [VStr "Loading Data..."] ;;;
  input_datasets <- getattr AzureML "Run.input_datasets" run ;;
  training_data <- lift (dict_getitem input_datasets "training_data") ;;
  diabetes <- assign "diabetes"
    (invoke AzureML "TabularDataset.to_pandas_dataframe"
       [training_data] []) ;;
  features <- invoke Pandas "DataFrame.__getitem__"
                [diabetes; strs feature_columns] [] ;;
  X <- getattr Pandas "DataFrame.values" features ;;
  labels <- invoke Pandas "DataFrame.__getitem__"
              [diabetes; VStr "Diabetic"] [] ;;
  y <- getattr Pandas "Series.values" labels ;;
  set "X" X ;;; set "y" y ;;;
  split <- invoke Sklearn "train_test_split" [X; y]
             [kw "test_size" (VDec 30 (-2)); kw "random_state" 0] ;;
  parts <- lift (unpack4 split) ;;
  let '(X_train, X_test, y_train, y_test) := parts in
  set "X_train" X_train ;;; set "X_test" X_test ;;;
  set "y_train" y_train ;;; set "y_test" y_test ;;;
  print_ [VStr "Training a classification model"] ;;;
  learning_rate' <- getattr PyStdlib "Namespace.learning_rate" args ;;
  n_estimators' <- getattr PyStdlib "Namespace.n_estimators" args ;;
  classifier <- invoke Sklearn "GradientBoostingClassifier" []
                  [kw "learning_rate" learning_rate';
                   kw "n_estimators" n_estimators'] ;;
  model <- assign "model"
    (invoke Sklearn "GradientBoostingClassifier.fit"
       [classifier; X_train; y_train] []) ;;
  y_hat <- assign "y_hat"
    (invoke Sklearn "GradientBoostingClassifier.predict"
       [model; X_test] []) ;;
  hits <- invoke NumPy "ndarray.__eq__" [y_hat; y_test] [] ;;
  acc <- assign "acc" (invoke NumPy "average" [hits] []) ;;
  print_ [VStr "Accuracy:"; acc] ;;;
  acc_float <- invoke NumPy "float" [acc] [] ;;
  invoke AzureML "Run.log" [run; VStr "Accuracy"; acc_float] [] ;;;
  y_scores <- assign "y_scores"
    (invoke Sklearn "GradientBoostingClassifier.predict_proba"
       [model; X_test] []) ;;
  positive <- invoke NumPy "ndarray.__getitem__" [y_scores; VStr ":,1"] [] ;;
  auc <- assign "auc"
    (invoke Sklearn "roc_auc_score" [y_test; positive] []) ;;
  print_ [VFormat "AUC: {}" [auc]] ;;;
  auc_float <- invoke NumPy "float" [auc] [] ;;
  invoke AzureML "Run.log" [run; VStr "AUC"; auc_float] [] ;;;
  invoke PyStdlib "os.makedirs" [VStr "outputs"]
    [kw "exist_ok" (VBool true)] ;;;
  invoke Joblib "dump" []
    [kw "value" model; kw "filename" "outputs/diabetes_model.pkl"] ;;;
  invoke AzureML "Run.complete" [run] [] ;;;
  ret tt.

End DiabetesTraining.

(** ** Notebook: Explore Hyperparameters *)

Module HyperdriveNotebook.
Import Py Notebook.

(** Connect to your workspace *)
Definition connect_to_workspace : M state unit :=
  ws <- assign "ws" (invoke AzureML "Workspace.from_config" [] []) ;;
  version <- module_attr AzureML "azureml.core.VERSION" ;;
  name <- getattr AzureML "Workspace.name" ws ;;
  print_ [VFormat "Ready to use Azure ML {} to work with {}" [version; name]].

(** The [try] of the "Create the diabetes dataset" cell. *)
Definition register_dataset (ws tab_data_set : value) : M state unit :=
  try_except
    (assign "tab_data_set"
       (invoke AzureML "Dataset.register" [tab_data_set]
          [kw "workspace" ws; kw "name" "diabetes dataset";
           kw "description" "diabetes data";
           kw "tags" (VDict [("format", VStr "CSV")]);
           kw "create_new_version" (VBool true)]) ;;;
     print_ [VStr "Dataset registered."])
    ExceptionCls
    (fun ex => set "ex" (VExn ex) ;;; print_ [VExn ex] ;;; unset "ex").

(** Create the diabetes dataset *)
Definition create_dataset : M state unit :=
  ws <- get "ws" ;;
  default_ds <- assign "default_ds"
    (invoke AzureML "Workspace.get_default_datastore" [ws] []) ;;
  datasets <- getattr AzureML "Workspace.datasets" ws ;;
  registered <- lift (contains datasets "diabetes dataset") ;;
  if negb registered then
    invoke AzureML "Datastore.upload_files" [default_ds]
      [kw "files" (strs ["./data/diabetes.csv"; "./data/diabetes2.csv"]);
       kw "target_path" "diabetes-data/";
       kw "overwrite" (VBool true); kw "show_progress" (VBool true)] ;;;
    tab_data_set <- assign "tab_data_set"
      (invoke AzureML "Dataset.Tabular.from_delimited_files" []
         [kw "path" (VTuple [default_ds; VStr "diabetes-data/*.csv"])]) ;;
    register_dataset ws tab_data_set
  else
    print_ [VStr "Dataset already registered."].

(** Create an experiment folder *)
Definition create_experiment_folder : M state unit :=
  let experiment_folder := "diabetes_training-hyperdrive" in
  set "experiment_folder" experiment_folder ;;;
  invoke PyStdlib "os.makedirs" [VStr experiment_folder]
    [kw "exist_ok" (VBool true)] ;;;
  print_ [VStr "Folder ready."].

(** Create a Python script and save it in the folder:
    [%%writefile $experiment_folder/diabetes_training.py].  The body of
    the cell is the script embedded as [DiabetesTraining]. *)
Definition write_training_script : M state unit :=
  folder <- expand_var "experiment_folder" ;;
  invoke IPython "%%writefile"
    [VStr (folder +:+ "/diabetes_training.py");
     VStr "diabetes_training.py"] [] ;;;
  ret tt.

(** Assign the compute target *)
Definition assign_compute_target : M state unit :=
  let cluster_name := "ac-aml-cluster" in
  set "cluster_name" cluster_name ;;;
  try_except
    (ws <- get "ws" ;;
     assign "training_cluster"
       (invoke AzureML "ComputeTarget" []
          [kw "workspace" ws; kw "name" cluster_name]) ;;;
     ws <- get "ws" ;;
     invoke AzureML "Workspace.update" [ws]
       [kw "image_build_compute" cluster_name] ;;;
     print_ [VStr "Found existing cluster and using it."])
    ComputeTargetExceptionCls
    (fun _ => print_ [VStr "There is no existing cluster by that name."]).

(** [ds.as_named_input(name)]; [ds] comes from [dict.get] and may be
    [None]. *)
Definition as_named_input (ds : value) (name : string) : M state value :=
  match ds with
  | VNone => raise (LibraryError "AttributeError"
                      "'NoneType' object has no attribute 'as_named_input'")
  | _ => invoke AzureML "Dataset.as_named_input" [ds; VStr name] []
  end.

(** Run the hyperparameter tuning experiment *)
Definition run_hyperdrive : M state unit :=
  sklearn_env <- assign "sklearn_env"
    (invoke AzureML "Environment" [VStr "sklearn-env"] []) ;;
  packages <- assign "packages"
    (invoke AzureML "CondaDependencies.create" []
       [kw "conda_packages" (strs ["scikit-learn=1.1.3"; "pip"]);
        kw "pip_packages" (strs ["azureml-defaults";
                                 "azureml-dataprep[pandas]"])]) ;;
  python <- getattr AzureML "Environment.python" sklearn_env ;;
  setattr AzureML "PythonSection.conda_dependencies" python packages ;;;
  ws <- get "ws" ;;
  datasets <- getattr AzureML "Workspace.datasets" ws ;;
  diabetes_ds <- assign "diabetes_ds"
    (lift (dict_get datasets "diabetes dataset")) ;;
  experiment_folder <- get "experiment_folder" ;;
  named_input <- as_named_input diabetes_ds "training_data" ;;
  training_cluster <- get "training_cluster" ;;
  script_config <- assign "script_config"
    (invoke AzureML "ScriptRunConfig" []
       [kw "source_directory" experiment_folder;
        kw "script" "diabetes_training.py";
        kw "arguments" (VList [VStr "--input-data"; named_input]);
        kw "environment" sklearn_env;
        kw "compute_target" training_cluster]) ;;
  rates <- invoke AzureML "choice"
             [VDec 1 (-2); VDec 1 (-1); VDec 10 (-1)] [] ;;
  estimators <- invoke AzureML "choice" [VInt 10; VInt 100] [] ;;
  params <- assign "params"
    (invoke AzureML "GridParameterSampling"
       [VDict [("--learning_rate", rates);
               ("--n_estimators", estimators)]] []) ;;
  maximize <- module_attr AzureML "PrimaryMetricGoal.MAXIMIZE" ;;
  hyperdrive <- assign "hyperdrive"
    (invoke AzureML "HyperDriveConfig" []
       [kw "run_config" script_config;
        kw "hyperparameter_sampling" params;
        kw "policy" VNone;
        kw "primary_metric_name" "AUC";
        kw "primary_metric_goal" maximize;
        kw "max_total_runs" 6;
        kw "max_concurrent_runs" 2]) ;;
  experiment <- assign "experiment"
    (invoke AzureML "Experiment" []
       [kw "workspace" ws; kw "name" "mslearn-diabetes-hyperdrive"]) ;;
  run <- assign "run"
    (invoke AzureML "Experiment.submit" [experiment]
       [kw "config" hyperdrive]) ;;
  invoke AzureML "Run.wait_for_completion" [run] [] ;;;
  ret tt.

(** Find the best performing run *)
Definition find_best_run : M state unit :=
  run <- get "run" ;;
  children <- invoke AzureML
                "HyperDriveRun.get_children_sorted_by_primary_metric"
                [run] [] ;;
  child_runs <- lift (iterate children) ;;
  for_ child_runs (fun child_run =>
    set "child_run" child_run ;;; print_ [child_run]) ;;;
  best_run <- assign "best_run"
    (invoke AzureML "HyperDriveRun.get_best_run_by_primary_metric"
       [run] []) ;;
  best_run_metrics <- assign "best_run_metrics"
    (invoke AzureML "Run.get_metrics" [best_run] []) ;;
  details <- invoke AzureML "Run.get_details" [best_run] [] ;;
  run_definition <- lift (dict_getitem details "runDefinition") ;;
  script_arguments <- assign "script_arguments"
    (lift (dict_getitem run_definition "arguments")) ;;
  best_run_id <- getattr AzureML "Run.id" best_run ;;
  print_ [VStr "Best Run Id: "; best_run_id] ;;;
  auc <- lift (dict_getitem best_run_metrics "AUC") ;;
  print_ [VStr " -AUC:"; auc] ;;;
  accuracy <- lift (dict_getitem best_run_metrics "Accuracy") ;;
  print_ [VStr " -Accuracy:"; accuracy] ;;;
  print_ [VStr " -Arguments:"; script_arguments].

(** One round of [for model in Model.list(ws)]. *)
Definition print_model (model : value) : M state unit :=
  set "model" model ;;;
  name <- getattr AzureML "Model.name" model ;;
  version <- getattr AzureML "Model.version" model ;;
  print_ [name; VStr "version:"; version] ;;;
  tags <- getattr AzureML "Model.tags" model ;;
  tag_names <- lift (iterate tags) ;;
  for_ tag_names (fun tag_name =>
    set "tag_name" tag_name ;;;
    tags' <- getattr AzureML "Model.tags" model ;;
    key <- lift (as_str tag_name) ;;
    tag <- assign "tag" (lift (dict_getitem tags' key)) ;;
    print_ [VStr "\t"; tag_name; VStr ":"; tag]) ;;;
  properties <- getattr AzureML "Model.properties" model ;;
  prop_names <- lift (iterate properties) ;;
  for_ prop_names (fun prop_name =>
    set "prop_name" prop_name ;;;
    properties' <- getattr AzureML "Model.properties" model ;;
    key <- lift (as_str prop_name) ;;
    prop <- assign "prop" (lift (dict_getitem properties' key)) ;;
    print_ [VStr "\t"; prop_name; VStr ":"; prop]) ;;;
  print_ [VStr "\n"].

(** Register the model for that best performing run *)
Definition register_best_model : M state unit :=
  best_run <- get "best_run" ;;
  best_run_metrics <- get "best_run_metrics" ;;
  auc <- lift (dict_getitem best_run_metrics "AUC") ;;
  best_run_metrics' <- get "best_run_metrics" ;;
  accuracy <- lift (dict_getitem best_run_metrics' "Accuracy") ;;
  invoke AzureML "Run.register_model" [best_run]
    [kw "model_path" "outputs/diabetes_model.pkl";
     kw "model_name" "diabetes_model";
     kw "tags" (VDict [("Training context", VStr "Hyperdrive")]);
     kw "properties" (VDict [("AUC", auc); ("Accuracy", accuracy)])] ;;;
  ws <- get "ws" ;;
  listed <- invoke AzureML "Model.list" [ws] [] ;;
  models <- lift (iterate listed) ;;
  for_ models print_model.

Definition cells : list (string * M state unit) :=
  [("Connect to your workspace", connect_to_workspace);
   ("Create the diabetes dataset", create_dataset);
   ("Create an experiment folder", create_experiment_folder);
   ("Create a training script", write_training_script);
   ("Assign the compute target", assign_compute_target);
   ("Run the hyperparameter tuning experiment", run_hyperdrive);
   ("Find the best performing run", find_best_run);
   ("Register the best model", register_best_model)].

End HyperdriveNotebook.

(** ** Notebook: Monitor the Environment (Data Drift) *)

Module DriftNotebook.
Import Py Notebook.

(** Verify the azureml-datadrift package is installed *)
Definition verify_package : M state unit :=
  shell "pip show azureml-datadrift".

(** Connect to your workspace *)
Definition connect_to_workspace : M state unit :=
  ws <- assign "ws" (invoke AzureML "Workspace.from_config" [] []) ;;
  name <- getattr AzureML "Workspace.name" ws ;;
  print_ [VStr "Ready to work with"; name].

(** Create a baseline dataset *)
Definition create_baseline_dataset : M state unit :=
  ws <- get "ws" ;;
  default_ds <- assign "default_ds"
    (invoke AzureML "Workspace.get_default_datastore" [ws] []) ;;
  invoke AzureML "Datastore.upload_files" [default_ds]
    [kw "files" (strs ["./data/diabetes.csv"; "./data/diabetes2.csv"]);
     kw "target_path" "diabetes-baseline";
     kw "overwrite" (VBool true); kw "show_progress" (VBool true)] ;;;
  print_ [VStr "Registering baseline dataset..."] ;;;
  baseline_data_set <- assign "baseline_data_set"
    (invoke AzureML "Dataset.Tabular.from_delimited_files" []
       [kw "path" (VTuple [default_ds; VStr "diabetes-baseline/*.csv"])]) ;;
  assign "baseline_data_set"
    (invoke AzureML "Dataset.register" [baseline_data_set]
       [kw "workspace" ws; kw "name" "diabetes baseline";
        kw "description" "diabetes baseline data";
        kw "tags" (VDict [("format", VStr "CSV")]);
        kw "create_new_version" (VBool true)]) ;;;
  print_ [VStr "Baseline dataset registered!"].

(** One of the three in-place column updates: [data[col] = g(data[col])]. *)
Definition update_data (g : frame -> frame) : M state unit :=
  data <- get "data" ;;
  f <- lift (as_frame data) ;;
  set "data" (VFrame (g f)).

(** [file_paths.append(file_path)] *)
Definition append_file_path (file_path : string) : M state unit :=
  file_paths <- get "file_paths" ;;
  l <- lift (iterate file_paths) ;;
  set "file_paths" (VList (l ++ [VStr file_path])%list).

(** The body of [for weekno in weeknos]. *)
Definition generate_week (weekno : Z) : M state unit :=
  set "weekno" weekno ;;;
  today <- invoke PyStdlib "date.today" [] [] ;;
  data_date <- assign "data_date"
    (lift (date_sub today (timedelta_weeks weekno))) ;;
  update_data bump_pregnancies ;;;
  update_data scale_age ;;;
  update_data scale_bmi ;;;
  stamp <- lift (date_strftime_ymd data_date) ;;
  let file_path := "data/diabetes_" +:+ stamp +:+ ".csv" in
  set "file_path" file_path ;;;
  data <- get "data" ;;
  invoke Pandas "DataFrame.to_csv" [data; VStr file_path] [] ;;;
  append_file_path file_path.

(** The first half of the "Create a target dataset" cell: six weekly
    files written from one dataframe. *)
Definition generate_target_data : M state unit :=
  print_ [VStr "Generating simulated data..."] ;;;
  assign "data" (invoke Pandas "read_csv" [VStr "data/diabetes2.csv"] []) ;;;
  let weeknos := reversed (range 6) in
  set "weeknos" (VList (map VInt weeknos)) ;;;
  set "file_paths" (VList []) ;;;
  for_ weeknos generate_week.

(** The second half: upload and registration. *)
Definition register_target_data : M state unit :=
  let path_on_datastore := "diabetes-target" in
  set "path_on_datastore" path_on_datastore ;;;
  default_ds <- get "default_ds" ;;
  file_paths <- get "file_paths" ;;
  invoke AzureML "Datastore.upload_files" [default_ds]
    [kw "files" file_paths;
     kw "target_path" path_on_datastore;
     kw "overwrite" (VBool true); kw "show_progress" (VBool true)] ;;;
  let partition_format :=
    path_on_datastore +:+ "/diabetes_{date:yyyy-MM-dd}.csv" in
  set "partition_format" partition_format ;;;
  target_data_set <- assign "target_data_set"
    (invoke AzureML "Dataset.Tabular.from_delimited_files" []
       [kw "path" (VTuple [default_ds;
                           VStr (path_on_datastore +:+ "/*.csv")]);
        kw "partition_format" partition_format]) ;;
  print_ [VStr "Registering target dataset..."] ;;;
  stamped <- invoke AzureML "TabularDataset.with_timestamp_columns"
               [target_data_set; VStr "date"] [] ;;
  ws <- get "ws" ;;
  assign "target_data_set"
    (invoke AzureML "Dataset.register" [stamped]
       [kw "workspace" ws; kw "name" "diabetes target";
        kw "description" "diabetes target data";
        kw "tags" (VDict [("format", VStr "CSV")]);
        kw "create_new_version" (VBool true)]) ;;;
  print_ [VStr "Target dataset registered!"].

(** Create a target dataset *)
Definition create_target_dataset : M state unit :=
  generate_target_data ;;; register_target_data.

(** Assign the compute target *)
Definition assign_compute_target : M state unit :=
  let cluster_name := "ac-aml-cluster" in
  set "cluster_name" cluster_name ;;;
  try_except
    (ws <- get "ws" ;;
     assign "training_cluster"
       (invoke AzureML "ComputeTarget" []
          [kw "workspace" ws; kw "name" cluster_name]) ;;;
     print_ [VStr "Found existing cluster, use it."])
    ComputeTargetExceptionCls
    (fun _ => print_ [VStr "There is no existing cluster by that name."]).

Definition features : list string := ["Pregnancies"; "Age"; "BMI"].

(** The keyword arguments of [DataDriftDetector.create_from_datasets]. *)
Definition drift_kwargs (cluster_name : value) : list (string * value) :=
  [kw "compute_target" cluster_name;
   kw "frequency" "Week";
   kw "feature_list" (strs features);
   kw "drift_threshold" (VDec 3 (-1));
   kw "latency" 24].

(** Create the data drift monitor *)
Definition create_drift_monitor : M state unit :=
  set "features" (strs features) ;;;
  ws <- get "ws" ;;
  baseline_data_set <- get "baseline_data_set" ;;
  target_data_set <- get "target_data_set" ;;
  cluster_name <- get "cluster_name" ;;
  monitor <- assign "monitor"
    (invoke AzureML "DataDriftDetector.create_from_datasets"
       [ws; VStr "mslearn-diabates-drift";
        baseline_data_set; target_data_set]
       (drift_kwargs cluster_name)) ;;
  display monitor.

(** Backfill the data drift monitor *)
Definition backfill_monitor : M state unit :=
  monitor <- get "monitor" ;;
  now <- invoke PyStdlib "datetime.now" [] [] ;;
  start <- invoke PyStdlib "datetime.__sub__" [now; timedelta_weeks 6] [] ;;
  now' <- invoke PyStdlib "datetime.now" [] [] ;;
  backfill <- assign "backfill"
    (invoke AzureML "DataDriftDetector.backfill" [monitor; start; now'] []) ;;
  widget <- invoke AzureML "RunDetails" [backfill] [] ;;
  invoke AzureML "RunDetails.show" [widget] [] ;;;
  invoke AzureML "Run.wait_for_completion" [backfill] [] ;;;
  ret tt.

(** Analyze data drift *)
Definition analyze_drift : M state unit :=
  backfill <- get "backfill" ;;
  drift_metrics <- assign "drift_metrics"
    (invoke AzureML "Run.get_metrics" [backfill] []) ;;
  metrics <- lift (iterate drift_metrics) ;;
  for_ metrics (fun metric =>
    set "metric" metric ;;;
    key <- lift (as_str metric) ;;
    v <- lift (dict_getitem drift_metrics key) ;;
    print_ [metric; v]).

Definition cells : list (string * M state unit) :=
  [("Verify the azureml-datadrift package", verify_package);
   ("Connect to your workspace", connect_to_workspace);
   ("Create a baseline dataset", create_baseline_dataset);
   ("Create a target dataset", create_target_dataset);
   ("Assign the compute target", assign_compute_target);
   ("Create the data drift monitor", create_drift_monitor);
   ("Backfill the data drift monitor", backfill_monitor);
   ("Analyze data drift", analyze_drift)].

End DriftNotebook.

(** ** The repository *)

Module Repository.
Import Py Notebook.

(** Every code cell of the four notebooks, and the hyperdrive training
    script, which runs top to bottom like a cell. *)
Definition notebooks : list (string * list (string * M state unit)) :=
  [("Run a Batch Inferencing Pipeline", BatchNotebook.cells);
   ("Monitor the Environment (Telemetry)", TelemetryNotebook.cells);
   ("Explore Hyperparameters", HyperdriveNotebook.cells);
   ("Monitor the Environment (Data Drift)", DriftNotebook.cells)].

Definition code_cells : list (M state unit) :=
  concat (map (fun nb => map snd (snd nb)) notebooks).

Definition scripts : list (M state unit) := [DiabetesTraining.main].

(** The code cells with the name of their notebook and their own. *)
Definition named_cells : list (string * string * M state unit) :=
  flat_map (fun nb => map (fun c => (fst nb, fst c, snd c)) (snd nb))
           notebooks.

(** The cells that make no call into the platform SDK: they create a
    local folder, write a script file, ask pip, or post to the deployed
    endpoint. *)
Definition local_cells : list (string * string) :=
  [("Run a Batch Inferencing Pipeline", "Create an experiment folder");
   ("Run a Batch Inferencing Pipeline", "Create a Python script");
   ("Monitor the Environment (Telemetry)", "Create an experiment folder");
   ("Monitor the Environment (Telemetry)", "Create the scoring script");
   ("Monitor the Environment (Telemetry)", "Use the web service");
   ("Explore Hyperparameters", "Create an experiment folder");
   ("Explore Hyperparameters", "Create a training script");
   ("Monitor the Environment (Data Drift)",
    "Verify the azureml-datadrift package")].

Definition is_local (nb name : string) : bool :=
  existsb (fun p => String.eqb (fst p) nb && String.eqb (snd p) name)
          local_cells.

(** Run the cells of a notebook one after the other; the first cell that
    raises stops a "Run All". *)
Definition run_all (cells : list (string * M state unit)) : M state unit :=
  for_ cells snd.

End Repository.


(** ** Vocabulary for the statements about the batch script *)

Module BatchDiabetesSpec.
Import Py BatchDiabetes.

(** The library calls one file of the mini-batch costs when nothing
    fails. *)
Definition file_events (L : library) (m : model_t) (f : string)
  : list event :=
  match genfromtxt L f with
  | Ok data => [Genfromtxt f; Predict m (reshape_1_m1 data)]
  | Raise _ => [Genfromtxt f]
  end.

(** The first label the model predicts for the row read from [f]. *)
Definition prediction_for (L : library) (m : model_t) (f : string)
  : option Z :=
  match genfromtxt L f with
  | Ok data =>
      match predict L m (reshape_1_m1 data) with
      | Ok (p :: _) => Some p
      | _ => None
      end
  | Raise _ => None
  end.

Definition scored (L : library) (m : model_t) (f : string) : Prop :=
  is_Some (prediction_for L m f).

Definition expected_line (L : library) (m : model_t) (f : string) : string :=
  format_result f (default 0 (prediction_for L m f)).

(** The files a trace reads, in order, and how many predictions it
    asks for. *)
Definition files_read (tr : list event) : list string :=
  flat_map (fun ev => match ev with Genfromtxt f => [f] | _ => [] end) tr.

Definition is_predict (ev : event) : bool :=
  match ev with Predict _ _ => true | _ => false end.

Definition is_load (ev : event) : bool :=
  match ev with JoblibLoad _ => true | _ => false end.

Definition count_events (p : event -> bool) (tr : list event) : nat :=
  length (List.filter p tr).

(** Whether the library answered this call with an exception. *)
Definition failed (L : library) (ev : event) : bool :=
  match ev with
  | GetModelPath name => negb (is_ok (get_model_path L name))
  | JoblibLoad path => negb (is_ok (joblib_load L path))
  | Genfromtxt f => negb (is_ok (genfromtxt L f))
  | Predict m x => negb (is_ok (predict L m x))
  end.

(** A library for examples: every file holds the row [[n]] where [n] is
    the length of its path, and the model answers the parity of the
    number of elements it is given. *)
Definition example_library : library :=
  {| get_model_path := fun name => Ok ("azureml-models/" +:+ name);
     joblib_load := fun _ => Ok 7%nat;
     genfromtxt := fun f =>
       Ok {| shape := [1];
             flat := [F64.of_Z (Z.of_nat (String.length f))] |};
     predict := fun _ x =>
       Ok [match flat x with
           | [v] => match F64.rint v with
                    | Some n => n mod 2
                    | None => 0
                    end
           | _ => 0
           end] |}.

Definition example_globals : globals := {| model := Some 7%nat; trace := [] |}.
Definition fresh_globals : globals := {| model := None; trace := [] |}.

End BatchDiabetesSpec.

(** ** Vocabulary for the statements about the scoring script *)

Module ScoreDiabetesSpec.
Import Py ScoreDiabetes.

(** The class name Python's indexing gives for an index inside
    [-2, 1]. *)
Definition class_of (p : Z) : string :=
  if (p =? 0) || (p =? -2) then "not-diabetic" else "diabetic".

Definition in_bounds (p : Z) : bool := (-2 <=? p) && (p <=? 1).

Definition is_predict (ev : event) : bool :=
  match ev with Predict _ _ => true | _ => false end.

Definition is_load (ev : event) : bool :=
  match ev with JoblibLoad _ => true | _ => false end.

Definition count_events (p : event -> bool) (tr : list event) : nat :=
  length (List.filter p tr).

Definition failed (L : library) (ev : event) : bool :=
  match ev with
  | GetModelPath name => negb (is_ok (get_model_path L name))
  | JoblibLoad path => negb (is_ok (joblib_load L path))
  | JsonLoads raw => negb (is_ok (json_loads L raw))
  | NpArray data => negb (is_ok (np_array L data))
  | Predict m x => negb (is_ok (predict L m x))
  | Print _ _ => false
  end.

(** A library for examples whose model answers the given labels. *)
Definition library_predicting (labels : list Z) : library :=
  {| get_model_path := fun name => Ok ("azureml-models/" +:+ name);
     joblib_load := fun _ => Ok 7%nat;
     json_loads := fun _ => Ok (JObj [("data", JArr [JArr [JInt 2; JInt 180]])]);
     np_array := fun _ =>
       Ok {| BatchDiabetes.shape := [1; 2];
             BatchDiabetes.flat := [F64.of_Z 2; F64.of_Z 180] |};
     predict := fun _ _ => Ok labels |}.

Definition example_globals : globals := {| model := Some 7%nat; trace := [] |}.

End ScoreDiabetesSpec.

(** ** Vocabulary for the statements about the notebooks *)

Module NotebookSpec.
Import Py Notebook.

Definition is_sdk (c : call) : bool :=
  match call_lib c with AzureML => true | _ => false end.

Definition named (name : string) (c : call) : bool :=
  String.eqb (call_name c) name.

Definition any_call (c : call) : bool := true.

(** An event passes [Q] when it is not a library call or is a call that
    [Q] accepts. *)
Definition event_ok (Q : call -> bool) (ev : event) : Prop :=
  match ev with
  | ECall c _ => Q c = true
  | _ => True
  end.

(** [emits Q m]: from every state, [m] only appends events to the trace,
    leaves the world as it is, and every library call it makes passes
    [Q]. *)
Definition emits {A} (Q : call -> bool) (m : M state A) : Prop :=
  forall s, exists suf,
    trace (snd (m s)) = (trace s ++ suf)%list /\
    world (snd (m s)) = world s /\
    Forall (event_ok Q) suf.

(** The calls among the events, in order. *)
Definition calls_of (tr : list event) : list call :=
  flat_map (fun ev => match ev with ECall c _ => [c] | _ => [] end) tr.

(** What a cell adds to the trace when run from [s]. *)
Definition added {A} (m : M state A) (s : state) : list event :=
  drop (length (trace s)) (trace (snd (m s))).

(** The event is a library call that [P] accepts. *)
Definition call_event (P : call -> bool) (ev : event) : Prop :=
  match ev with
  | ECall c _ => P c = true
  | _ => False
  end.

(** [m] makes a call that [P] accepts, however it ends. *)
Definition always_calls {A} (P : call -> bool) (m : M state A) : Prop :=
  forall s, Exists (call_event P) (added m s).

(** [m] makes a call that [P] accepts whenever it runs to its end. *)
Definition calls_when_ok {A} (P : call -> bool) (m : M state A) : Prop :=
  forall s, is_ok (fst (m s)) = true -> Exists (call_event P) (added m s).


Definition not_named (name : string) (c : call) : bool :=
  negb (named name c).

Definition is_str (v : option value) (s : string) : bool :=
  match v with
  | Some (VStr x) => String.eqb x s
  | _ => false
  end.

Definition is_int (v : option value) (z : Z) : bool :=
  match v with
  | Some (VInt x) => x =? z
  | _ => false
  end.

Definition kwargs_of (c : call) : list (string * value) :=
  match c with
  | Invoke _ _ _ kwargs => kwargs
  | _ => []
  end.





(** A call on the drift detector class or on one of its objects. *)
Definition drift_call (c : call) : bool :=
  String.prefix "DataDriftDetector." (call_name c).

(** The one call that configures a drift monitor. *)
Definition monitor_call (ws baseline target cluster_name : value) : call :=
  Invoke AzureML "DataDriftDetector.create_from_datasets"
    [ws; VStr "mslearn-diabates-drift"; baseline; target]
    [("compute_target", cluster_name);
     ("frequency", VStr "Week");
     ("feature_list", VList [VStr "Pregnancies"; VStr "Age"; VStr "BMI"]);
     ("drift_threshold", VDec 3 (-1));
     ("latency", VInt 24)].

(** Drift calls other than running a backfill on an existing monitor. *)
Definition configures_drift (c : call) : bool :=
  drift_call c && negb (named "DataDriftDetector.backfill" c).

Definition no_drift_configuration (c : call) : bool :=
  negb (configures_drift c).

(** The values that [Dataset.register] calls for the dataset [name]
    returned in a trace. *)
Definition is_registration (name : string) (c : call) : bool :=
  named "Dataset.register" c && is_sdk c
  && is_str (assoc (kwargs_of c) "name") name.

Definition registered (name : string) (tr : list event) : list value :=
  flat_map (fun ev =>
    match ev with
    | ECall c (Returns v) => if is_registration name c then [v] else []
    | _ => []
    end) tr.

Definition not_registration (name : string) (c : call) : bool :=
  negb (is_registration name c).

(** The two states bind the same values to every name outside
    [names]. *)
Definition same_names_except (names : list string) (s s' : state) : Prop :=
  forall n, ~ In n names -> ns s' !! n = ns s !! n.

(** One round of the drift simulation on the dataframe. *)
Definition drift_step (f : frame) : frame :=
  scale_bmi (scale_age (bump_pregnancies f)).

(** The file the round for [weekno] weeks ago writes when today is the
    day with ordinal [d]. *)
Definition week_path (d weekno : Z) : string :=
  "data/diabetes_" +:+ strftime_ymd (d - 7 * weekno) +:+ ".csv".

(** The way back from a date to its ordinal, as [datetime.py] has it
    ([_is_leap], [_days_before_year], [_ymd2ord]).  The notebook never
    calls it; it is here to show that different days give different file
    names. *)
Definition is_leap (y : Z) : bool :=
  (y mod 4 =? 0) && (negb (y mod 100 =? 0) || (y mod 400 =? 0)).

Definition days_before_year (y : Z) : Z :=
  (y - 1) * 365 + (y - 1) / 4 - (y - 1) / 100 + (y - 1) / 400.

Definition ymd2ord (y m d : Z) : Z :=
  days_before_year y + nth (Z.to_nat m) days_before_month 0
  + (if (2 <? m) && is_leap y then 1 else 0) + d.

(** The numbers a month or a day of the month can be. *)
Definition month_days : list Z := map Z.of_nat (seq 1 31).

Definition today_call : call := Invoke PyStdlib "date.today" [] [].

Definition read_csv_call (path : string) : call :=
  Invoke Pandas "read_csv" [VStr path] [].

Definition to_csv_call (data : value) (path : string) : call :=
  Invoke Pandas "DataFrame.to_csv" [data; VStr path] [].

Definition is_returns (r : response) : bool :=
  match r with Returns _ => true | Raises _ => false end.

(** The files a trace wrote with [to_csv], with the dataframe written,
    oldest first. *)
Definition csv_writes (tr : list event) : list (string * value) :=
  flat_map (fun ev =>
    match ev with
    | ECall (Invoke Pandas fn [data; VStr path] []) (Returns _) =>
        if String.eqb fn "DataFrame.to_csv" then [(path, data)] else []
    | _ => []
    end) tr.

(** What the loop writes from the dataframe [f] over the given weeks. *)
Fixpoint writes_from (d : Z) (f : frame) (weeks : list Z)
  : list (string * value) :=
  match weeks with
  | [] => []
  | w :: rest =>
      (week_path d w, VFrame (drift_step f))
      :: writes_from d (drift_step f) rest
  end.






(** The calls of a trace that failed, with their exception. *)
Definition failures (tr : list event) : list (string * exn) :=
  flat_map (fun ev =>
    match ev with
    | ECall c (Raises e) => [(call_name c, e)]
    | _ => []
    end) tr.

(** [m] rebinds no name outside [names]. *)
Definition touches {A} (names : list string) (m : M state A) : Prop :=
  forall s, same_names_except names s (snd (m s)).

(** The partitioning parameters a [ParallelRunConfig] call must carry. *)
Definition parallel_run_parameters (c : call) : bool :=
  if named "ParallelRunConfig" c then
    is_str (assoc (kwargs_of c) "mini_batch_size") "5"
    && is_int (assoc (kwargs_of c) "error_threshold") 10
    && is_int (assoc (kwargs_of c) "node_count") 2
    && is_str (assoc (kwargs_of c) "output_action") "append_row"
    && is_str (assoc (kwargs_of c) "entry_script") "batch_diabetes.py"
  else true.

End NotebookSpec.

(** ** Worlds to run the notebooks in *)

Module Worlds.
Import Py Notebook NotebookSpec.

Definition demo_frame : frame :=
  {| Pregnancies := [0; 3; 13];
     Age := [21; 50; 43];
     BMI := [F64.of_Z 20; F64.of_Z 31] |}.

(** A workspace in which everything exists and every call succeeds.
    Calls that the notebooks take apart answer a value of the right
    shape; every other call answers an opaque object numbered by the
    length of the history. *)
Definition demo_platform : platform := fun history c =>
  match c with
  | Invoke PyStdlib "date.today" _ _ => Returns (VDate 737935)
  | Invoke Pandas "read_csv" _ _ => Returns (VFrame demo_frame)
  | Invoke Sklearn "train_test_split" _ _ =>
      Returns (VList [VObj "X_train" 0; VObj "X_test" 0;
                      VObj "y_train" 0; VObj "y_test" 0])
  | Invoke AzureML "Run.get_metrics" _ _ =>
      Returns (VDict [("AUC", VDec 88 (-2)); ("Accuracy", VDec 89 (-2))])
  | Invoke AzureML "Run.get_details" _ _ =>
      Returns (VDict [("runDefinition",
                       VDict [("arguments",
                               VList [VStr "--learning_rate"; VDec 1 (-1)])])])
  | Invoke AzureML "PipelineRun.get_children" _ _ =>
      Returns (VList [VObj "StepRun" 1])
  | Invoke AzureML "HyperDriveRun.get_children_sorted_by_primary_metric" _ _ =>
      Returns (VList [VObj "Run" 1; VObj "Run" 2])
  | Invoke AzureML "Model.list" _ _ => Returns (VList [VObj "Model" 1])
  | Invoke PyStdlib "os.walk" _ _ =>
      Returns (VList [VTuple [VStr "diabetes-results"; VList [];
                              VList [VStr "parallel_run_step.txt"]]])
  | Invoke PyStdlib "json.loads" _ _ =>
      Returns (VList [VStr "diabetic"; VStr "not-diabetic"])
  | Invoke _ fn _ _ => Returns (VObj fn (length history))
  | GetAttr AzureML "Workspace.models" _ =>
      Returns (VDict [("diabetes_model", VObj "Model" 1)])
  | GetAttr AzureML "Workspace.datasets" _ =>
      Returns (VDict [("diabetes dataset", VObj "Dataset" 1)])
  | GetAttr AzureML "Workspace.datastores" _ =>
      Returns (VDict [("workspaceblobstore", VObj "Datastore" 1)])
  | GetAttr AzureML "Datastore.name" _ => Returns (VStr "workspaceblobstore")
  | GetAttr AzureML "Model.tags" _ =>
      Returns (VDict [("Training context", VStr "Hyperdrive")])
  | GetAttr AzureML "Model.properties" _ =>
      Returns (VDict [("AUC", VDec 88 (-2))])
  | GetAttr AzureML "Run.input_datasets" _ =>
      Returns (VDict [("training_data", VObj "Dataset" 1)])
  | GetAttr Requests "Response.status_code" _ => Returns (VInt 200)
  | GetAttr _ name _ => Returns (VObj name (length history))
  | SetAttr _ _ _ _ => Returns VNone
  end.

(** The same world, except that every call named [target] raises [e]. *)
Definition failing (target : string) (e : exn) (P : platform) : platform :=
  fun history c => if named target c then Raises e else P history c.

(** A workspace without the compute cluster. *)
Definition no_cluster : platform :=
  failing "ComputeTarget"
    (ComputeTargetException "ComputeTargetNotFound") demo_platform.

(** A workspace in which registering a dataset fails. *)
Definition register_fails : platform :=
  failing "Dataset.register"
    (LibraryError "Exception" "registration failed") demo_platform.

(** The state a notebook is in after its first cell ran in [P]. *)
Definition connected (P : platform) : state :=
  snd (HyperdriveNotebook.connect_to_workspace (initial P)).

End Worlds.

(** ** Vocabulary for the statements about paths and file names *)

Module PathSpec.
Import Py.

(** The text holds no ['/']. *)
Fixpoint no_slash (s : string) : bool :=
  match s with
  | EmptyString => true
  | String c rest => negb (Ascii.eqb c "/") && no_slash rest
  end.

End PathSpec.

(** ** Vocabulary for the statements about single cells *)

Module CellSpec.
Import Py Notebook NotebookSpec.

(** The names of the calls of a trace, in order. *)
Definition call_names (tr : list event) : list string :=
  map call_name (calls_of tr).

(** Neither a script configuration, nor a hyperdrive configuration, nor
    the submission of an experiment. *)
Definition submits_nothing (c : call) : bool :=
  negb (named "ScriptRunConfig" c) && negb (named "HyperDriveConfig" c)
  && negb (named "Experiment.submit" c).

(** Neither the configuration of a parallel run, nor its step, nor a
    pipeline. *)
Definition builds_no_pipeline (c : call) : bool :=
  negb (named "ParallelRunConfig" c) && negb (named "ParallelRunStep" c)
  && negb (named "Pipeline" c).

(** The lookup of the compute cluster [name] in the workspace [ws]. *)
Definition lookup_call (ws : value) (name : string) : call :=
  Invoke AzureML "ComputeTarget" []
    [("workspace", ws); ("name", VStr name)].

Definition no_drift_call (c : call) : bool := negb (drift_call c).

(** The paths that [%%writefile] cells wrote to, the paths opened with
    the given mode, the files opened and the files closed, in order. *)
Definition written_scripts (tr : list event) : list value :=
  flat_map (fun ev =>
    match ev with
    | ECall (Invoke IPython fn (path :: _) _) (Returns _) =>
        if String.eqb fn "%%writefile" then [path] else []
    | _ => []
    end) tr.

Definition opened_for (mode : string) (tr : list event) : list value :=
  flat_map (fun ev =>
    match ev with
    | ECall (Invoke PyStdlib fn args _) (Returns _) =>
        if String.eqb fn "open" then
          match args with
          | [path; VStr m] => if String.eqb m mode then [path] else []
          | _ => []
          end
        else []
    | _ => []
    end) tr.

Definition opened (tr : list event) : list value :=
  flat_map (fun ev =>
    match ev with
    | ECall (Invoke PyStdlib fn _ _) (Returns f) =>
        if String.eqb fn "open" then [f] else []
    | _ => []
    end) tr.

Definition closed (tr : list event) : list value :=
  flat_map (fun ev =>
    match ev with
    | ECall (Invoke PyStdlib fn [f] []) _ =>
        if String.eqb fn "file.__exit__" then [f] else []
    | _ => []
    end) tr.

(** [InferenceConfig(runtime="python", entry_script=..., conda_file=...)] *)
Definition inference_config_call (entry_script conda_file : value) : call :=
  Invoke AzureML "InferenceConfig" []
    [("runtime", VStr "python"); ("entry_script", entry_script);
     ("conda_file", conda_file)].

(** [default_ds.upload_files(files=..., target_path=..., overwrite=True,
    show_progress=True)] *)
Definition upload_call (ds files : value) (target : string) : call :=
  Invoke AzureML "Datastore.upload_files" [ds]
    [("files", files); ("target_path", VStr target);
     ("overwrite", VBool true); ("show_progress", VBool true)].

(** The calls of a trace that are named [name]. *)
Definition calls_named (name : string) (tr : list event) : list call :=
  List.filter (named name) (calls_of tr).

(** The ages the statement about the drift of [Age] covers. *)
Definition ages : list Z := map Z.of_nat (seq 0 1001).

(** The years with four digits. *)
Definition years : list Z :=
  map (fun k => 1000 + Z.of_nat k) (seq 0 (Z.to_nat 9000)).

Definition is_digit (c : ascii) : bool :=
  (48 <=? nat_of_ascii c)%nat && (nat_of_ascii c <=? 57)%nat.

Fixpoint all_digits (s : string) : bool :=
  match s with
  | EmptyString => true
  | String c rest => is_digit c && all_digits rest
  end.

Definition digits (n : nat) (s : string) : bool :=
  (String.length s =? n)%nat && all_digits s.

(** A text of the form yyyy-MM-dd, every y, M and d a digit. *)
Definition is_stamp (s : string) : bool :=
  digits 4 (String.substring 0 4 s)
  && String.eqb (String.substring 4 1 s) "-"
  && digits 2 (String.substring 5 2 s)
  && String.eqb (String.substring 7 1 s) "-"
  && digits 2 (String.substring 8 2 s)
  && (String.length s =? 10)%nat.

(** The body of the loop of "Analyze data drift":
    [print(metric, drift_metrics[metric])]. *)
Definition print_metric (drift_metrics metric : value) : M state unit :=
  set "metric" metric ;;;
  key <- lift (as_str metric) ;;
  v <- lift (dict_getitem drift_metrics key) ;;
  print_ [metric; v].













(** The calls of the cell that uses the web service. *)
Definition dumps_call : call :=
  Invoke PyStdlib "json.dumps" [VDict [("data", TelemetryNotebook.x_new)]] [].

Definition post_call (endpoint input_json : value) : call :=
  Invoke Requests "post" [endpoint; input_json]
    [("headers", VDict [("Content-Type", VStr "application/json")])].

Definition status_call (response : value) : call :=
  GetAttr Requests "Response.status_code" response.

Definition body_call (response : value) : call :=
  Invoke Requests "Response.json" [response] [].

Definition loads_call (body : value) : call :=
  Invoke PyStdlib "json.loads" [body] [].

(** The rows of [x_new]. *)
Definition patients : list value :=
  match TelemetryNotebook.x_new with
  | VList rows => rows
  | _ => []
  end.

(** The lines the cell prints for the classes the service answered. *)
Definition patient_lines (classes : list value) : list event :=
  map (fun rc => EPrint [VFormat "Patient {}" [fst rc]; snd rc])
      (combine patients classes).

End CellSpec.

(** ** Vocabulary for the statements about unbound names *)

Module NameSpec.
Import Py Notebook.

(** Every name of [B] is bound in the kernel. *)
Definition bound (B : list string) (s : state) : Prop :=
  forall n, In n B -> is_Some (ns s !! n).






End NameSpec.

(** ** More worlds to run single cells in *)

Module MoreWorlds.
Import Py Notebook NotebookSpec CellSpec.

(** A deployed service that answers every request with the status
    [code] and, in the body, the JSON list of [classes]. *)
Definition service (code : value) (classes : list value) : platform :=
  fun history c =>
    match c with
    | Invoke PyStdlib "json.dumps" _ _ => Returns (VStr "{...}")
    | Invoke Requests "post" _ _ => Returns (VObj "Response" 1)
    | GetAttr Requests "Response.status_code" _ => Returns code
    | Invoke Requests "Response.json" _ _ => Returns (VStr "[...]")
    | Invoke PyStdlib "json.loads" _ _ => Returns (VList classes)
    | _ => Returns (VObj "object" (length history))
    end.

(** A kernel in which the endpoint of the service is known. *)
Definition with_endpoint (P : platform) : state :=
  {| ns := <["endpoint" := VStr "http://service/score"]> ∅;
     trace := [];
     world := P |}.

End MoreWorlds.
(** * Properties *)

(** ** The batch-scoring entry script *)

Module BatchDiabetesFacts.
Import Py BatchDiabetes BatchDiabetesSpec.

Lemma list_getitem_0 {A} (x : A) (l : list A) :
  list_getitem (x :: l) 0 = Ok x.
Proof.
  unfold list_getitem. cbn [length].
  replace (0 <? 0) with false by reflexivity.
  rewrite Nat2Z.inj_succ.
  destruct (Z.ltb_spec 0 0); [lia|].
  destruct (Z.leb_spec (Z.succ (Z.of_nat (length l))) 0); [lia|].
  reflexivity.
Qed.

Lemma run_loop_ok (L : library) (m : model_t) (mini_batch : list string) :
  Forall (scored L m) mini_batch ->
  forall (acc : list string) (g : globals),
    model g = Some m ->
    fold_for mini_batch acc (score_file L) g
    = (Ok (acc ++ map (expected_line L m) mini_batch)%list,
       {| model := Some m;
          trace := (trace g ++ flat_map (file_events L m) mini_batch)%list |}).
Proof.
  induction 1 as [|f rest Hf _ IH]; intros acc g Hm.
  - cbn. rewrite !app_nil_r. destruct g; cbn in *; subst; reflexivity.
  - cbn [fold_for map flat_map].
    unfold scored, prediction_for in Hf.
    unfold expected_line at 1, prediction_for, file_events at 1.
    destruct (genfromtxt L f) as [data|e] eqn:Hg; [|destruct Hf; discriminate].
    destruct (predict L m (reshape_1_m1 data)) as [[|p ps]|e] eqn:Hp;
      try (destruct Hf; discriminate).
    unfold bind at 1, score_file at 1.
    cbv [bind lib get_model lift ret]. cbn [model trace].
    rewrite Hg, Hm, Hp, list_getitem_0.
    rewrite IH by reflexivity. cbn [model trace default].
    rewrite <- !app_assoc. reflexivity.
Qed.

Lemma files_read_app (a b : list event) :
  files_read (a ++ b) = (files_read a ++ files_read b)%list.
Proof. unfold files_read. apply flat_map_app. Qed.

Lemma count_events_app (p : event -> bool) (a b : list event) :
  count_events p (a ++ b) = (count_events p a + count_events p b)%nat.
Proof. unfold count_events. rewrite List.filter_app, length_app. reflexivity. Qed.

Lemma run_loop_scored_trace (L : library) (m : model_t) (mb : list string) :
  Forall (scored L m) mb ->
  files_read (flat_map (file_events L m) mb) = mb /\
  count_events is_predict (flat_map (file_events L m) mb) = length mb.
Proof.
  induction 1 as [|f rest Hf _ [IH1 IH2]]; [split; reflexivity|].
  cbn [flat_map]. rewrite files_read_app, count_events_app, IH1, IH2.
  unfold scored, prediction_for in Hf.
  assert (He : file_events L m f
               = match genfromtxt L f with
                 | Ok data => [Genfromtxt f; Predict m (reshape_1_m1 data)]
                 | Raise _ => [Genfromtxt f]
                 end) by reflexivity.
  rewrite He.
  destruct (genfromtxt L f); [|destruct Hf; discriminate].
  split; reflexivity.
Qed.

(** Whatever the library answers, the loop reads the files of the
    mini-batch in order, each once, stops at the first failure, and asks
    for at most one prediction per file read. *)
Lemma run_loop_trace (L : library) (mb : list string) :
  forall (acc : list string) (g g' : globals) (r : outcome (list string)),
  fold_for mb acc (score_file L) g = (r, g') ->
  exists suf,
    g' = {| model := model g; trace := (trace g ++ suf)%list |} /\
    (exists rest, mb = (files_read suf ++ rest)%list) /\
    (count_events is_predict suf <= length (files_read suf))%nat /\
    (is_ok r = true ->
     files_read suf = mb /\ count_events is_predict suf = length mb) /\
    (forall ev, In ev suf -> failed L ev = true -> is_ok r = false).
Proof.
  induction mb as [|f rest IH]; intros acc g g' r Heq.
  - exists []. cbn in Heq. injection Heq as <- <-. cbn.
    rewrite app_nil_r. destruct g.
    split; [reflexivity|]. split; [exists []; reflexivity|].
    split; [lia|]. split; [split; reflexivity|]. intros ev [].
  - cbn [fold_for] in Heq. unfold bind at 1, score_file at 1 in Heq.
    cbv [bind lib get_model lift ret] in Heq. cbn [model trace] in Heq.
    destruct (genfromtxt L f) as [data|e] eqn:Hg.
    2:{ injection Heq as <- <-. exists [Genfromtxt f]. cbn.
        split; [reflexivity|]. split; [exists rest; reflexivity|].
        split; [lia|]. split; [discriminate|]. reflexivity. }
    destruct (model g) as [m|] eqn:Hm.
    2:{ injection Heq as <- <-. exists [Genfromtxt f]. cbn.
        split; [reflexivity|]. split; [exists rest; reflexivity|].
        split; [lia|]. split; [discriminate|]. reflexivity. }
    destruct (predict L m (reshape_1_m1 data)) as [prediction|e] eqn:Hp.
    2:{ injection Heq as <- <-.
        exists [Genfromtxt f; Predict m (reshape_1_m1 data)]. cbn.
        rewrite <- app_assoc.
        split; [reflexivity|]. split; [exists rest; reflexivity|].
        split; [lia|]. split; [discriminate|]. reflexivity. }
    destruct (list_getitem prediction 0) as [p0|e] eqn:Hi.
    2:{ injection Heq as <- <-.
        exists [Genfromtxt f; Predict m (reshape_1_m1 data)]. cbn.
        rewrite <- app_assoc.
        split; [reflexivity|]. split; [exists rest; reflexivity|].
        split; [lia|]. split; [discriminate|]. reflexivity. }
    apply IH in Heq.
    destruct Heq as (suf & Hs & [rest' Hpre] & Hle & Hok & Hfail).
    exists ([Genfromtxt f; Predict m (reshape_1_m1 data)] ++ suf)%list.
    cbn [model trace] in Hs.
    rewrite Hs. rewrite files_read_app, count_events_app. cbn.
    split; [rewrite <- !app_assoc; reflexivity|].
    split; [exists rest'; cbn; congruence|].
    split; [lia|].
    split.
    + intros H. apply Hok in H. destruct H as [-> ->]. split; reflexivity.
    + intros ev [<-|[<-|Hin]] Hf.
      * cbn in Hf. rewrite Hg in Hf. discriminate.
      * cbn in Hf. rewrite Hp in Hf. discriminate.
      * eauto.
Qed.

(** [init] asks for the model's path, then loads the model: one load,
    none when the path cannot be found. *)
Lemma init_loads_once (L : library) (g : globals) :
  exists suf,
    trace (snd (init L g)) = (trace g ++ suf)%list /\
    (count_events is_load suf <= 1)%nat /\
    (is_ok (fst (init L g)) = true -> count_events is_load suf = 1%nat) /\
    (forall ev, In ev suf -> failed L ev = true ->
     is_ok (fst (init L g)) = false).
Proof.
  unfold init. cbv [bind lib set_model]. cbn [model trace].
  destruct (get_model_path L "diabetes_model") as [path|e] eqn:Hp.
  - destruct (joblib_load L path) as [m|e] eqn:Hl.
    + exists [GetModelPath "diabetes_model"; JoblibLoad path].
      cbn. rewrite <- app_assoc.
      split; [reflexivity|]. split; [lia|]. split; [reflexivity|].
      intros ev [<-|[<-|[]]] Hf; cbn in Hf.
      * rewrite Hp in Hf. discriminate.
      * rewrite Hl in Hf. discriminate.
    + exists [GetModelPath "diabetes_model"; JoblibLoad path].
      cbn. rewrite <- app_assoc.
      split; [reflexivity|]. split; [lia|]. split; [discriminate|].
      reflexivity.
  - exists [GetModelPath "diabetes_model"]. cbn.
    split; [reflexivity|]. split; [lia|]. split; [discriminate|].
    reflexivity.
Qed.

Lemma run_predicts_once_per_file (L : library) (mb : list string)
    (g : globals) :
  exists suf,
    trace (snd (run L mb g)) = (trace g ++ suf)%list /\
    (count_events is_predict suf <= length mb)%nat /\
    (is_ok (fst (run L mb g)) = true ->
     count_events is_predict suf = length mb).
Proof.
  unfold run.
  destruct (fold_for mb [] (score_file L) g) as [r g'] eqn:Heq.
  destruct (run_loop_trace L mb [] g g' r Heq)
    as (suf & -> & [rest Hpre] & Hle & Hok & _).
  exists suf. cbn [fst snd trace].
  split; [reflexivity|]. split.
  - apply (f_equal (@length string)) in Hpre.
    rewrite length_app in Hpre. lia.
  - intros H. apply Hok, H.
Qed.

(** C5, as the claim has it, fails: on a mini-batch of two files [run]
    asks the model for two predictions, one per file. *)
Lemma run_predicts_twice_for_two_files :
  count_events is_predict
    (trace (snd (run example_library
                   ["batch-data/1.csv"; "batch-data/12.csv"]
                   example_globals))) = 2%nat.
Proof. vm_compute. reflexivity. Qed.

(** C3: for every mini-batch whose files the library can read and score
    (and after [init] has bound the model), [run] returns a list as long as
    the mini-batch, in the same order, whose i-th element is the base name
    of the i-th file, a colon and a space, and the first prediction for
    the row read from that file. *)
Theorem run_returns_one_line_per_file
    (L : library) (m : model_t) (g : globals) (mini_batch : list string)
    (prediction_of : string -> Z) :
  model g = Some m ->
  (forall f, In f mini_batch ->
     exists data others,
       genfromtxt L f = Ok data /\
       predict L m (reshape_1_m1 data) = Ok (prediction_of f :: others)) ->
  exists results,
    fst (run L mini_batch g) = Ok results /\
    length results = length mini_batch /\
    forall i f, nth_error mini_batch i = Some f ->
      nth_error results i
      = Some (basename f +:+ ": " +:+ str_int (prediction_of f)).
Proof.
  intros Hm Hlib.
  assert (Hs : Forall (scored L m) mini_batch).
  { apply List.Forall_forall. intros f Hf.
    destruct (Hlib f Hf) as (data & others & Hg & Hp).
    unfold scored, prediction_for. rewrite Hg, Hp. eexists; reflexivity. }
  exists (map (expected_line L m) mini_batch).
  unfold run. rewrite (run_loop_ok L m mini_batch Hs [] g Hm). cbn [fst].
  repeat split.
  - apply length_map.
  - intros i f Hi. rewrite nth_error_map, Hi. cbn.
    destruct (Hlib f (nth_error_In _ _ Hi)) as (data & others & Hg & Hp).
    unfold expected_line, prediction_for, format_result.
    rewrite Hg, Hp. reflexivity.
Qed.

Lemma run_returns_one_line_per_file_witness :
  exists results,
    fst (run example_library ["batch-data/1.csv"; "batch-data/12.csv"]
           example_globals) = Ok results /\
    length results = 2%nat /\
    forall i f,
      nth_error ["batch-data/1.csv"; "batch-data/12.csv"] i = Some f ->
      nth_error results i
      = Some (basename f +:+ ": "
              +:+ str_int (Z.of_nat (String.length f) mod 2)).
Proof.
  apply (run_returns_one_line_per_file example_library 7%nat example_globals
           ["batch-data/1.csv"; "batch-data/12.csv"]
           (fun f => Z.of_nat (String.length f) mod 2)).
  - reflexivity.
  - intros f [<-|[<-|[]]]; eexists; eexists; split; try reflexivity;
      vm_compute; reflexivity.
Defined.

Example run_on_two_files :
  fst (run example_library ["batch-data/1.csv"; "batch-data/12.csv"]
         example_globals)
  = Ok ["1.csv: 0"; "12.csv: 1"].
Proof. vm_compute. reflexivity. Qed.

End BatchDiabetesFacts.

(** ** The web-service entry script *)

Module ScoreDiabetesFacts.
Import Py ScoreDiabetes ScoreDiabetesSpec.

Lemma in_bounds_spec (p : Z) : in_bounds p = true <-> -2 <= p <= 1.
Proof. unfold in_bounds. rewrite andb_true_iff, !Z.leb_le. reflexivity. Qed.

(** [classnames[p]] succeeds exactly on the four indices -2, -1, 0, 1. *)
Lemma classnames_getitem (p : Z) :
  list_getitem classnames p
  = if in_bounds p then Ok (class_of p) else Raise IndexError.
Proof.
  destruct (in_bounds p) eqn:Hb.
  - apply in_bounds_spec in Hb.
    assert (Hc : p = -2 \/ p = -1 \/ p = 0 \/ p = 1) by lia.
    destruct Hc as [-> | [-> | [-> | ->]]]; reflexivity.
  - assert (Hn : ~ (-2 <= p <= 1)).
    { intros H. apply in_bounds_spec in H. congruence. }
    unfold list_getitem. cbn [length classnames].
    change (Z.of_nat 2) with 2.
    destruct (Z.ltb_spec p 0).
    + destruct (Z.ltb_spec (p + 2) 0); [reflexivity|lia].
    + destruct (Z.ltb_spec p 0); [lia|].
      destruct (Z.leb_spec 2 p); [reflexivity|lia].
Qed.

Lemma classify_loop (preds : list Z) :
  forall (acc : list string) (g : globals),
    fold_for preds acc classify g
    = if forallb in_bounds preds
      then (Ok (acc ++ map class_of preds)%list, g)
      else (Raise IndexError, g).
Proof.
  induction preds as [|p rest IH]; intros acc g.
  - cbn. rewrite app_nil_r. reflexivity.
  - cbn [fold_for forallb map]. unfold bind at 1, classify at 1.
    cbv [bind lift ret]. rewrite classnames_getitem.
    destruct (in_bounds p); cbn [andb]; [|reflexivity].
    rewrite IH. destruct (forallb in_bounds rest); [|reflexivity].
    rewrite <- app_assoc. reflexivity.
Qed.

(** What [run] does once the request has been decoded and scored. *)
Lemma run_after_predict (L : library) (g : globals) (m : model_t)
    (raw : string) (loaded data : json) (arr : ndarray) (preds : list Z) :
  model g = Some m ->
  json_loads L raw = Ok loaded ->
  getitem_str loaded "data" = Ok data ->
  np_array L data = Ok arr ->
  predict L m arr = Ok preds ->
  fst (run L raw g)
  = if forallb in_bounds preds
    then Ok (json_dumps_strs (map class_of preds))
    else Raise IndexError.
Proof.
  intros Hm Hl Hd Ha Hp. unfold run.
  cbv [bind lib get_model lift ret]. cbn [model trace].
  rewrite Hl, Hd, Ha, Hm, Hp, classify_loop.
  destruct (forallb in_bounds preds); reflexivity.
Qed.

(** C4, as the code has it: [run] maps each prediction through
    [classnames] and returns the JSON list of the class names, one per
    prediction; the indexing is in bounds precisely for the predictions
    in -2..1, because a negative index counts from the end of the list;
    so binary labels never raise, and a prediction below -2 or above 1
    makes [run] raise [IndexError]. *)
Theorem run_maps_predictions_through_classnames
    (L : library) (g : globals) (m : model_t)
    (raw : string) (loaded data : json) (arr : ndarray) (preds : list Z) :
  model g = Some m ->
  json_loads L raw = Ok loaded ->
  getitem_str loaded "data" = Ok data ->
  np_array L data = Ok arr ->
  predict L m arr = Ok preds ->
  (is_ok (fst (run L raw g)) = true <-> Forall (fun p => -2 <= p <= 1) preds)
  /\ (Forall (fun p => -2 <= p <= 1) preds ->
      fst (run L raw g) = Ok (json_dumps_strs (map class_of preds))
      /\ length (map class_of preds) = length preds)
  /\ (Forall (fun p => p = 0 \/ p = 1) preds ->
      fst (run L raw g)
      = Ok (json_dumps_strs
              (map (fun p => if p =? 0 then "not-diabetic" else "diabetic")
                   preds)))
  /\ (Exists (fun p => p < -2 \/ 1 < p) preds ->
      fst (run L raw g) = Raise IndexError).
Proof.
  intros Hm Hl Hd Ha Hp.
  rewrite (run_after_predict L g m raw loaded data arr preds Hm Hl Hd Ha Hp).
  assert (Hall : forallb in_bounds preds = true
                 <-> Forall (fun p => -2 <= p <= 1) preds).
  { rewrite forallb_forall, List.Forall_forall.
    split; intros H p Hin; apply in_bounds_spec, H, Hin. }
  split; [|split; [|split]].
  - split; intros H.
    + apply Hall. destruct (forallb in_bounds preds); [reflexivity|discriminate].
    + apply Hall in H. rewrite H. reflexivity.
  - intros H. apply Hall in H. rewrite H. split; [reflexivity|].
    apply length_map.
  - intros H.
    assert (Hb : Forall (fun p => -2 <= p <= 1) preds).
    { eapply List.Forall_impl; [|exact H]. cbn. lia. }
    apply Hall in Hb. rewrite Hb. do 2 f_equal.
    apply map_ext_in. intros p Hin.
    rewrite List.Forall_forall in H. destruct (H p Hin) as [-> | ->]; reflexivity.
  - intros H. destruct (forallb in_bounds preds); [|reflexivity].
    destruct Hall as [Hb _]. specialize (Hb eq_refl).
    rewrite List.Forall_forall in Hb.
    apply List.Exists_exists in H. destruct H as (p & Hin & Hp').
    specialize (Hb p Hin). lia.
Qed.

Lemma run_maps_predictions_through_classnames_witness :
  (is_ok (fst (run (library_predicting [1; 0; -1]) "{}" example_globals))
   = true <-> Forall (fun p => -2 <= p <= 1) [1; 0; -1])
  /\ fst (run (library_predicting [1; 0; -1]) "{}" example_globals)
     = Ok (json_dumps_strs ["diabetic"; "not-diabetic"; "diabetic"]).
Proof.
  pose proof (run_maps_predictions_through_classnames
                (library_predicting [1; 0; -1]) example_globals 7%nat "{}"
                (JObj [("data", JArr [JArr [JInt 2; JInt 180]])])
                (JArr [JArr [JInt 2; JInt 180]])
                {| BatchDiabetes.shape := [1; 2];
                   BatchDiabetes.flat := [F64.of_Z 2; F64.of_Z 180] |}
                [1; 0; -1]
                eq_refl eq_refl eq_refl eq_refl eq_refl) as (H1 & H2 & _).
  split; [exact H1|].
  apply H2. repeat constructor; lia.
Defined.

(** C4, as the claim has it, fails: the model answers -1, which is
    neither 0 nor 1, and [run] does not raise but answers
    ['diabetic']. *)
Lemma run_accepts_minus_one :
  predict (library_predicting [-1]) 7%nat
    {| BatchDiabetes.shape := [1; 2];
       BatchDiabetes.flat := [F64.of_Z 2; F64.of_Z 180] |} = Ok [-1]
  /\ ~ (-1 = 0 \/ -1 = 1)
  /\ fst (run (library_predicting [-1]) "{}" example_globals)
     = Ok (json_dumps_strs ["diabetic"]).
Proof.
  split; [reflexivity|]. split; [lia|]. vm_compute. reflexivity.
Qed.


Lemma classify_loop_state (preds : list Z) (acc : list string) (g : globals) :
  snd (fold_for preds acc classify g) = g.
Proof. rewrite classify_loop. destruct (forallb in_bounds preds); reflexivity. Qed.


End ScoreDiabetesFacts.

(** ** Notebook cells: which calls they make *)

Module NotebookFacts.
Import Py Notebook NotebookSpec.

Section Emits.
Context (Q : call -> bool).

Lemma emits_silent {A} (m : M state A) :
  (forall s, snd (m s) = s) -> emits Q m.
Proof.
  intros H s. exists []. rewrite H, app_nil_r. repeat split. constructor.
Qed.

Lemma emits_ret {A} (a : A) : emits Q (ret a).
Proof. apply emits_silent. reflexivity. Qed.

Lemma emits_raise {A} (e : exn) : emits Q (@raise state A e).
Proof. apply emits_silent. reflexivity. Qed.

Lemma emits_lift {A} (o : outcome A) : emits Q (lift o).
Proof. apply emits_silent. reflexivity. Qed.

Lemma emits_get (name : string) : emits Q (get name).
Proof.
  apply emits_silent. intros s. unfold get. destruct (ns s !! name); reflexivity.
Qed.

Lemma emits_expand_var (name : string) : emits Q (expand_var name).
Proof.
  apply emits_silent. intros s. unfold expand_var.
  destruct (ns s !! name) as [[]|]; reflexivity.
Qed.

Lemma emits_set (name : string) (v : value) : emits Q (set name v).
Proof.
  intros s. exists []. cbn. rewrite app_nil_r. repeat split. constructor.
Qed.

Lemma emits_unset (name : string) : emits Q (unset name).
Proof.
  intros s. exists []. cbn. rewrite app_nil_r. repeat split. constructor.
Qed.

Lemma emits_print (args : list value) : emits Q (print_ args).
Proof.
  intros s. exists [EPrint args]. cbn. repeat split.
  repeat constructor.
Qed.

Lemma emits_display (v : value) : emits Q (display v).
Proof.
  intros s. exists [EDisplay v]. cbn. repeat split.
  repeat constructor.
Qed.

Lemma emits_shell (cmd : string) : emits Q (shell cmd).
Proof.
  intros s. exists [EShell cmd]. cbn. repeat split.
  repeat constructor.
Qed.

Lemma emits_do_call (c : call) : Q c = true -> emits Q (do_call c).
Proof.
  intros Hc s. unfold do_call.
  destruct (world s (trace s) c) as [v|e].
  - exists [ECall c (Returns v)]. cbn. repeat split. repeat constructor. exact Hc.
  - exists [ECall c (Raises e)]. cbn. repeat split. repeat constructor. exact Hc.
Qed.

Lemma emits_bind {A B} (m : M state A) (f : A -> M state B) :
  emits Q m -> (forall a, emits Q (f a)) -> emits Q (bind m f).
Proof.
  intros Hm Hf s. unfold bind.
  destruct (Hm s) as (suf1 & Ht1 & Hw1 & Hq1).
  destruct (m s) as [[a|e] s1]; cbn [snd] in *.
  - destruct (Hf a s1) as (suf2 & Ht2 & Hw2 & Hq2).
    exists (suf1 ++ suf2)%list.
    rewrite Ht2, Ht1, Hw2, Hw1, app_assoc. repeat split.
    apply Forall_app. split; assumption.
  - exists suf1. repeat split; assumption.
Qed.

Lemma emits_try_except {A} (body : M state A) (cls : exn_class)
    (handler : exn -> M state A) :
  emits Q body -> (forall e, emits Q (handler e)) ->
  emits Q (try_except body cls handler).
Proof.
  intros Hb Hh s. unfold try_except.
  destruct (Hb s) as (suf1 & Ht1 & Hw1 & Hq1).
  destruct (body s) as [[a|e] s1]; cbn [snd] in *.
  - exists suf1. repeat split; assumption.
  - destruct (isinstance e cls).
    + destruct (Hh e s1) as (suf2 & Ht2 & Hw2 & Hq2).
      exists (suf1 ++ suf2)%list.
      rewrite Ht2, Ht1, Hw2, Hw1, app_assoc. repeat split.
      apply Forall_app. split; assumption.
    + exists suf1. repeat split; assumption.
Qed.

Lemma emits_for {A} (xs : list A) (body : A -> M state unit) :
  (forall x, emits Q (body x)) -> emits Q (for_ xs body).
Proof.
  intros Hb. induction xs as [|x xs IH]; cbn [for_].
  - apply emits_ret.
  - apply emits_bind; [apply Hb|intros _; exact IH].
Qed.

Lemma emits_with_open {A} (path mode : value) (body : value -> M state A) :
  Q (Invoke PyStdlib "open" [path; mode] []) = true ->
  (forall f, Q (file_exit f) = true) ->
  (forall f, emits Q (body f)) ->
  emits Q (with_open path mode body).
Proof.
  intros Ho Hx Hb. unfold with_open. apply emits_bind.
  - apply emits_do_call. exact Ho.
  - intros f s.
    destruct (Hb f s) as (suf1 & Ht1 & Hw1 & Hq1).
    destruct (body f s) as [r s1]; cbn [snd] in *.
    destruct (emits_do_call (file_exit f) (Hx f) s1) as (suf2 & Ht2 & Hw2 & Hq2).
    destruct (do_call (file_exit f) s1) as [[u|e] s2]; cbn [snd] in *;
      exists (suf1 ++ suf2)%list;
      rewrite Ht2, Ht1, Hw2, Hw1, app_assoc; repeat split;
      apply Forall_app; split; assumption.
Qed.

End Emits.

Lemma emits_weaken {A} (Q Q' : call -> bool) (m : M state A) :
  (forall c, Q c = true -> Q' c = true) -> emits Q m -> emits Q' m.
Proof.
  intros HQ Hm s. destruct (Hm s) as (suf & Ht & Hw & Hq).
  exists suf. repeat split; try assumption.
  eapply List.Forall_impl; [|exact Hq].
  intros [c r| | |]; cbn; auto.
Qed.

Ltac head_of t :=
  lazymatch t with
  | ?f _ => head_of f
  | _ => t
  end.

(** One step of the syntax-directed proof that a cell [emits Q]. *)
Ltac emits_step :=
  lazymatch goal with
  | |- emits _ (bind _ _) => apply emits_bind; [|intros ?]
  | |- emits _ (ret _) => apply emits_ret
  | |- emits _ (raise _) => apply emits_raise
  | |- emits _ (lift _) => apply emits_lift
  | |- emits _ (get _) => apply emits_get
  | |- emits _ (set _ _) => apply emits_set
  | |- emits _ (unset _) => apply emits_unset
  | |- emits _ (expand_var _) => apply emits_expand_var
  | |- emits _ (print_ _) => apply emits_print
  | |- emits _ (display _) => apply emits_display
  | |- emits _ (shell _) => apply emits_shell
  | |- emits _ (do_call _) => apply emits_do_call; reflexivity
  | |- emits _ (invoke _ _ _ _) => unfold invoke
  | |- emits _ (getattr _ _ _) => unfold getattr
  | |- emits _ (setattr _ _ _ _) => unfold setattr
  | |- emits _ (module_attr _ _) => unfold module_attr
  | |- emits _ (assign _ _) => unfold assign
  | |- emits _ (try_except _ _ _) => apply emits_try_except; [|intros ?]
  | |- emits _ (for_ _ _) => apply emits_for; intros ?
  | |- emits _ (with_open _ _ _) =>
      apply emits_with_open; [reflexivity|intros ?; reflexivity|intros ?]
  | |- emits _ (if ?b then _ else _) => destruct b
  | |- emits _ (match ?p with pair _ _ => _ end) => destruct p
  | |- emits _ (HyperdriveNotebook.as_named_input ?ds _) =>
      unfold HyperdriveNotebook.as_named_input; destruct ds
  | |- emits _ ?m => let h := head_of m in unfold h
  end.

Ltac emits_auto := repeat (cbv beta iota; emits_step).

(** Split a statement about every cell of the repository into one goal
    per cell. *)
Ltac each_cell tac :=
  cbv [Repository.code_cells Repository.scripts Repository.notebooks
       BatchNotebook.cells TelemetryNotebook.cells HyperdriveNotebook.cells
       DriftNotebook.cells concat map snd app];
  repeat (apply List.Forall_cons; [tac|]);
  apply List.Forall_nil.

(** Every cell and the training script only ever append to the trace. *)
Lemma cells_extend_trace :
  Forall (emits any_call) (Repository.code_cells ++ Repository.scripts).
Proof.
  each_cell ltac:(emits_auto).
Qed.

Lemma added_app {A} (m : M state A) (s : state) (suf : list event) :
  trace (snd (m s)) = (trace s ++ suf)%list -> added m s = suf.
Proof. intros H. unfold added. rewrite H. apply drop_app_length. Qed.

Lemma added_emits {A} (Q : call -> bool) (m : M state A) :
  emits Q m -> forall s, Forall (event_ok Q) (added m s).
Proof.
  intros Hm s. destruct (Hm s) as (suf & Ht & _ & Hq).
  rewrite (added_app m s suf Ht). exact Hq.
Qed.

Lemma added_bind_ok {A B} (m : M state A) (f : A -> M state B)
    (s s1 : state) (a : A) :
  emits any_call m -> emits any_call (f a) -> m s = (Ok a, s1) ->
  added (bind m f) s = (added m s ++ added (f a) s1)%list.
Proof.
  intros Hm Hf Heq.
  destruct (Hm s) as (suf1 & Ht1 & _). destruct (Hf s1) as (suf2 & Ht2 & _).
  rewrite (added_app m s suf1 Ht1), (added_app (f a) s1 suf2 Ht2).
  apply added_app. unfold bind. rewrite Heq in *. cbn [snd] in *.
  rewrite Ht2, Ht1, app_assoc. reflexivity.
Qed.

Lemma added_bind_raise {A B} (m : M state A) (f : A -> M state B)
    (s s1 : state) (e : exn) :
  m s = (Raise e, s1) -> added (bind m f) s = added m s.
Proof.
  intros Heq. unfold added, bind. rewrite Heq. reflexivity.
Qed.

Section Calls.
Context (P : call -> bool).

Lemma always_do_call (c : call) : P c = true -> always_calls P (do_call c).
Proof.
  intros Hc s. unfold do_call.
  destruct (world s (trace s) c) as [v|e] eqn:Hw.
  - rewrite (added_app _ s [ECall c (Returns v)]).
    + constructor. exact Hc.
    + unfold do_call. rewrite Hw. reflexivity.
  - rewrite (added_app _ s [ECall c (Raises e)]).
    + constructor. exact Hc.
    + unfold do_call. rewrite Hw. reflexivity.
Qed.

Lemma always_bind_l {A B} (m : M state A) (f : A -> M state B) :
  always_calls P m -> emits any_call m -> (forall a, emits any_call (f a)) ->
  always_calls P (bind m f).
Proof.
  intros Ha Hm Hf s. specialize (Ha s).
  destruct (m s) as [[a|e] s1] eqn:Heq.
  - rewrite (added_bind_ok m f s s1 a Hm (Hf a) Heq).
    apply Exists_app. left. exact Ha.
  - rewrite (added_bind_raise m f s s1 e Heq). exact Ha.
Qed.

Lemma calls_of_always {A} (m : M state A) :
  always_calls P m -> calls_when_ok P m.
Proof. intros H s _. apply H. Qed.

Lemma calls_bind_r {A B} (m : M state A) (f : A -> M state B) :
  emits any_call m -> (forall a, emits any_call (f a)) ->
  (forall a, calls_when_ok P (f a)) ->
  calls_when_ok P (bind m f).
Proof.
  intros Hm Hf Hc s Hok.
  destruct (m s) as [[a|e] s1] eqn:Heq.
  - rewrite (added_bind_ok m f s s1 a Hm (Hf a) Heq).
    apply Exists_app. right. apply Hc.
    unfold bind in Hok. rewrite Heq in Hok. exact Hok.
  - unfold bind in Hok. rewrite Heq in Hok. discriminate.
Qed.

(** The shape of the three compute-target cells: the name [ws] is read
    inside the [try], then the lookup is made. *)
Lemma calls_try_get {A} (name : string) (rest : value -> M state A)
    (cls : exn_class) (handler : exn -> M state A) :
  (forall v, always_calls P (rest v)) ->
  (forall v, emits any_call (rest v)) ->
  (forall e, emits any_call (handler e)) ->
  isinstance (NameError name) cls = false ->
  calls_when_ok P (try_except (bind (get name) rest) cls handler).
Proof.
  intros Ha Hr Hh Hcls s Hok. unfold try_except, bind, get in *.
  unfold added. cbn [snd].
  destruct (ns s !! name) as [v|].
  - specialize (Ha v s). destruct (Hr v s) as (suf1 & Ht1 & _).
    rewrite (added_app _ s suf1 Ht1) in Ha.
    destruct (rest v s) as [[a|e] s1]; cbn [snd] in *.
    + rewrite Ht1, drop_app_length. exact Ha.
    + destruct (isinstance e cls).
      * destruct (Hh e s1) as (suf2 & Ht2 & _).
        rewrite Ht2, Ht1, <- app_assoc, drop_app_length.
        apply Exists_app. left. exact Ha.
      * cbn [snd]. rewrite Ht1, drop_app_length. exact Ha.
  - rewrite Hcls in Hok. discriminate.
Qed.

End Calls.

(** Prove that a computation always makes a call accepted by [P]: the
    call is its first library call. *)
Ltac always_now :=
  lazymatch goal with
  | |- always_calls _ (do_call _) => apply always_do_call; reflexivity
  | |- always_calls _ (bind _ _) =>
      apply always_bind_l; [always_now|emits_auto|intros ?; emits_auto]
  | |- always_calls _ (invoke _ _ _ _) => unfold invoke; always_now
  | |- always_calls _ (getattr _ _ _) => unfold getattr; always_now
  | |- always_calls _ (module_attr _ _) => unfold module_attr; always_now
  | |- always_calls _ (assign _ _) => unfold assign; always_now
  end.

(** Walk down a cell until the call is met. *)
Ltac calls_step :=
  cbv beta iota;
  lazymatch goal with
  | |- calls_when_ok _ (try_except (bind (get _) _) _ _) =>
      apply calls_try_get;
      [intros ?; always_now|intros ?; emits_auto|intros ?; emits_auto
      |reflexivity]
  | |- calls_when_ok _ (bind ?m _) =>
      first [ solve [apply calls_of_always; always_now]
            | apply calls_bind_r;
              [solve [emits_auto]|intros ?; solve [emits_auto]|intros ?] ]
  | |- calls_when_ok _ (if ?b then _ else _) => destruct b
  | |- calls_when_ok _ (match ?p with pair _ _ => _ end) => destruct p
  | |- calls_when_ok _ ?m =>
      first [ solve [apply calls_of_always; always_now]
            | let h := head_of m in unfold h ]
  end.

Ltac calls_auto := repeat calls_step.

Ltac each_named_cell H tac :=
  cbv [Repository.named_cells Repository.notebooks flat_map map fst snd app
       BatchNotebook.cells TelemetryNotebook.cells HyperdriveNotebook.cells
       DriftNotebook.cells] in H;
  repeat (destruct H as [H|H];
          [injection H as <- <- <-; cbn [Repository.is_local]; tac|]);
  destruct H.



(** In a workspace where everything succeeds, each notebook runs from
    its first cell to its last, and so does the training script. *)
Example notebooks_run_to_completion :
  Forall (fun nb =>
            fst (Repository.run_all (snd nb) (initial Worlds.demo_platform))
            = Ok tt)
         Repository.notebooks
  /\ fst (DiabetesTraining.main (initial Worlds.demo_platform)) = Ok tt.
Proof. split; [repeat constructor|]; vm_compute; reflexivity. Qed.

(** *** Running a cell by hand *)

Ltac ns_simpl :=
  repeat first [ rewrite lookup_insert_eq
               | rewrite lookup_insert_ne by discriminate ].

Ltac unfold_ops :=
  cbv [bind set unset try_except get assign invoke getattr setattr
       module_attr do_call print_ display shell emit ret lift raise added
       ns trace world snd fst kw].

(** Case split on the next answer of the world, or on the next name
    looked up. *)
Ltac world_step :=
  match goal with
  | |- context [match ?x with Returns _ => _ | Raises _ => _ end] =>
      let r := fresh "r" in
      destruct x as [r|r] eqn:?
  | |- context [match ?m !! ?k with Some _ => _ | None => _ end] =>
      first [ progress ns_simpl | destruct (m !! k) eqn:? ]
  end; cbv beta iota.

Ltac frame_case :=
  let n := fresh "n" in
  let Hn := fresh "Hn" in
  let Heq := fresh "Heq" in
  intros n Hn; cbn [In] in Hn; cbn [ns];
  rewrite ?lookup_insert_ne by (intros Heq; apply Hn; subst n; auto);
  reflexivity.

Ltac frame :=
  intros [m tr W]; unfold same_names_except; unfold_ops;
  repeat world_step;
  try match goal with |- context [isinstance ?e _] => destruct e end;
  cbv [isinstance]; cbv beta iota; frame_case.




(** *** The drift monitor *)

(** With its four names bound, the monitor cell makes exactly one library
    call. *)
Lemma monitor_cell_calls (s : state) (ws b t cn : value) :
  ns s !! "ws" = Some ws ->
  ns s !! "baseline_data_set" = Some b ->
  ns s !! "target_data_set" = Some t ->
  ns s !! "cluster_name" = Some cn ->
  calls_of (added DriftNotebook.create_drift_monitor s)
  = [monitor_call ws b t cn].
Proof.
  destruct s as [m tr W]. cbn [ns]. intros Hws Hb Ht Hc.
  unfold DriftNotebook.create_drift_monitor, DriftNotebook.drift_kwargs,
    DriftNotebook.features, strs.
  unfold_ops.
  repeat (progress (ns_simpl; rewrite ?Hws, ?Hb, ?Ht, ?Hc; cbv beta iota)).
  repeat world_step; rewrite <- ?app_assoc, drop_app_length; reflexivity.
Qed.

(** Whatever is bound, the monitor cell makes at most one library call. *)
Lemma monitor_cell_calls_once (s : state) :
  (length (calls_of (added DriftNotebook.create_drift_monitor s)) <= 1)%nat.
Proof.
  destruct s as [m tr W].
  unfold DriftNotebook.create_drift_monitor. unfold_ops.
  repeat world_step;
    rewrite <- ?app_assoc, ?drop_app_length, ?drop_all; cbn; lia.
Qed.

Lemma calls_of_app (a b : list event) :
  calls_of (a ++ b) = (calls_of a ++ calls_of b)%list.
Proof. unfold calls_of. apply flat_map_app. Qed.

Lemma registered_app (name : string) (a b : list event) :
  registered name (a ++ b) = (registered name a ++ registered name b)%list.
Proof. unfold registered. apply flat_map_app. Qed.

Lemma registered_none (name : string) (tr : list event) :
  Forall (event_ok (not_registration name)) tr -> registered name tr = [].
Proof.
  induction 1 as [|ev tr Hev _ IH]; [reflexivity|].
  change (registered name (ev :: tr))
    with (registered name ([ev] ++ tr)%list).
  rewrite registered_app, IH, app_nil_r.
  destruct ev as [c [v|e]| | |]; try reflexivity.
  cbn in Hev. unfold not_registration in Hev.
  apply negb_true_iff in Hev. cbn. rewrite Hev. reflexivity.
Qed.

(** *** Which names a cell rebinds *)

Section Touches.
Context (names : list string).

Lemma same_names_refl (s : state) : same_names_except names s s.
Proof. intros n _. reflexivity. Qed.

Lemma same_names_trans (s1 s2 s3 : state) :
  same_names_except names s1 s2 -> same_names_except names s2 s3 ->
  same_names_except names s1 s3.
Proof. intros H12 H23 n Hn. rewrite (H23 n Hn). apply H12, Hn. Qed.

Lemma touches_same_ns {A} (m : M state A) :
  (forall s, ns (snd (m s)) = ns s) -> touches names m.
Proof. intros H s n _. rewrite H. reflexivity. Qed.

Lemma touches_ret {A} (a : A) : touches names (ret a).
Proof. apply touches_same_ns. reflexivity. Qed.

Lemma touches_raise {A} (e : exn) : touches names (@raise state A e).
Proof. apply touches_same_ns. reflexivity. Qed.

Lemma touches_lift {A} (o : outcome A) : touches names (lift o).
Proof. apply touches_same_ns. reflexivity. Qed.

Lemma touches_get (name : string) : touches names (get name).
Proof.
  apply touches_same_ns. intros s. unfold get.
  destruct (ns s !! name); reflexivity.
Qed.

Lemma touches_expand_var (name : string) : touches names (expand_var name).
Proof.
  apply touches_same_ns. intros s. unfold expand_var.
  destruct (ns s !! name) as [[]|]; reflexivity.
Qed.

Lemma touches_print (args : list value) : touches names (print_ args).
Proof. apply touches_same_ns. reflexivity. Qed.

Lemma touches_display (v : value) : touches names (display v).
Proof. apply touches_same_ns. reflexivity. Qed.

Lemma touches_shell (cmd : string) : touches names (shell cmd).
Proof. apply touches_same_ns. reflexivity. Qed.

Lemma touches_do_call (c : call) : touches names (do_call c).
Proof.
  apply touches_same_ns. intros s. unfold do_call.
  destruct (world s (trace s) c); reflexivity.
Qed.

Lemma touches_set (name : string) (v : value) :
  In name names -> touches names (set name v).
Proof.
  intros Hin s n Hn. cbn. apply lookup_insert_ne. intros ->. exact (Hn Hin).
Qed.

Lemma touches_unset (name : string) :
  In name names -> touches names (unset name).
Proof.
  intros Hin s n Hn. cbn. apply lookup_delete_ne. intros ->. exact (Hn Hin).
Qed.

Lemma touches_bind {A B} (m : M state A) (f : A -> M state B) :
  touches names m -> (forall a, touches names (f a)) ->
  touches names (bind m f).
Proof.
  intros Hm Hf s. unfold bind. specialize (Hm s).
  destruct (m s) as [[a|e] s1]; cbn [snd] in *.
  - eapply same_names_trans; [exact Hm|apply Hf].
  - exact Hm.
Qed.

Lemma touches_try_except {A} (body : M state A) (cls : exn_class)
    (handler : exn -> M state A) :
  touches names body -> (forall e, touches names (handler e)) ->
  touches names (try_except body cls handler).
Proof.
  intros Hb Hh s. unfold try_except. specialize (Hb s).
  destruct (body s) as [[a|e] s1]; cbn [snd] in *; [exact Hb|].
  destruct (isinstance e cls); [|exact Hb].
  eapply same_names_trans; [exact Hb|apply Hh].
Qed.

Lemma touches_for {A} (xs : list A) (body : A -> M state unit) :
  (forall x, touches names (body x)) -> touches names (for_ xs body).
Proof.
  intros Hb. induction xs as [|x xs IH]; cbn [for_].
  - apply touches_ret.
  - apply touches_bind; [apply Hb|intros _; exact IH].
Qed.

Lemma touches_with_open {A} (path mode : value)
    (body : value -> M state A) :
  (forall f, touches names (body f)) ->
  touches names (with_open path mode body).
Proof.
  intros Hb. unfold with_open. apply touches_bind.
  - apply touches_do_call.
  - intros f s. specialize (Hb f s).
    destruct (body f s) as [r s1]; cbn [snd] in *.
    pose proof (touches_do_call (file_exit f) s1) as Hx.
    destruct (do_call (file_exit f) s1) as [[u|e] s2]; cbn [snd] in *;
      eapply same_names_trans; eassumption.
Qed.

End Touches.

Ltac touches_step :=
  lazymatch goal with
  | |- touches _ (bind _ _) => apply touches_bind; [|intros ?]
  | |- touches _ (ret _) => apply touches_ret
  | |- touches _ (raise _) => apply touches_raise
  | |- touches _ (lift _) => apply touches_lift
  | |- touches _ (get _) => apply touches_get
  | |- touches _ (set _ _) => apply touches_set; cbn; tauto
  | |- touches _ (unset _) => apply touches_unset; cbn; tauto
  | |- touches _ (expand_var _) => apply touches_expand_var
  | |- touches _ (print_ _) => apply touches_print
  | |- touches _ (display _) => apply touches_display
  | |- touches _ (shell _) => apply touches_shell
  | |- touches _ (do_call _) => apply touches_do_call
  | |- touches _ (invoke _ _ _ _) => unfold invoke
  | |- touches _ (getattr _ _ _) => unfold getattr
  | |- touches _ (setattr _ _ _ _) => unfold setattr
  | |- touches _ (module_attr _ _) => unfold module_attr
  | |- touches _ (assign _ _) => unfold assign
  | |- touches _ (try_except _ _ _) => apply touches_try_except; [|intros ?]
  | |- touches _ (for_ _ _) => apply touches_for; intros ?
  | |- touches _ (with_open _ _ _) => apply touches_with_open; intros ?
  | |- touches _ (if ?b then _ else _) => destruct b
  | |- touches _ (match ?p with pair _ _ => _ end) => destruct p
  | |- touches _ (HyperdriveNotebook.as_named_input ?ds _) =>
      unfold HyperdriveNotebook.as_named_input; destruct ds
  | |- touches _ ?m => let h := head_of m in unfold h
  end.

Ltac touches_auto := repeat (cbv beta iota; touches_step).

(** *** The cells that feed the drift monitor *)

(** A cell that ends well has run how a sequence runs. *)
Lemma bind_ok_inv {A B} (m : M state A) (f : A -> M state B) (s : state) :
  is_ok (fst (bind m f s)) = true ->
  exists a s1, m s = (Ok a, s1) /\ bind m f s = f a s1.
Proof.
  unfold bind. destruct (m s) as [[a|e] s1]; [|discriminate].
  intros _. exists a, s1. split; reflexivity.
Qed.

Lemma baseline_cell_registers (s : state) :
  is_ok (fst (DriftNotebook.create_baseline_dataset s)) = true ->
  exists b,
    ns (snd (DriftNotebook.create_baseline_dataset s))
      !! "baseline_data_set" = Some b
    /\ registered "diabetes baseline"
         (added DriftNotebook.create_baseline_dataset s) = [b]
    /\ registered "diabetes target"
         (added DriftNotebook.create_baseline_dataset s) = [].
Proof.
  destruct s as [m tr W].
  unfold DriftNotebook.create_baseline_dataset. unfold_ops.
  repeat world_step; try discriminate.
  intros _. eexists. split; [ns_simpl; reflexivity|].
  rewrite <- ?app_assoc, drop_app_length. split; reflexivity.
Qed.

Lemma target_registration (s : state) :
  is_ok (fst (DriftNotebook.register_target_data s)) = true ->
  exists t,
    ns (snd (DriftNotebook.register_target_data s))
      !! "target_data_set" = Some t
    /\ registered "diabetes target"
         (added DriftNotebook.register_target_data s) = [t]
    /\ registered "diabetes baseline"
         (added DriftNotebook.register_target_data s) = [].
Proof.
  destruct s as [m tr W].
  unfold DriftNotebook.register_target_data. unfold_ops.
  repeat world_step; try discriminate.
  intros _. eexists. split; [ns_simpl; reflexivity|].
  rewrite <- ?app_assoc, drop_app_length. split; reflexivity.
Qed.

Lemma generation_registers_nothing (name : string) :
  emits (not_registration name) DriftNotebook.generate_target_data.
Proof. emits_auto. Qed.

Lemma target_cell_registers (s : state) :
  is_ok (fst (DriftNotebook.create_target_dataset s)) = true ->
  exists t,
    ns (snd (DriftNotebook.create_target_dataset s))
      !! "target_data_set" = Some t
    /\ registered "diabetes target"
         (added DriftNotebook.create_target_dataset s) = [t]
    /\ registered "diabetes baseline"
         (added DriftNotebook.create_target_dataset s) = [].
Proof.
  unfold DriftNotebook.create_target_dataset. intros Hok.
  destruct (bind_ok_inv _ _ s Hok) as ([] & s1 & Hgen & Heq).
  rewrite Heq in Hok.
  destruct (target_registration s1 Hok) as (t & Hns & Ht & Hb).
  exists t. rewrite Heq. split; [exact Hns|].
  rewrite (added_bind_ok _ _ s s1 tt) by
    (try exact Hgen; try (intros; emits_auto); emits_auto).
  rewrite !registered_app, Ht, Hb.
  rewrite !(registered_none _ _
              (added_emits _ _ (generation_registers_nothing _) s)).
  split; reflexivity.
Qed.

Lemma compute_cell_binds_cluster_name (s : state) :
  ns (snd (DriftNotebook.assign_compute_target s)) !! "cluster_name"
  = Some (VStr "ac-aml-cluster").
Proof.
  destruct s as [m tr W].
  unfold DriftNotebook.assign_compute_target. unfold_ops.
  repeat world_step;
    try match goal with
        | |- context [isinstance ?e ?c] => destruct (isinstance e c)
        end;
    cbn [ns snd]; ns_simpl; reflexivity.
Qed.

Lemma trace_added {A} (m : M state A) (s : state) :
  emits any_call m -> trace (snd (m s)) = (trace s ++ added m s)%list.
Proof.
  intros Hm. destruct (Hm s) as (suf & Ht & _).
  rewrite (added_app m s suf Ht). exact Ht.
Qed.

Lemma bind_eq_ok_inv {A B} (m : M state A) (f : A -> M state B)
    (s s' : state) (b : B) :
  bind m f s = (Ok b, s') ->
  exists a s1, m s = (Ok a, s1) /\ f a s1 = (Ok b, s').
Proof.
  unfold bind. destruct (m s) as [[a|e] s1]; [|discriminate].
  intros H. exists a, s1. split; [reflexivity|exact H].
Qed.

Lemma no_configuration_calls (tr : list event) :
  Forall (event_ok no_drift_configuration) tr ->
  List.filter configures_drift (calls_of tr) = [].
Proof.
  induction 1 as [|ev tr Hev _ IH]; [reflexivity|].
  change (ev :: tr) with ([ev] ++ tr)%list.
  rewrite calls_of_app, List.filter_app, IH, app_nil_r.
  destruct ev as [c r| | |]; try reflexivity.
  cbn in Hev. unfold no_drift_configuration in Hev.
  apply negb_true_iff in Hev. cbn. rewrite Hev. reflexivity.
Qed.

Lemma connect_binds_ws (s : state) :
  is_ok (fst (DriftNotebook.connect_to_workspace s)) = true ->
  exists ws, ns (snd (DriftNotebook.connect_to_workspace s)) !! "ws" = Some ws.
Proof.
  destruct s as [m tr W].
  unfold DriftNotebook.connect_to_workspace. unfold_ops.
  repeat world_step; try discriminate.
  intros _. eexists. ns_simpl. reflexivity.
Qed.

(** When the first six cells of the drift notebook run to their end in
    a fresh kernel, whatever the world answers, the one
    drift-configuring call of the trace has for its datasets the value
    the registration of the baseline returned and the value the
    registration of the target returned, and for its compute target the
    name of the cluster. *)
Lemma monitor_compares_registered_datasets (W : platform) (s' : state) :
  Repository.run_all (firstn 6 DriftNotebook.cells) (initial W) = (Ok tt, s') ->
  exists ws b t,
    List.filter configures_drift (calls_of (trace s'))
    = [monitor_call ws b t (VStr "ac-aml-cluster")]
    /\ registered "diabetes baseline" (trace s') = [b]
    /\ registered "diabetes target" (trace s') = [t].
Proof.
  unfold Repository.run_all. cbn [firstn DriftNotebook.cells for_ snd].
  intros H.
  apply bind_eq_ok_inv in H. destruct H as ([] & s1 & H1 & H).
  apply bind_eq_ok_inv in H. destruct H as ([] & s2 & H2 & H).
  apply bind_eq_ok_inv in H. destruct H as ([] & s3 & H3 & H).
  apply bind_eq_ok_inv in H. destruct H as ([] & s4 & H4 & H).
  apply bind_eq_ok_inv in H. destruct H as ([] & s5 & H5 & H).
  apply bind_eq_ok_inv in H. destruct H as ([] & s6 & H6 & H).
  injection H as <-.
  (* what each cell leaves in the namespace *)
  destruct (connect_binds_ws s1) as [ws Hws]; [rewrite H2; reflexivity|].
  destruct (baseline_cell_registers s2) as (b & Hb & Hbb & Hbt);
    [rewrite H3; reflexivity|].
  destruct (target_cell_registers s3) as (t & Ht & Htt & Htb);
    [rewrite H4; reflexivity|].
  pose proof (compute_cell_binds_cluster_name s4) as Hc.
  rewrite H2 in Hws. rewrite H3 in Hb. rewrite H4 in Ht. rewrite H5 in Hc.
  cbn [snd] in Hws, Hb, Ht, Hc.
  assert (T3 : touches ["default_ds"; "baseline_data_set"]
                 DriftNotebook.create_baseline_dataset) by touches_auto.
  assert (T4 : touches ["data"; "weeknos"; "file_paths"; "weekno";
                        "data_date"; "file_path"; "path_on_datastore";
                        "partition_format"; "target_data_set"]
                 DriftNotebook.create_target_dataset) by touches_auto.
  assert (T5 : touches ["cluster_name"; "training_cluster"]
                 DriftNotebook.assign_compute_target) by touches_auto.
  specialize (T3 s2). specialize (T4 s3). specialize (T5 s4).
  rewrite H3 in T3. rewrite H4 in T4. rewrite H5 in T5.
  cbn [snd] in T3, T4, T5.
  assert (Hws5 : ns s5 !! "ws" = Some ws).
  { rewrite T5, T4, T3 by (cbn; intuition discriminate). exact Hws. }
  assert (Hb5 : ns s5 !! "baseline_data_set" = Some b).
  { rewrite T5, T4 by (cbn; intuition discriminate). exact Hb. }
  assert (Ht5 : ns s5 !! "target_data_set" = Some t).
  { rewrite T5 by (cbn; intuition discriminate). exact Ht. }
  pose proof (monitor_cell_calls s5 ws b t _ Hws5 Hb5 Ht5 Hc) as Hm.
  (* the trace, cell by cell *)
  assert (E1 : emits any_call DriftNotebook.verify_package) by emits_auto.
  assert (E2 : emits any_call DriftNotebook.connect_to_workspace)
    by emits_auto.
  assert (E3 : emits any_call DriftNotebook.create_baseline_dataset)
    by emits_auto.
  assert (E4 : emits any_call DriftNotebook.create_target_dataset)
    by emits_auto.
  assert (E5 : emits any_call DriftNotebook.assign_compute_target)
    by emits_auto.
  assert (E6 : emits any_call DriftNotebook.create_drift_monitor)
    by emits_auto.
  pose proof (trace_added _ (initial W) E1) as R1.
  pose proof (trace_added _ s1 E2) as R2.
  pose proof (trace_added _ s2 E3) as R3.
  pose proof (trace_added _ s3 E4) as R4.
  pose proof (trace_added _ s4 E5) as R5.
  pose proof (trace_added _ s5 E6) as R6.
  rewrite H1 in R1. rewrite H2 in R2. rewrite H3 in R3.
  rewrite H4 in R4. rewrite H5 in R5. rewrite H6 in R6.
  cbn [snd initial trace] in R1, R2, R3, R4, R5, R6.
  exists ws, b, t.
  rewrite R6, R5, R4, R3, R2, R1. cbn [app].
  rewrite !calls_of_app, !List.filter_app, !registered_app.
  rewrite Hm, Hbb, Hbt, Htt, Htb.
  assert (N1 : emits no_drift_configuration DriftNotebook.verify_package)
    by emits_auto.
  assert (N2 : emits no_drift_configuration
                 DriftNotebook.connect_to_workspace) by emits_auto.
  assert (N3 : emits no_drift_configuration
                 DriftNotebook.create_baseline_dataset) by emits_auto.
  assert (N4 : emits no_drift_configuration
                 DriftNotebook.create_target_dataset) by emits_auto.
  assert (N5 : emits no_drift_configuration
                 DriftNotebook.assign_compute_target) by emits_auto.
  rewrite (no_configuration_calls _ (added_emits _ _ N1 _)),
    (no_configuration_calls _ (added_emits _ _ N2 _)),
    (no_configuration_calls _ (added_emits _ _ N3 _)),
    (no_configuration_calls _ (added_emits _ _ N4 _)),
    (no_configuration_calls _ (added_emits _ _ N5 _)).
  assert (G : forall name cell,
             In cell [DriftNotebook.verify_package;
                      DriftNotebook.connect_to_workspace;
                      DriftNotebook.assign_compute_target;
                      DriftNotebook.create_drift_monitor] ->
             emits (not_registration name) cell).
  { intros name cell [<-|[<-|[<-|[<-|[]]]]]; emits_auto. }
  rewrite !(registered_none _ _
              (added_emits _ _ (G _ DriftNotebook.verify_package
                                  ltac:(cbn; tauto)) _)),
    !(registered_none _ _
        (added_emits _ _ (G _ DriftNotebook.connect_to_workspace
                            ltac:(cbn; tauto)) _)),
    !(registered_none _ _
        (added_emits _ _ (G _ DriftNotebook.assign_compute_target
                            ltac:(cbn; tauto)) _)),
    !(registered_none _ _
        (added_emits _ _ (G _ DriftNotebook.create_drift_monitor
                            ltac:(cbn; tauto)) _)).
  cbn. repeat split; reflexivity.
Qed.

Lemma other_cells_do_not_configure_drift (nb name : string)
    (cell : M state unit) :
  In (nb, name, cell) Repository.named_cells ->
  (nb, name) <> ("Monitor the Environment (Data Drift)",
                 "Create the data drift monitor") ->
  emits no_drift_configuration cell.
Proof.
  intros H.
  each_named_cell H
    ltac:(intros Hne;
          first [solve [emits_auto] | exfalso; apply Hne; reflexivity]).
Qed.

Lemma training_script_does_not_configure_drift :
  emits no_drift_configuration DiabetesTraining.main.
Proof. unfold DiabetesTraining.main. emits_auto. Qed.

(** C7: the drift detector is configured by one call,
    [DataDriftDetector.create_from_datasets], which receives the
    workspace, the two datasets, the compute target as the value of
    [cluster_name], frequency 'Week', the features Pregnancies, Age and
    BMI, threshold 0.3 and latency 24; when the notebook is run from its
    first cell, the two datasets are the values the registrations of the
    baseline and of the target returned and the compute target is the
    cluster's name; and no other cell or script of the repository makes a
    drift-configuring call. *)
Theorem drift_monitor_is_one_declarative_call :
  (forall s ws b t cn,
     ns s !! "ws" = Some ws ->
     ns s !! "baseline_data_set" = Some b ->
     ns s !! "target_data_set" = Some t ->
     ns s !! "cluster_name" = Some cn ->
     calls_of (added DriftNotebook.create_drift_monitor s)
     = [monitor_call ws b t cn])
  /\ (forall W s',
       Repository.run_all (firstn 6 DriftNotebook.cells) (initial W)
       = (Ok tt, s') ->
       exists ws b t,
         List.filter configures_drift (calls_of (trace s'))
         = [monitor_call ws b t (VStr "ac-aml-cluster")]
         /\ registered "diabetes baseline" (trace s') = [b]
         /\ registered "diabetes target" (trace s') = [t])
  /\ (forall nb name cell,
       In (nb, name, cell) Repository.named_cells ->
       (nb, name) <> ("Monitor the Environment (Data Drift)",
                      "Create the data drift monitor") ->
       emits no_drift_configuration cell)
  /\ Forall (emits no_drift_configuration) Repository.scripts.
Proof.
  split; [|split; [|split]].
  - exact monitor_cell_calls.
  - exact monitor_compares_registered_datasets.
  - exact other_cells_do_not_configure_drift.
  - repeat constructor. exact training_script_does_not_configure_drift.
Qed.

Lemma drift_monitor_is_one_declarative_call_witness :
  exists ws b t,
    List.filter configures_drift
      (calls_of (trace (snd (Repository.run_all
                               (firstn 6 DriftNotebook.cells)
                               (initial Worlds.demo_platform)))))
    = [monitor_call ws b t (VStr "ac-aml-cluster")]
    /\ registered "diabetes baseline"
         (trace (snd (Repository.run_all (firstn 6 DriftNotebook.cells)
                        (initial Worlds.demo_platform)))) = [b]
    /\ registered "diabetes target"
         (trace (snd (Repository.run_all (firstn 6 DriftNotebook.cells)
                        (initial Worlds.demo_platform)))) = [t].
Proof.
  destruct drift_monitor_is_one_declarative_call as (_ & H & _).
  apply (H Worlds.demo_platform). vm_compute. reflexivity.
Defined.

Lemma monitor_cell_when_ok (s : state) :
  is_ok (fst (DriftNotebook.create_drift_monitor s)) = true ->
  exists ws b t cn,
    calls_of (added DriftNotebook.create_drift_monitor s)
    = [monitor_call ws b t cn].
Proof.
  destruct s as [m tr W].
  unfold DriftNotebook.create_drift_monitor, DriftNotebook.drift_kwargs,
    DriftNotebook.features, strs.
  unfold_ops.
  repeat world_step; try discriminate.
  intros _. do 4 eexists.
  rewrite <- ?app_assoc, drop_app_length. reflexivity.
Qed.

(** C5, as the code has it: [init] makes one model-load call (none when
    the model's path cannot be found); [run] makes one prediction call
    per file of its mini-batch, as many as the mini-batch has files when
    it runs to its end; the drift monitor is set up by one call. *)
Theorem one_library_call_per_unit_of_work :
  (forall L g,
     exists suf,
       BatchDiabetes.trace (snd (BatchDiabetes.init L g))
       = (BatchDiabetes.trace g ++ suf)%list
       /\ (BatchDiabetesSpec.count_events BatchDiabetesSpec.is_load suf
            <= 1)%nat
       /\ (is_ok (fst (BatchDiabetes.init L g)) = true ->
            BatchDiabetesSpec.count_events BatchDiabetesSpec.is_load suf
            = 1%nat))
  /\ (forall L mini_batch g,
       exists suf,
         BatchDiabetes.trace (snd (BatchDiabetes.run L mini_batch g))
         = (BatchDiabetes.trace g ++ suf)%list
         /\ (BatchDiabetesSpec.count_events BatchDiabetesSpec.is_predict suf
              <= length mini_batch)%nat
         /\ (is_ok (fst (BatchDiabetes.run L mini_batch g)) = true ->
              BatchDiabetesSpec.count_events BatchDiabetesSpec.is_predict suf
              = length mini_batch))
  /\ (forall s,
       (length (calls_of (added DriftNotebook.create_drift_monitor s))
        <= 1)%nat
       /\ (is_ok (fst (DriftNotebook.create_drift_monitor s)) = true ->
            exists ws b t cn,
              calls_of (added DriftNotebook.create_drift_monitor s)
              = [monitor_call ws b t cn])).
Proof.
  split; [|split].
  - intros L g.
    destruct (BatchDiabetesFacts.init_loads_once L g)
      as (suf & Ht & Hle & Hok & _).
    exists suf. auto.
  - exact BatchDiabetesFacts.run_predicts_once_per_file.
  - intros s. split; [apply monitor_cell_calls_once|].
    apply monitor_cell_when_ok.
Qed.

Lemma one_library_call_per_unit_of_work_witness :
  exists suf,
    BatchDiabetes.trace
      (snd (BatchDiabetes.run BatchDiabetesSpec.example_library
              ["batch-data/1.csv"; "batch-data/12.csv"; "batch-data/3.csv"]
              BatchDiabetesSpec.example_globals))
    = ([] ++ suf)%list
    /\ BatchDiabetesSpec.count_events BatchDiabetesSpec.is_predict suf
       = 3%nat.
Proof.
  destruct one_library_call_per_unit_of_work as (_ & H & _).
  destruct (H BatchDiabetesSpec.example_library
              ["batch-data/1.csv"; "batch-data/12.csv"; "batch-data/3.csv"]
              BatchDiabetesSpec.example_globals) as (suf & Ht & _ & Hok).
  exists suf. split; [exact Ht|]. apply Hok. vm_compute. reflexivity.
Defined.

(** *** The target-data generation loop *)

Lemma csv_writes_app (a b : list event) :
  csv_writes (a ++ b) = (csv_writes a ++ csv_writes b)%list.
Proof. unfold csv_writes. apply flat_map_app. Qed.

Lemma date_sub_weeks (d w : Z) :
  1 <= d - 7 * w <= max_ordinal ->
  date_sub (VDate d) (timedelta_weeks w) = Ok (VDate (d - 7 * w)).
Proof.
  intros [H1 H2]. unfold date_sub, timedelta_weeks.
  destruct (Z.leb_spec 1 (d - 7 * w)); [|lia].
  destruct (Z.leb_spec (d - 7 * w) max_ordinal); [|lia].
  reflexivity.
Qed.

(** One round of the loop: the dataframe bound to [data] takes one drift
    step, is written to the file of the week, and the file's path is
    appended to [file_paths]. *)
Lemma generate_week_spec (d w : Z) (s : state) (f : frame)
    (paths : list value) :
  (forall h, world s h today_call = Returns (VDate d)) ->
  (forall h data path, is_returns (world s h (to_csv_call data path)) = true) ->
  1 <= d - 7 * w <= max_ordinal ->
  ns s !! "data" = Some (VFrame f) ->
  ns s !! "file_paths" = Some (VList paths) ->
  exists s',
    DriftNotebook.generate_week w s = (Ok tt, s') /\
    world s' = world s /\
    ns s' !! "data" = Some (VFrame (drift_step f)) /\
    ns s' !! "file_paths"
    = Some (VList (paths ++ [VStr (week_path d w)])%list) /\
    exists suf,
      trace s' = (trace s ++ suf)%list /\
      csv_writes suf = [(week_path d w, VFrame (drift_step f))].
Proof.
  destruct s as [m tr W]. cbn [ns trace world].
  intros Htoday Hcsv Hd Hdata Hpaths.
  unfold DriftNotebook.generate_week, DriftNotebook.update_data,
    DriftNotebook.append_file_path.
  cbv [bind set get assign invoke do_call emit ret ns trace world].
  fold today_call. rewrite Htoday.
  cbv [lift]. rewrite (date_sub_weeks d w Hd).
  cbv beta iota. ns_simpl. rewrite Hdata. cbn [as_frame].
  cbv beta iota. ns_simpl. cbn [as_frame].
  cbv beta iota. ns_simpl. cbn [as_frame date_strftime_ymd].
  cbv beta iota. ns_simpl.
  fold (week_path d w). fold (drift_step f).
  fold (to_csv_call (VFrame (drift_step f)) (week_path d w)).
  match goal with
  | |- context [W ?h (to_csv_call ?x ?p)] =>
      pose proof (Hcsv h x p) as Hr;
      destruct (W h (to_csv_call x p)) as [r|e]; [clear Hr|discriminate Hr]
  end.
  cbv beta iota. ns_simpl. rewrite Hpaths. cbn [iterate].
  eexists. split; [reflexivity|]. cbn [ns trace world].
  split; [reflexivity|].
  split; [ns_simpl; reflexivity|].
  split; [ns_simpl; reflexivity|].
  eexists. split; [rewrite <- !app_assoc; reflexivity|].
  reflexivity.
Qed.

(** The loop, by induction on the weeks still to do. *)
Lemma generate_weeks_spec (d : Z) (weeks : list Z) :
  Forall (fun w => 1 <= d - 7 * w <= max_ordinal) weeks ->
  forall (s : state) (f : frame) (paths : list value),
  (forall h, world s h today_call = Returns (VDate d)) ->
  (forall h data path, is_returns (world s h (to_csv_call data path)) = true) ->
  ns s !! "data" = Some (VFrame f) ->
  ns s !! "file_paths" = Some (VList paths) ->
  exists s',
    for_ weeks DriftNotebook.generate_week s = (Ok tt, s') /\
    ns s' !! "file_paths"
    = Some (VList (paths ++ map (fun w => VStr (week_path d w)) weeks)%list) /\
    exists suf,
      trace s' = (trace s ++ suf)%list /\
      csv_writes suf = writes_from d f weeks.
Proof.
  induction 1 as [|w rest Hw _ IH]; intros s f paths Htoday Hcsv Hdata Hpaths.
  - exists s. cbn. rewrite app_nil_r. split; [reflexivity|].
    split; [exact Hpaths|]. exists []. rewrite app_nil_r. split; reflexivity.
  - destruct (generate_week_spec d w s f paths Htoday Hcsv Hw Hdata Hpaths)
      as (s1 & Hrun & Hworld & Hdata1 & Hpaths1 & suf1 & Ht1 & Hw1).
    destruct (IH s1 (drift_step f) (paths ++ [VStr (week_path d w)])%list)
      as (s' & Hrun' & Hpaths' & suf2 & Ht2 & Hw2);
      try assumption; try (rewrite Hworld; assumption).
    exists s'. cbn [for_]. unfold bind at 1. rewrite Hrun.
    split; [exact Hrun'|].
    split; [rewrite Hpaths', <- app_assoc; reflexivity|].
    exists (suf1 ++ suf2)%list.
    split; [rewrite Ht2, Ht1, app_assoc; reflexivity|].
    rewrite csv_writes_app, Hw1, Hw2. reflexivity.
Qed.

Lemma wrap64_succ (z : Z) : F64.wrap64 (F64.wrap64 z + 1) = F64.wrap64 (z + 1).
Proof.
  unfold F64.wrap64. f_equal.
  replace ((z + 2 ^ 63) mod 2 ^ 64 - 2 ^ 63 + 1 + 2 ^ 63)
    with ((z + 2 ^ 63) mod 2 ^ 64 + 1) by lia.
  replace (z + 1 + 2 ^ 63) with (z + 2 ^ 63 + 1) by lia.
  apply Zplus_mod_idemp_l.
Qed.

Lemma wrap64_in_range (z : Z) :
  F64.int64_min <= z <= F64.int64_max -> F64.wrap64 z = z.
Proof.
  unfold F64.wrap64, F64.int64_min, F64.int64_max. intros H.
  rewrite Z.mod_small; lia.
Qed.

Lemma drift_step_pregnancies (f : frame) :
  Pregnancies (drift_step f)
  = map (fun x => F64.wrap64 (x + 1)) (Pregnancies f).
Proof. reflexivity. Qed.

(** After [k] rounds, [k] at least 1, each count of pregnancies is the
    original count plus [k] in int64 arithmetic. *)
Lemma drift_is_cumulative (k : nat) (f : frame) :
  Pregnancies (Nat.iter (S k) drift_step f)
  = map (fun x => F64.wrap64 (x + Z.of_nat (S k))) (Pregnancies f).
Proof.
  induction k as [|k IH].
  - cbn [Nat.iter]. apply drift_step_pregnancies.
  - change (Nat.iter (S (S k)) drift_step f)
      with (drift_step (Nat.iter (S k) drift_step f)).
    rewrite drift_step_pregnancies, IH, map_map.
    apply map_ext. intros x. rewrite wrap64_succ. f_equal. lia.
Qed.

(** *** Dates and file names

    [ord2ymd] has a left inverse, so the dates of different days differ;
    and the text [strftime] makes of a date determines the date. *)

(** Case analysis on every comparison of the goal. *)
Ltac bools :=
  repeat match goal with
         | |- context [?a =? ?b] => destruct (Z.eqb_spec a b)
         | |- context [?a <? ?b] => destruct (Z.ltb_spec a b)
         end; cbn [andb orb negb].

(** Look up the month tables at the indices that are numerals. *)
Ltac tabs :=
  repeat match goal with
         | |- context [nth ?k ?tab 0] =>
             let v := eval vm_compute in (nth k tab 0) in
             change (nth k tab 0) with v
         end.

(** Evaluate the conditions on a month that is a numeral. *)
Ltac conds :=
  repeat match goal with
         | |- context [(?a <? ?b) && ?l] =>
             let v := eval vm_compute in ((a <? b) && l) in
             change ((a <? b) && l) with v
         | |- context [(?a =? ?b) && ?l] =>
             let v := eval vm_compute in ((a =? b) && l) in
             change ((a =? b) && l) with v
         end.

(** A year written with its 400-year, 100-year, 4-year and 1-year
    digits, as [ord2ymd] builds it. *)
Lemma days_before_year_digits (q400 q100 q4 q1 : Z) :
  0 <= q100 <= 3 -> 0 <= q4 <= 24 -> 0 <= q1 <= 3 ->
  days_before_year (q400 * 400 + 1 + q100 * 100 + q4 * 4 + q1)
  = 146097 * q400 + 36524 * q100 + 1461 * q4 + 365 * q1.
Proof.
  intros H100 H4 H1. unfold days_before_year.
  replace (q400 * 400 + 1 + q100 * 100 + q4 * 4 + q1 - 1)
    with (400 * q400 + 100 * q100 + 4 * q4 + q1) by lia.
  rewrite <- (Z.div_unique (400 * q400 + 100 * q100 + 4 * q4 + q1) 4
                (100 * q400 + 25 * q100 + q4) q1) by lia.
  rewrite <- (Z.div_unique (400 * q400 + 100 * q100 + 4 * q4 + q1) 100
                (4 * q400 + q100) (4 * q4 + q1)) by lia.
  rewrite <- (Z.div_unique (400 * q400 + 100 * q100 + 4 * q4 + q1) 400
                q400 (100 * q100 + 4 * q4 + q1)) by lia.
  lia.
Qed.

Lemma is_leap_digits (q400 q100 q4 q1 : Z) :
  0 <= q100 <= 3 -> 0 <= q4 <= 24 -> 0 <= q1 <= 3 ->
  is_leap (q400 * 400 + 1 + q100 * 100 + q4 * 4 + q1)
  = (q1 =? 3) && (negb (q4 =? 24) || (q100 =? 3)).
Proof.
  intros H100 H4 H1. unfold is_leap.
  set (y := q400 * 400 + 1 + q100 * 100 + q4 * 4 + q1).
  assert (M4 : y mod 4 = (q1 + 1) mod 4).
  { subst y. replace (q400 * 400 + 1 + q100 * 100 + q4 * 4 + q1)
      with (q1 + 1 + (100 * q400 + 25 * q100 + q4) * 4) by lia.
    apply Z.mod_add. lia. }
  assert (M100 : y mod 100 = (4 * q4 + q1 + 1) mod 100).
  { subst y. replace (q400 * 400 + 1 + q100 * 100 + q4 * 4 + q1)
      with (4 * q4 + q1 + 1 + (4 * q400 + q100) * 100) by lia.
    apply Z.mod_add. lia. }
  assert (M400 : y mod 400 = (100 * q100 + 4 * q4 + q1 + 1) mod 400).
  { subst y. replace (q400 * 400 + 1 + q100 * 100 + q4 * 4 + q1)
      with (100 * q100 + 4 * q4 + q1 + 1 + q400 * 400) by lia.
    apply Z.mod_add. lia. }
  rewrite M4, M100, M400. clearbody y. clear M4 M100 M400.
  destruct (Z.eqb_spec q1 3) as [->|Hq1].
  - change ((3 + 1) mod 4) with 0. cbn [Z.eqb andb].
    destruct (Z.eqb_spec q4 24) as [->|Hq4].
    + change ((4 * 24 + 3 + 1) mod 100) with 0. cbn [Z.eqb negb orb].
      destruct (Z.eqb_spec q100 3) as [->|Hq100].
      * reflexivity.
      * replace (100 * q100 + 4 * 24 + 3 + 1) with (100 * (q100 + 1)) by lia.
        rewrite Z.mod_small by lia.
        destruct (Z.eqb_spec (100 * (q100 + 1)) 0); [lia|reflexivity].
    + rewrite (Z.mod_small (4 * q4 + 3 + 1)) by lia.
      destruct (Z.eqb_spec (4 * q4 + 3 + 1) 0); [lia|reflexivity].
  - rewrite (Z.mod_small (q1 + 1)) by lia.
    destruct (Z.eqb_spec (q1 + 1) 0); [lia|reflexivity].
Qed.

(** The month estimate [(n + 50) >> 5] and its correction find the month
    the day [r] of the year falls in. *)
Lemma month_of_day (r : Z) (leap : bool) :
  0 <= r < 365 + (if leap then 1 else 0) ->
  let month := Z.shiftr (r + 50) 5 in
  let preceding :=
    nth (Z.to_nat month) days_before_month 0
    + (if (2 <? month) && leap then 1 else 0) in
  let '(m, p) :=
    if r <? preceding then
      (month - 1,
       preceding - (nth (Z.to_nat (month - 1)) days_in_month 0
                    + (if (month - 1 =? 2) && leap then 1 else 0)))
    else (month, preceding) in
  1 <= m <= 12 /\ 1 <= r - p + 1 <= 31 /\
  p = nth (Z.to_nat m) days_before_month 0
      + (if (2 <? m) && leap then 1 else 0).
Proof.
  intros Hr. cbv zeta. rewrite Z.shiftr_div_pow2 by lia.
  change (2 ^ 5) with 32.
  pose proof (Z.div_mod (r + 50) 32 ltac:(lia)) as Em.
  pose proof (Z.mod_pos_bound (r + 50) 32 ltac:(lia)) as Bm.
  set (month := (r + 50) / 32) in *. set (rm := (r + 50) mod 32) in *.
  clearbody month rm.
  assert (Hm : 1 <= month <= 12) by (destruct leap; lia).
  assert (Hcases : month = 1 \/ month = 2 \/ month = 3 \/ month = 4
                   \/ month = 5 \/ month = 6 \/ month = 7 \/ month = 8
                   \/ month = 9 \/ month = 10 \/ month = 11 \/ month = 12)
    by lia.
  clear Hm.
  repeat (destruct Hcases as [->|Hcases]); [..|subst month];
    destruct leap; tabs; conds; cbv beta iota;
    match goal with
    | |- context [r <? ?p] => destruct (Z.ltb_spec r p)
    end; tabs; conds; cbv beta iota; lia.
Qed.

(** [_ymd2ord] undoes [_ord2ymd], and the month and the day [_ord2ymd]
    gives are in their ranges. *)
Lemma ymd2ord_ord2ymd (n : Z) :
  1 <= n ->
  let '(y, m, d) := ord2ymd n in
  ymd2ord y m d = n /\ 1 <= m <= 12 /\ 1 <= d <= 31.
Proof.
  intros Hn. unfold ord2ymd.
  pose proof (Z.div_mod (n - 1) 146097 ltac:(lia)) as E400.
  pose proof (Z.mod_pos_bound (n - 1) 146097 ltac:(lia)) as B400.
  assert (Hq400 : 0 <= (n - 1) / 146097) by (apply Z.div_pos; lia).
  set (q400 := (n - 1) / 146097) in *. set (r400 := (n - 1) mod 146097) in *.
  pose proof (Z.div_mod r400 36524 ltac:(lia)) as E100.
  pose proof (Z.mod_pos_bound r400 36524 ltac:(lia)) as B100.
  set (q100 := r400 / 36524) in *. set (r100 := r400 mod 36524) in *.
  pose proof (Z.div_mod r100 1461 ltac:(lia)) as E4.
  pose proof (Z.mod_pos_bound r100 1461 ltac:(lia)) as B4.
  set (q4 := r100 / 1461) in *. set (r4 := r100 mod 1461) in *.
  pose proof (Z.div_mod r4 365 ltac:(lia)) as E1.
  pose proof (Z.mod_pos_bound r4 365 ltac:(lia)) as B1.
  set (q1 := r4 / 365) in *. set (r1 := r4 mod 365) in *.
  clearbody q400 r400 q100 r100 q4 r4 q1 r1.
  assert (Hq100 : 0 <= q100 <= 4) by lia.
  assert (Hq4 : 0 <= q4 <= 24) by lia.
  assert (Hq1 : 0 <= q1 <= 4) by lia.
  destruct (Z.eqb_spec q1 4) as [H14|H14]; cbn [orb].
  - assert (q100 <= 3 /\ q4 <= 23 /\ r1 = 0) as (? & ? & ?) by lia.
    unfold ymd2ord. tabs.
    replace (q400 * 400 + 1 + q100 * 100 + q4 * 4 + q1 - 1)
      with (q400 * 400 + 1 + q100 * 100 + q4 * 4 + 3) by lia.
    rewrite days_before_year_digits, is_leap_digits by lia.
    split; [|lia]. bools; lia.
  - destruct (Z.eqb_spec q100 4) as [H1004|H1004].
    + assert (q4 = 0 /\ q1 = 0 /\ r1 = 0) as (? & ? & ?) by lia.
      unfold ymd2ord. tabs.
      replace (q400 * 400 + 1 + q100 * 100 + q4 * 4 + q1 - 1)
        with (q400 * 400 + 1 + 3 * 100 + 24 * 4 + 3) by lia.
      rewrite days_before_year_digits, is_leap_digits by lia.
      split; [|lia]. bools; lia.
    + set (leap := (q1 =? 3) && (negb (q4 =? 24) || (q100 =? 3))).
      assert (Hr1 : 0 <= r1 < 365 + (if leap then 1 else 0))
        by (destruct leap; lia).
      pose proof (month_of_day r1 leap Hr1) as Hmd. cbv zeta in Hmd.
      set (month := Z.shiftr (r1 + 50) 5) in *.
      set (preceding := nth (Z.to_nat month) days_before_month 0
                        + (if (2 <? month) && leap then 1 else 0)) in *.
      assert (Hy : days_before_year (q400 * 400 + 1 + q100 * 100 + q4 * 4 + q1)
                   = n - 1 - r1)
        by (rewrite days_before_year_digits; lia).
      assert (Hl : is_leap (q400 * 400 + 1 + q100 * 100 + q4 * 4 + q1) = leap)
        by (apply is_leap_digits; lia).
      destruct (r1 <? preceding);
        destruct Hmd as (Hm & Hd & Hp);
        (split; [|split; assumption]);
        unfold ymd2ord; rewrite Hy, Hl; lia.
Qed.

Lemma ord2ymd_inj (a b : Z) :
  1 <= a -> 1 <= b -> ord2ymd a = ord2ymd b -> a = b.
Proof.
  intros Ha Hb Heq.
  pose proof (ymd2ord_ord2ymd a Ha) as Pa.
  pose proof (ymd2ord_ord2ymd b Hb) as Pb.
  rewrite Heq in Pa. destruct (ord2ymd b) as [[y m] d].
  destruct Pa as [Pa _], Pb as [Pb _]. congruence.
Qed.

Lemma str_int_inj (a b : Z) : str_int a = str_int b -> a = b.
Proof.
  unfold str_int. intros H. apply DecimalZ.to_int_inj.
  pose proof (NilEmpty.isi (Z.to_int a)) as Ha.
  rewrite H, NilEmpty.isi in Ha. congruence.
Qed.

Lemma length_append (s t : string) :
  String.length (s +:+ t) = (String.length s + String.length t)%nat.
Proof.
  induction s as [|c s IH]; [reflexivity|].
  change (String c s +:+ t) with (String c (s +:+ t)).
  cbn [String.length]. rewrite IH. reflexivity.
Qed.

(** Strings that end in tails of one length are equal part by part. *)
Lemma append_inj_length (s1 s2 t1 t2 : string) :
  String.length t1 = String.length t2 ->
  s1 +:+ t1 = s2 +:+ t2 -> s1 = s2 /\ t1 = t2.
Proof.
  intros Hlen. revert s2.
  induction s1 as [|c s1 IH]; intros [|c' s2] Heq.
  - split; [reflexivity|exact Heq].
  - apply (f_equal String.length) in Heq.
    rewrite !length_append in Heq. cbn [String.length] in Heq. lia.
  - apply (f_equal String.length) in Heq.
    rewrite !length_append in Heq. cbn [String.length] in Heq. lia.
  - change (String c (s1 +:+ t1) = String c' (s2 +:+ t2)) in Heq.
    injection Heq as -> Heq. destruct (IH s2 Heq) as [-> ->].
    split; reflexivity.
Qed.

Lemma In_month_days (z : Z) : 1 <= z <= 31 -> In z month_days.
Proof.
  intros Hz. unfold month_days. rewrite <- (Z2Nat.id z) by lia.
  apply in_map, in_seq. lia.
Qed.

(** Two-digit fields: checked for the 31 values there are. *)
Lemma pad2_table :
  forallb (fun a =>
    (String.length (pad2 a) =? 2)%nat
    && forallb (fun b => implb (String.eqb (pad2 a) (pad2 b)) (a =? b))
         month_days) month_days = true.
Proof. vm_compute. reflexivity. Qed.

Lemma pad2_length (z : Z) : 1 <= z <= 31 -> String.length (pad2 z) = 2%nat.
Proof.
  intros Hz. pose proof pad2_table as T.
  rewrite forallb_forall in T. specialize (T z (In_month_days z Hz)).
  apply andb_prop in T. destruct T as [T _]. apply Nat.eqb_eq. exact T.
Qed.

Lemma pad2_inj (a b : Z) :
  1 <= a <= 31 -> 1 <= b <= 31 -> pad2 a = pad2 b -> a = b.
Proof.
  intros Ha Hb Heq. pose proof pad2_table as T.
  rewrite forallb_forall in T. specialize (T a (In_month_days a Ha)).
  apply andb_prop in T. destruct T as [_ T].
  rewrite forallb_forall in T. specialize (T b (In_month_days b Hb)).
  rewrite Heq, String.eqb_refl in T. apply Z.eqb_eq. exact T.
Qed.

Lemma strftime_ymd_inj (a b : Z) :
  1 <= a -> 1 <= b -> strftime_ymd a = strftime_ymd b -> a = b.
Proof.
  intros Ha Hb Heq. apply ord2ymd_inj; [exact Ha|exact Hb|].
  unfold strftime_ymd in Heq.
  pose proof (ymd2ord_ord2ymd a Ha) as Pa.
  pose proof (ymd2ord_ord2ymd b Hb) as Pb.
  destruct (ord2ymd a) as [[y1 m1] d1], (ord2ymd b) as [[y2 m2] d2].
  destruct Pa as (_ & Hm1 & Hd1), Pb as (_ & Hm2 & Hd2).
  apply append_inj_length in Heq.
  2:{ change ("-" +:+ ?x) with (String "-" x). cbn [String.length].
      rewrite !length_append.
      change ("-" +:+ ?x) with (String "-" x). cbn [String.length].
      rewrite !pad2_length by lia. reflexivity. }
  destruct Heq as [Hy Heq]. apply str_int_inj in Hy.
  apply String.app_inj in Heq.
  apply append_inj_length in Heq.
  2:{ change ("-" +:+ ?x) with (String "-" x). cbn [String.length].
      rewrite !pad2_length by lia. reflexivity. }
  destruct Heq as [Hm Heq]. apply String.app_inj in Heq.
  apply pad2_inj in Hm; [|lia|lia]. apply pad2_inj in Heq; [|lia|lia].
  congruence.
Qed.

Lemma week_path_inj (d w1 w2 : Z) :
  1 <= d - 7 * w1 -> 1 <= d - 7 * w2 ->
  week_path d w1 = week_path d w2 -> w1 = w2.
Proof.
  intros H1 H2 Heq. unfold week_path in Heq.
  apply String.app_inj in Heq.
  apply append_inj_length in Heq; [|reflexivity].
  destruct Heq as [Heq _]. apply strftime_ymd_inj in Heq; lia.
Qed.

(** The six rounds write to six different paths. *)
Lemma week_paths_distinct (d : Z) :
  36 <= d -> NoDup (map (week_path d) [5; 4; 3; 2; 1; 0]).
Proof.
  intros Hd. cbn [map].
  repeat (apply NoDup_cons_2;
          [intros Hin; apply list_elem_of_In in Hin; cbn [In] in Hin;
           repeat (destruct Hin as [Hin|Hin];
                   [apply week_path_inj in Hin; lia|]);
           exact Hin|]).
  apply NoDup_nil_2.
Qed.

(** C8: when the data file can be read, the clock stays on one day and
    every file can be written, the generation loop writes exactly six
    files, for the days 5, 4, 3, 2, 1 and 0 weeks before today in that
    order (oldest first), from one dataframe that every round changes in
    place: the file of round k (k = 1..6) holds the dataframe after k
    drift steps, whose Pregnancies column is the original column plus k
    (in the int64 arithmetic of the column, which is the plain sum when
    no value overflows).  The six paths differ from one another, so no
    round overwrites the file of another. *)
Theorem six_weekly_files_with_cumulative_drift
    (s : state) (f0 : frame) (d : Z) :
  (forall h, world s h (read_csv_call "data/diabetes2.csv")
             = Returns (VFrame f0)) ->
  (forall h, world s h today_call = Returns (VDate d)) ->
  (forall h data path, is_returns (world s h (to_csv_call data path)) = true) ->
  36 <= d <= max_ordinal ->
  fst (DriftNotebook.generate_target_data s) = Ok tt
  /\ csv_writes (added DriftNotebook.generate_target_data s)
     = map (fun k => (week_path d (6 - Z.of_nat k),
                      VFrame (Nat.iter k drift_step f0)))
           [1; 2; 3; 4; 5; 6]%nat
  /\ ns (snd (DriftNotebook.generate_target_data s)) !! "file_paths"
     = Some (VList (map (fun w => VStr (week_path d w)) [5; 4; 3; 2; 1; 0]))
  /\ (forall k, (1 <= k <= 6)%nat ->
       Pregnancies (Nat.iter k drift_step f0)
       = map (fun x => F64.wrap64 (x + Z.of_nat k)) (Pregnancies f0))
  /\ (forall k, (1 <= k <= 6)%nat ->
       Forall (fun x => F64.int64_min <= x <= F64.int64_max - 6)
              (Pregnancies f0) ->
       Pregnancies (Nat.iter k drift_step f0)
       = map (fun x => x + Z.of_nat k) (Pregnancies f0))
  /\ NoDup (map fst (csv_writes
                       (added DriftNotebook.generate_target_data s))).
Proof.
  intros Hread Htoday Hcsv Hd.
  assert (Hcum : forall k, (1 <= k <= 6)%nat ->
            Pregnancies (Nat.iter k drift_step f0)
            = map (fun x => F64.wrap64 (x + Z.of_nat k)) (Pregnancies f0)).
  { intros [|k] Hk; [lia|]. apply drift_is_cumulative. }
  destruct s as [m tr W]. cbn [world] in *.
  unfold DriftNotebook.generate_target_data.
  change (reversed (range 6)) with [5; 4; 3; 2; 1; 0].
  set (s1 := {| ns := <["file_paths" := VList []]>
                        (<["weeknos" := VList (map VInt [5; 4; 3; 2; 1; 0])]>
                           (<["data" := VFrame f0]> m));
                trace := ((tr ++ [EPrint [VStr "Generating simulated data..."]])
                          ++ [ECall (read_csv_call "data/diabetes2.csv")
                                    (Returns (VFrame f0))])%list;
                world := W |}).
  destruct (generate_weeks_spec d [5; 4; 3; 2; 1; 0]
              ltac:(repeat constructor; lia) s1 f0 [])
    as (s' & Hrun & Hpaths & suf & Ht & Hw);
    [exact Htoday|exact Hcsv|subst s1; cbn [ns]; ns_simpl; reflexivity
    |subst s1; cbn [ns]; ns_simpl; reflexivity|].
  assert (Heq : (print_ [VStr "Generating simulated data..."] ;;;
                 assign "data"
                   (invoke Pandas "read_csv" [VStr "data/diabetes2.csv"] []) ;;;
                 set "weeknos" (VList (map VInt [5; 4; 3; 2; 1; 0])) ;;;
                 set "file_paths" (VList []) ;;;
                 for_ [5; 4; 3; 2; 1; 0] DriftNotebook.generate_week)
                {| ns := m; trace := tr; world := W |}
                = (Ok tt, s')).
  { cbv [bind print_ assign invoke do_call set emit ret ns trace world].
    fold (read_csv_call "data/diabetes2.csv"). rewrite Hread.
    cbv beta iota. exact Hrun. }
  unfold added. rewrite Heq. cbn [fst snd trace].
  split; [reflexivity|].
  match goal with |- ?P /\ _ => assert (Hwritten : P) end.
  { rewrite Ht. subst s1. cbn [trace].
    rewrite <- !app_assoc, drop_app_length.
    rewrite !csv_writes_app, Hw. reflexivity. }
  split; [exact Hwritten|].
  split; [exact Hpaths|]. split; [exact Hcum|]. split.
  - intros k Hk Hrange. rewrite (Hcum k Hk).
    apply map_ext_in. intros x Hx.
    rewrite List.Forall_forall in Hrange. specialize (Hrange x Hx).
    apply wrap64_in_range. unfold F64.int64_max, F64.int64_min in *. lia.
  - rewrite Hwritten. apply (week_paths_distinct d). lia.
Qed.

Lemma six_weekly_files_with_cumulative_drift_witness :
  fst (DriftNotebook.generate_target_data (initial Worlds.demo_platform))
  = Ok tt
  /\ map fst (csv_writes (added DriftNotebook.generate_target_data
                                (initial Worlds.demo_platform)))
     = ["data/diabetes_2021-04-20.csv"; "data/diabetes_2021-04-27.csv";
        "data/diabetes_2021-05-04.csv"; "data/diabetes_2021-05-11.csv";
        "data/diabetes_2021-05-18.csv"; "data/diabetes_2021-05-25.csv"]
  /\ Pregnancies (Nat.iter 6 drift_step Worlds.demo_frame) = [6; 9; 19].
Proof.
  destruct (six_weekly_files_with_cumulative_drift
              (initial Worlds.demo_platform) Worlds.demo_frame 737935)
    as (Hok & Hw & _ & Hcum & _).
  - intros h. reflexivity.
  - intros h. reflexivity.
  - intros h data path. reflexivity.
  - unfold max_ordinal. lia.
  - split; [exact Hok|]. split.
    + rewrite Hw. vm_compute. reflexivity.
    + rewrite (Hcum 6%nat) by lia. vm_compute. reflexivity.
Defined.

(** *** Which failures are caught *)

Section Propagates.
Context (G : call -> exn -> bool).


















End Propagates.









(** The three compute-target cells are not one block repeated: in a
    workspace that has the cluster, the cell of the drift notebook makes
    one call where the cell of the hyperdrive notebook makes two. *)
Example compute_cells_differ :
  map call_name
      (calls_of (added DriftNotebook.assign_compute_target
                       (Worlds.connected Worlds.demo_platform)))
  = ["ComputeTarget"]
  /\ map call_name
         (calls_of (added HyperdriveNotebook.assign_compute_target
                          (Worlds.connected Worlds.demo_platform)))
     = ["ComputeTarget"; "Workspace.update"].
Proof. split; vm_compute; reflexivity. Qed.

(** *** The parallel run step *)

Lemma cells_declare_partitioning :
  Forall (emits parallel_run_parameters)
         (Repository.code_cells ++ Repository.scripts).
Proof. each_cell ltac:(emits_auto). Qed.

Lemma configure_cell_declares :
  calls_when_ok (named "ParallelRunConfig")
                BatchNotebook.configure_parallel_run_step.
Proof. unfold BatchNotebook.configure_parallel_run_step. calls_auto. Qed.

(** C9: the repository only declares the partitioning parameters: every
    [ParallelRunConfig] call that any cell or script makes carries
    mini_batch_size "5", error_threshold 10, node_count 2, output_action
    "append_row" and the entry script, and the configuring cell makes
    that call whenever it runs to its end; the entry script's [run]
    consumes the mini-batch it is given as it is: it reads the files in
    the order given, each at most once, asks for at most one prediction
    per file read, and a failed library call ends it with an exception
    (no retry). *)
Theorem run_consumes_the_mini_batch_as_given :
  Forall (emits parallel_run_parameters)
         (Repository.code_cells ++ Repository.scripts)
  /\ calls_when_ok (named "ParallelRunConfig")
                   BatchNotebook.configure_parallel_run_step
  /\ (forall L mini_batch g,
       exists suf,
         BatchDiabetes.trace (snd (BatchDiabetes.run L mini_batch g))
         = (BatchDiabetes.trace g ++ suf)%list
         /\ (exists rest,
              mini_batch = (BatchDiabetesSpec.files_read suf ++ rest)%list)
         /\ (BatchDiabetesSpec.count_events BatchDiabetesSpec.is_predict suf
              <= length (BatchDiabetesSpec.files_read suf))%nat
         /\ (is_ok (fst (BatchDiabetes.run L mini_batch g)) = true ->
              BatchDiabetesSpec.files_read suf = mini_batch)
         /\ (forall ev, In ev suf -> BatchDiabetesSpec.failed L ev = true ->
              is_ok (fst (BatchDiabetes.run L mini_batch g)) = false)).
Proof.
  split; [exact cells_declare_partitioning|].
  split; [exact configure_cell_declares|].
  intros L mb g. unfold BatchDiabetes.run.
  destruct (fold_for mb [] (BatchDiabetes.score_file L) g) as [r g'] eqn:Heq.
  destruct (BatchDiabetesFacts.run_loop_trace L mb [] g g' r Heq)
    as (suf & -> & Hpre & Hle & Hok & Hfail).
  exists suf. cbn [fst snd BatchDiabetes.trace].
  split; [reflexivity|]. split; [exact Hpre|]. split; [exact Hle|].
  split; [intros H; apply Hok, H|exact Hfail].
Qed.

Lemma run_consumes_the_mini_batch_as_given_witness :
  exists suf,
    BatchDiabetes.trace
      (snd (BatchDiabetes.run BatchDiabetesSpec.example_library
              ["batch-data/1.csv"; "batch-data/12.csv"]
              BatchDiabetesSpec.example_globals))
    = ([] ++ suf)%list
    /\ BatchDiabetesSpec.files_read suf
       = ["batch-data/1.csv"; "batch-data/12.csv"].
Proof.
  destruct run_consumes_the_mini_batch_as_given as (_ & _ & H).
  destruct (H BatchDiabetesSpec.example_library
              ["batch-data/1.csv"; "batch-data/12.csv"]
              BatchDiabetesSpec.example_globals)
    as (suf & Ht & _ & _ & Hok & _).
  exists suf. split; [exact Ht|]. apply Hok. vm_compute. reflexivity.
Defined.




End NotebookFacts.

(** * Further properties of the code *)

(** ** The batch entry script: edges and composition *)

Module BatchDiabetesEdges.
Import Py BatchDiabetes BatchDiabetesSpec PathSpec.

(** X1: [run] on a worker whose [init] has not bound the model.  An
    empty mini-batch still gives the empty list, with no library call; a
    mini-batch with a first file reads that file and no other, asks for
    no prediction, and ends with [NameError] on [model] (or with the
    error of the read), whatever files follow. *)
Theorem run_before_init
    (L : library) (g : globals) (f : string) (rest : list string) :
  model g = None ->
  run L [] g = (Ok [], g)
  /\ run L (f :: rest) g
     = (match genfromtxt L f with
        | Ok _ => Raise (NameError "model")
        | Raise e => Raise e
        end,
        {| model := None; trace := (trace g ++ [Genfromtxt f])%list |}).
Proof.
  intros Hm. split; [reflexivity|].
  unfold run. cbn [fold_for]. unfold bind at 1, score_file at 1.
  cbv [bind lib get_model lift ret]. cbn [model trace]. rewrite Hm.
  destruct (genfromtxt L f); reflexivity.
Qed.

Lemma run_before_init_witness :
  fst (run example_library ["batch-data/1.csv"; "batch-data/12.csv"]
         fresh_globals) = Raise (NameError "model")
  /\ files_read (trace (snd (run example_library
                               ["batch-data/1.csv"; "batch-data/12.csv"]
                               fresh_globals)))
     = ["batch-data/1.csv"].
Proof.
  destruct (run_before_init example_library fresh_globals
              "batch-data/1.csv" ["batch-data/12.csv"] eq_refl) as [_ H].
  rewrite H. split; reflexivity.
Defined.

(** X2: [init] followed by [run].  When the SDK gives the path of the
    registered model and the file at that path unpickles to [m], every
    prediction of the following [run] is made by [m], whatever model was
    bound before: there is one line per file, the file's name with the
    first prediction of [m] for it, and the trace is the two calls of
    [init] followed by one read and one prediction per file. *)
Theorem init_then_run
    (L : library) (g : globals) (path : string) (m : model_t)
    (mini_batch : list string) :
  get_model_path L "diabetes_model" = Ok path ->
  joblib_load L path = Ok m ->
  Forall (scored L m) mini_batch ->
  bind (init L) (fun _ => run L mini_batch) g
  = (Ok (map (expected_line L m) mini_batch),
     {| model := Some m;
        trace := (trace g
                  ++ [GetModelPath "diabetes_model"; JoblibLoad path]
                  ++ flat_map (file_events L m) mini_batch)%list |}).
Proof.
  intros Hp Hl Hs. unfold bind at 1, init.
  cbv [bind lib set_model]. cbn [model trace]. rewrite Hp, Hl.
  unfold run.
  rewrite (BatchDiabetesFacts.run_loop_ok L m mini_batch Hs) by reflexivity.
  cbn [model trace app]. rewrite <- !app_assoc. reflexivity.
Qed.

Lemma init_then_run_witness :
  fst (bind (init example_library)
         (fun _ => run example_library
                     ["batch-data/1.csv"; "batch-data/12.csv"])
         fresh_globals)
  = Ok ["1.csv: 0"; "12.csv: 1"].
Proof.
  rewrite (init_then_run example_library fresh_globals
             "azureml-models/diabetes_model" 7%nat
             ["batch-data/1.csv"; "batch-data/12.csv"]).
  - vm_compute. reflexivity.
  - reflexivity.
  - reflexivity.
  - repeat constructor; vm_compute; eexists; reflexivity.
Defined.

(** *** The label of a result line *)

Lemma basename_from_no_slash (name cur : string) :
  no_slash name = true -> basename_from cur name = cur.
Proof.
  induction name as [|c name IH]; intros H; [reflexivity|].
  cbn [no_slash] in H. apply andb_prop in H. destruct H as [Hc Hn].
  cbn [basename_from]. apply negb_true_iff in Hc. rewrite Hc. auto.
Qed.

Lemma basename_after_slash (dir name cur : string) :
  no_slash name = true ->
  basename_from cur (dir +:+ "/" +:+ name) = name.
Proof.
  intros Hn. revert cur. induction dir as [|c dir IH]; intros cur.
  - change ("" +:+ "/" +:+ name) with (String "/" name).
    cbn [basename_from]. change (Ascii.eqb "/" "/") with true. cbv iota.
    apply basename_from_no_slash, Hn.
  - change (String c dir +:+ "/" +:+ name)
      with (String c (dir +:+ "/" +:+ name)).
    cbn [basename_from]. destruct (Ascii.eqb c "/"); apply IH.
Qed.

Lemma ends_with_slash_split (a : string) :
  Notebook.ends_with_slash a = true -> exists dir, a = dir +:+ "/".
Proof.
  unfold Notebook.ends_with_slash.
  induction a as [|c a IH]; [discriminate|].
  destruct a as [|c' a'].
  - cbn. intros H. apply Ascii.eqb_eq in H. subst c. exists "". reflexivity.
  - intros H.
    assert (Hlen : (String.length (String c (String c' a')) - 1
                    = S (String.length (String c' a') - 1))%nat)
      by (cbn [String.length]; lia).
    rewrite Hlen in H. cbn [String.get] in H.
    destruct (IH H) as [dir Hdir]. exists (String c dir).
    rewrite Hdir. reflexivity.
Qed.

Lemma append_assoc (a b c : string) : (a +:+ b) +:+ c = a +:+ (b +:+ c).
Proof.
  induction a as [|x a IH]; [reflexivity|].
  change (String x ((a +:+ b) +:+ c) = String x (a +:+ (b +:+ c))).
  rewrite IH. reflexivity.
Qed.

Lemma basename_path_join (dir name : string) :
  no_slash name = true ->
  basename (Notebook.path_join dir name) = name.
Proof.
  intros Hn. unfold basename, Notebook.path_join.
  assert (Hstart : match name with
                   | String "/" _ => False
                   | _ => True
                   end).
  { destruct name as [|c rest]; [exact I|].
    cbn [no_slash] in Hn. apply andb_prop in Hn. destruct Hn as [Hc _].
    apply negb_true_iff in Hc.
    destruct c as [[] [] [] [] [] [] [] []]; try exact I.
    discriminate Hc. }
  assert (Hcases :
    match name with
    | String "/" _ => name
    | _ => if (String.eqb dir "") || Notebook.ends_with_slash dir
           then dir +:+ name else dir +:+ "/" +:+ name
    end
    = if (String.eqb dir "") || Notebook.ends_with_slash dir
      then dir +:+ name else dir +:+ "/" +:+ name).
  { destruct name as [|c rest]; [reflexivity|].
    destruct c as [[] [] [] [] [] [] [] []]; try reflexivity.
    destruct Hstart. }
  rewrite Hcases. clear Hcases Hstart.
  destruct (String.eqb_spec dir "") as [->|Hd].
  - cbn [orb]. change ("" +:+ name) with name.
    apply basename_from_no_slash, Hn.
  - cbn [orb]. destruct (Notebook.ends_with_slash dir) eqn:He.
    + destruct (ends_with_slash_split dir He) as [d ->].
      rewrite append_assoc.
      change ("/" +:+ name) with (String "/" name).
      change (String "/" name) with ("/" +:+ name).
      apply basename_after_slash, Hn.
    + apply basename_after_slash, Hn.
Qed.

(** X3: the label of a result line is the file's own name.  For a file
    [name] (a text without ['/']) in any folder [dir], the line [run]
    makes for the path [os.path.join(dir, name)] starts with [name], not
    with the folder: files of the same name in different folders get the
    same label. *)
Theorem result_label_is_the_file_name (dir name : string) (p : Z) :
  no_slash name = true ->
  format_result (Notebook.path_join dir name) p
  = name +:+ ": " +:+ str_int p.
Proof.
  intros Hn. unfold format_result. rewrite basename_path_join by exact Hn.
  reflexivity.
Qed.

Lemma result_label_is_the_file_name_witness :
  format_result (Notebook.path_join "./batch-data" "12.csv") 1 = "12.csv: 1".
Proof.
  rewrite (result_label_is_the_file_name "./batch-data" "12.csv" 1).
  - reflexivity.
  - reflexivity.
Defined.

End BatchDiabetesEdges.

(** ** The web-service entry script: edges *)

Module ScoreDiabetesEdges.
Import Py ScoreDiabetes ScoreDiabetesSpec.

(** X4: a request without data.  When the request decodes to an object
    that has no ["data"] member, [run] ends with [KeyError] on ["data"];
    when it decodes to anything that is not an object, with [TypeError].
    In both cases the decoding is the only library call: no array is
    built, no prediction is asked for and nothing is logged. *)
Theorem run_rejects_a_request_without_data
    (L : library) (raw : string) (g : globals) (loaded : json) :
  json_loads L raw = Ok loaded ->
  (forall data, getitem_str loaded "data" <> Ok data) ->
  exists e,
    run L raw g
    = (Raise e,
       {| model := model g; trace := (trace g ++ [JsonLoads raw])%list |})
    /\ match loaded with
       | JObj _ => e = KeyError "data"
       | _ => exists msg, e = TypeError msg
       end.
Proof.
  intros Hl Hd. unfold run. cbv [bind lib get_model lift ret].
  cbn [model trace]. rewrite Hl.
  destruct loaded as [| b | z | x | s | l | l]; cbn [getitem_str] in *;
    try (eexists; split; [reflexivity|eexists; reflexivity]).
  destruct (dict_get l "data") as [v|] eqn:Hk.
  - exfalso. exact (Hd v eq_refl).
  - eexists. split; reflexivity.
Qed.

Lemma run_rejects_a_request_without_data_witness :
  fst (run {| get_model_path := fun name => Ok name;
              joblib_load := fun _ => Ok 7%nat;
              json_loads := fun _ => Ok (JObj [("rows", JArr [])]);
              np_array := fun _ => Raise (TypeError "unused");
              predict := fun _ _ => Ok [] |}
           "{}" example_globals)
  = Raise (KeyError "data").
Proof.
  destruct (run_rejects_a_request_without_data
              {| get_model_path := fun name => Ok name;
                 joblib_load := fun _ => Ok 7%nat;
                 json_loads := fun _ => Ok (JObj [("rows", JArr [])]);
                 np_array := fun _ => Raise (TypeError "unused");
                 predict := fun _ _ => Ok [] |}
              "{}" example_globals (JObj [("rows", JArr [])]) eq_refl)
    as (e & Hrun & He).
  - intros data H. discriminate H.
  - rewrite Hrun, He. reflexivity.
Defined.

(** X5: what [run] logs.  Once the request is decoded and the array is
    built, [run] asks for one prediction and, when the model answers,
    prints the data and the predictions once, before it looks up any
    class name: the line is logged also when [run] then ends with
    [IndexError]; when the model raises, nothing is printed. *)
Theorem run_logs_what_it_scored
    (L : library) (g : globals) (m : model_t)
    (raw : string) (loaded data : json) (arr : ndarray) :
  model g = Some m ->
  json_loads L raw = Ok loaded ->
  getitem_str loaded "data" = Ok data ->
  np_array L data = Ok arr ->
  trace (snd (run L raw g))
  = (trace g ++ [JsonLoads raw; NpArray data; Predict m arr]
     ++ match predict L m arr with
        | Ok preds => [Print data preds]
        | Raise _ => []
        end)%list.
Proof.
  intros Hm Hl Hd Ha. unfold run. cbv [bind lib get_model lift ret].
  cbn [model trace]. rewrite Hl, Hd, Ha, Hm.
  destruct (predict L m arr) as [preds|e].
  - rewrite ScoreDiabetesFacts.classify_loop.
    destruct (forallb in_bounds preds); cbn [snd trace];
      rewrite <- !app_assoc; reflexivity.
  - cbn [snd trace]. rewrite <- !app_assoc. reflexivity.
Qed.

Lemma run_logs_what_it_scored_witness :
  fst (run (library_predicting [5]) "{}" example_globals) = Raise IndexError
  /\ trace (snd (run (library_predicting [5]) "{}" example_globals))
     = [JsonLoads "{}";
        NpArray (JArr [JArr [JInt 2; JInt 180]]);
        Predict 7%nat {| BatchDiabetes.shape := [1; 2];
                         BatchDiabetes.flat := [F64.of_Z 2; F64.of_Z 180] |};
        Print (JArr [JArr [JInt 2; JInt 180]]) [5]].
Proof.
  split; [vm_compute; reflexivity|].
  rewrite (run_logs_what_it_scored (library_predicting [5]) example_globals
             7%nat "{}" (JObj [("data", JArr [JArr [JInt 2; JInt 180]])])
             (JArr [JArr [JInt 2; JInt 180]])
             {| BatchDiabetes.shape := [1; 2];
                BatchDiabetes.flat := [F64.of_Z 2; F64.of_Z 180] |}
             eq_refl eq_refl eq_refl eq_refl).
  reflexivity.
Defined.

(** X6: [run] before [init].  The request is decoded and the array is
    built, then the reference to the unbound global [model] ends [run]
    with [NameError]: no prediction is asked for and nothing is
    logged. *)
Theorem score_run_before_init
    (L : library) (g : globals)
    (raw : string) (loaded data : json) (arr : ndarray) :
  model g = None ->
  json_loads L raw = Ok loaded ->
  getitem_str loaded "data" = Ok data ->
  np_array L data = Ok arr ->
  run L raw g
  = (Raise (NameError "model"),
     {| model := None;
        trace := (trace g ++ [JsonLoads raw; NpArray data])%list |}).
Proof.
  intros Hm Hl Hd Ha. unfold run. cbv [bind lib get_model lift ret].
  cbn [model trace]. rewrite Hl, Hd, Ha, Hm, <- app_assoc. reflexivity.
Qed.

Lemma score_run_before_init_witness :
  fst (run (library_predicting [1]) "{}" {| model := None; trace := [] |})
  = Raise (NameError "model").
Proof.
  rewrite (score_run_before_init (library_predicting [1])
             {| model := None; trace := [] |} "{}"
             (JObj [("data", JArr [JArr [JInt 2; JInt 180]])])
             (JArr [JArr [JInt 2; JInt 180]])
             {| BatchDiabetes.shape := [1; 2];
                BatchDiabetes.flat := [F64.of_Z 2; F64.of_Z 180] |}
             eq_refl eq_refl eq_refl eq_refl).
  reflexivity.
Defined.

End ScoreDiabetesEdges.

(** ** Single cells and their neighbours *)

Module CellFacts.
Import Py Notebook NotebookSpec CellSpec NotebookFacts.

(** Unfolding for symbolic runs, [with] statements included. *)
Ltac run_ops :=
  cbv [bind set unset try_except get assign invoke getattr setattr
       module_attr do_call print_ display shell emit ret lift raise added
       with_open file_exit expand_var
       ns trace world snd fst kw].

Ltac caught :=
  try match goal with
      | |- context [isinstance ?e ?c] => destruct (isinstance e c)
      end; cbv beta iota.

(** *** The dataset cell of the hyperdrive notebook *)

(** X7: the dataset cell of the hyperdrive notebook uploads and registers
    only what is missing.  When the workspace already lists 'diabetes
    dataset', the cell reads the default datastore and the datasets,
    prints that the dataset is registered, and makes no other call: no
    upload, no registration.  When the workspace does not list it and the
    cell runs to its end, the cell uploads the files, defines the tabular
    dataset and asks for its registration, in that order. *)
Theorem create_dataset_registers_only_what_is_missing
    (s : state) (ws ds : value) (l : list (string * value)) :
  ns s !! "ws" = Some ws ->
  world s (trace s)
    (Invoke AzureML "Workspace.get_default_datastore" [ws] []) = Returns ds ->
  (forall h, world s h (GetAttr AzureML "Workspace.datasets" ws)
             = Returns (VDict l)) ->
  (forall d, assoc l "diabetes dataset" = Some d ->
     fst (HyperdriveNotebook.create_dataset s) = Ok tt
     /\ added HyperdriveNotebook.create_dataset s
        = [ECall (Invoke AzureML "Workspace.get_default_datastore" [ws] [])
                 (Returns ds);
           ECall (GetAttr AzureML "Workspace.datasets" ws) (Returns (VDict l));
           EPrint [VStr "Dataset already registered."]])
  /\ (assoc l "diabetes dataset" = None ->
      is_ok (fst (HyperdriveNotebook.create_dataset s)) = true ->
      call_names (added HyperdriveNotebook.create_dataset s)
      = ["Workspace.get_default_datastore"; "Workspace.datasets";
         "Datastore.upload_files"; "Dataset.Tabular.from_delimited_files";
         "Dataset.register"]).
Proof.
  destruct s as [m tr W]. cbn [ns trace world]. intros Hws Hds Hl.
  split.
  - intros d Hd. unfold HyperdriveNotebook.create_dataset. run_ops.
    rewrite Hws. cbv beta iota. rewrite Hds. cbv beta iota.
    rewrite Hl. cbv beta iota. cbv [contains]. rewrite Hd.
    cbv beta iota. cbn [negb].
    split; [reflexivity|].
    rewrite <- !app_assoc, drop_app_length. reflexivity.
  - intros Hd. unfold HyperdriveNotebook.create_dataset,
      HyperdriveNotebook.register_dataset. run_ops.
    rewrite Hws. cbv beta iota. rewrite Hds. cbv beta iota.
    rewrite Hl. cbv beta iota. cbv [contains]. rewrite Hd.
    cbv beta iota. cbn [negb].
    repeat world_step; caught; try discriminate; intros _;
      unfold call_names; rewrite <- ?app_assoc, drop_app_length;
      reflexivity.
Qed.

Lemma create_dataset_registers_only_what_is_missing_witness :
  call_names (added HyperdriveNotebook.create_dataset
                    (Worlds.connected Worlds.demo_platform))
  = ["Workspace.get_default_datastore"; "Workspace.datasets"].
Proof.
  destruct (create_dataset_registers_only_what_is_missing
              (Worlds.connected Worlds.demo_platform)
              (VObj "Workspace.from_config" 0)
              (VObj "Workspace.get_default_datastore" 4)
              [("diabetes dataset", VObj "Dataset" 1)])
    as [H _].
  - reflexivity.
  - reflexivity.
  - intros h. reflexivity.
  - destruct (H (VObj "Dataset" 1) eq_refl) as [_ Ha].
    rewrite Ha. reflexivity.
Defined.

(** *** The experiment cell of the hyperdrive notebook *)

(** X8: the hyperdrive experiment needs the registered dataset.  The
    cell takes the dataset with [ws.datasets.get], which gives [None]
    for a name the workspace does not list (as after a registration whose
    failure the dataset cell only printed).  Then the cell does not run
    to its end and configures and submits nothing; when the calls before
    the lookup return, it ends with [AttributeError] on
    [as_named_input]. *)
Theorem run_hyperdrive_needs_the_dataset
    (s : state) (ws folder : value) (l : list (string * value)) :
  ns s !! "ws" = Some ws ->
  ns s !! "experiment_folder" = Some folder ->
  (forall h, world s h (GetAttr AzureML "Workspace.datasets" ws)
             = Returns (VDict l)) ->
  assoc l "diabetes dataset" = None ->
  is_ok (fst (HyperdriveNotebook.run_hyperdrive s)) = false
  /\ Forall (event_ok submits_nothing)
            (added HyperdriveNotebook.run_hyperdrive s)
  /\ (failures (added HyperdriveNotebook.run_hyperdrive s) = [] ->
      fst (HyperdriveNotebook.run_hyperdrive s)
      = Raise (LibraryError "AttributeError"
                 "'NoneType' object has no attribute 'as_named_input'")).
Proof.
  destruct s as [m tr W]. cbn [ns trace world]. intros Hws Hf Hl Hd.
  unfold HyperdriveNotebook.run_hyperdrive,
    HyperdriveNotebook.as_named_input. run_ops.
  do 4 (world_step;
        [|split; [reflexivity|];
          rewrite <- ?app_assoc, drop_app_length;
          split; [repeat constructor|intros H; discriminate H]]).
  ns_simpl. rewrite Hws. cbv beta iota. rewrite Hl. cbv beta iota.
  cbv [dict_get]. rewrite Hd. cbv beta iota.
  ns_simpl. rewrite Hf. cbv beta iota.
  split; [reflexivity|].
  rewrite <- ?app_assoc, drop_app_length.
  split; [repeat constructor|intros _; reflexivity].
Qed.

Lemma run_hyperdrive_needs_the_dataset_witness :
  fst (HyperdriveNotebook.run_hyperdrive
         {| ns := <["experiment_folder" := VStr "diabetes_training-hyperdrive"]>
                    (<["ws" := VObj "Workspace" 0]> ∅);
            trace := [];
            world := fun _ c =>
                       match c with
                       | GetAttr AzureML "Workspace.datasets" _ =>
                           Returns (VDict [])
                       | _ => Returns (VObj "object" 1)
                       end |})
  = Raise (LibraryError "AttributeError"
             "'NoneType' object has no attribute 'as_named_input'").
Proof.
  destruct (run_hyperdrive_needs_the_dataset
              {| ns := <["experiment_folder"
                         := VStr "diabetes_training-hyperdrive"]>
                         (<["ws" := VObj "Workspace" 0]> ∅);
                 trace := [];
                 world := fun _ c =>
                            match c with
                            | GetAttr AzureML "Workspace.datasets" _ =>
                                Returns (VDict [])
                            | _ => Returns (VObj "object" 1)
                            end |}
              (VObj "Workspace" 0) (VStr "diabetes_training-hyperdrive") [])
    as (_ & _ & H).
  - reflexivity.
  - reflexivity.
  - intros h. reflexivity.
  - reflexivity.
  - apply H. vm_compute. reflexivity.
Defined.

(** *** What a missing compute cluster does to the cells that follow *)

(** The end of a symbolic run: the cell did not end well, what it added
    to the trace passes the test, and the exception is the expected one
    when no call failed besides the expected ones. *)
Ltac stopped :=
  cbv beta iota;
  split; [reflexivity|];
  rewrite <- ?app_assoc, drop_app_length;
  split;
  [repeat constructor
  |let H := fresh "H" in
   intros H; first [reflexivity | vm_compute in H; discriminate H]].

(** X9: in the batch notebook a missing cluster is only printed, and
    stops the pipeline four cells later.  When the lookup of the cluster
    raises [ComputeTargetException] in a kernel that has no
    [inference_cluster] yet, a run of the cells from "Assign the compute
    target" to "Configure a ParallelRunStep" does not reach its end and
    builds no [ParallelRunConfig], no [ParallelRunStep] and no pipeline;
    when no other call fails, it ends with [NameError] on
    [inference_cluster]. *)
Theorem missing_cluster_stops_the_batch_pipeline
    (s : state) (ws : value) (msg : string) :
  ns s !! "ws" = Some ws ->
  ns s !! "inference_cluster" = None ->
  world s (trace s) (lookup_call ws "acaml-****")
  = Raises (ComputeTargetException msg) ->
  is_ok (fst (Repository.run_all (firstn 5 (skipn 3 BatchNotebook.cells)) s))
  = false
  /\ Forall (event_ok builds_no_pipeline)
       (added (Repository.run_all (firstn 5 (skipn 3 BatchNotebook.cells))) s)
  /\ (failures
        (added (Repository.run_all (firstn 5 (skipn 3 BatchNotebook.cells))) s)
      = [("ComputeTarget", ComputeTargetException msg)] ->
      fst (Repository.run_all (firstn 5 (skipn 3 BatchNotebook.cells)) s)
      = Raise (NameError "inference_cluster")).
Proof.
  destruct s as [m tr W]. cbn [ns trace world]. intros Hws Hc Hl.
  cbv [lookup_call] in Hl.
  cbv [Repository.run_all firstn skipn BatchNotebook.cells for_ snd].
  unfold BatchNotebook.assign_compute_target,
    BatchNotebook.create_experiment_folder, BatchNotebook.write_batch_script,
    BatchNotebook.define_run_context,
    BatchNotebook.configure_parallel_run_step,
    BatchNotebook.parallel_run_config_kwargs.
  run_ops. ns_simpl. rewrite Hws. cbv beta iota. rewrite Hl.
  cbv [isinstance]. cbv beta iota.
  repeat (first [rewrite Hc; cbv beta iota
                |rewrite Hws; cbv beta iota
                |world_step]);
    stopped.
Qed.

Lemma missing_cluster_stops_the_batch_pipeline_witness :
  fst (Repository.run_all (firstn 5 (skipn 3 BatchNotebook.cells))
         (Worlds.connected Worlds.no_cluster))
  = Raise (NameError "inference_cluster").
Proof.
  destruct (missing_cluster_stops_the_batch_pipeline
              (Worlds.connected Worlds.no_cluster)
              (VObj "Workspace.from_config" 0) "ComputeTargetNotFound")
    as (_ & _ & H).
  - reflexivity.
  - reflexivity.
  - reflexivity.
  - apply H. vm_compute. reflexivity.
Defined.

(** X10: in the hyperdrive notebook a missing cluster is only printed,
    and stops the experiment cell.  When the lookup of the
    cluster raises [ComputeTargetException] in a kernel that has no
    [training_cluster] yet, a run of "Assign the compute target" and of
    the experiment cell does not reach its end and configures and
    submits nothing; when the workspace lists the dataset and no other
    call fails, it ends with [NameError] on [training_cluster]. *)
Theorem missing_cluster_stops_the_hyperdrive_experiment
    (s : state) (ws folder d : value) (l : list (string * value))
    (msg : string) :
  ns s !! "ws" = Some ws ->
  ns s !! "experiment_folder" = Some folder ->
  ns s !! "training_cluster" = None ->
  world s (trace s) (lookup_call ws "ac-aml-cluster")
  = Raises (ComputeTargetException msg) ->
  (forall h, world s h (GetAttr AzureML "Workspace.datasets" ws)
             = Returns (VDict l)) ->
  assoc l "diabetes dataset" = Some d ->
  d <> VNone ->
  is_ok (fst (Repository.run_all
                (firstn 2 (skipn 4 HyperdriveNotebook.cells)) s)) = false
  /\ Forall (event_ok submits_nothing)
       (added (Repository.run_all
                 (firstn 2 (skipn 4 HyperdriveNotebook.cells))) s)
  /\ (failures
        (added (Repository.run_all
                  (firstn 2 (skipn 4 HyperdriveNotebook.cells))) s)
      = [("ComputeTarget", ComputeTargetException msg)] ->
      fst (Repository.run_all
             (firstn 2 (skipn 4 HyperdriveNotebook.cells)) s)
      = Raise (NameError "training_cluster")).
Proof.
  destruct s as [m tr W]. cbn [ns trace world].
  intros Hws Hf Hc Hl Hds Hd Hnone. cbv [lookup_call] in Hl.
  cbv [Repository.run_all firstn skipn HyperdriveNotebook.cells for_ snd].
  unfold HyperdriveNotebook.assign_compute_target,
    HyperdriveNotebook.run_hyperdrive, HyperdriveNotebook.as_named_input.
  run_ops. ns_simpl. rewrite Hws. cbv beta iota. rewrite Hl.
  cbv [isinstance]. cbv beta iota.
  do 4 (world_step; [|stopped]).
  ns_simpl. rewrite Hws. cbv beta iota. rewrite Hds. cbv beta iota.
  cbv [dict_get]. rewrite Hd. cbv beta iota.
  ns_simpl. rewrite Hf. cbv beta iota.
  destruct d; try (exfalso; apply Hnone; reflexivity);
    (world_step; [|stopped]);
    ns_simpl; rewrite Hc; stopped.
Qed.

Lemma missing_cluster_stops_the_hyperdrive_experiment_witness :
  fst (Repository.run_all (firstn 2 (skipn 4 HyperdriveNotebook.cells))
         (snd (HyperdriveNotebook.create_experiment_folder
                 (Worlds.connected Worlds.no_cluster))))
  = Raise (NameError "training_cluster").
Proof.
  destruct (missing_cluster_stops_the_hyperdrive_experiment
              (snd (HyperdriveNotebook.create_experiment_folder
                      (Worlds.connected Worlds.no_cluster)))
              (VObj "Workspace.from_config" 0)
              (VStr "diabetes_training-hyperdrive")
              (VObj "Dataset" 1)
              [("diabetes dataset", VObj "Dataset" 1)]
              "ComputeTargetNotFound")
    as (_ & _ & H).
  - reflexivity.
  - reflexivity.
  - reflexivity.
  - reflexivity.
  - intros h. reflexivity.
  - reflexivity.
  - discriminate.
  - apply H. vm_compute. reflexivity.
Defined.

(** X11: the drift notebook does not need the cluster to be found.  Its
    monitor cell passes the cluster's name, which is bound before the
    [try], and never the handle the lookup would bind: when the lookup
    raises [ComputeTargetException], a run of "Assign the compute target"
    and of the monitor cell still makes the one configuring call, with
    the name as compute target. *)
Theorem drift_monitor_is_configured_without_the_cluster
    (s : state) (ws b t : value) (msg : string) :
  ns s !! "ws" = Some ws ->
  ns s !! "baseline_data_set" = Some b ->
  ns s !! "target_data_set" = Some t ->
  world s (trace s) (lookup_call ws "ac-aml-cluster")
  = Raises (ComputeTargetException msg) ->
  calls_of (added (Repository.run_all
                     (firstn 2 (skipn 4 DriftNotebook.cells))) s)
  = [lookup_call ws "ac-aml-cluster";
     monitor_call ws b t (VStr "ac-aml-cluster")].
Proof.
  destruct s as [m tr W]. cbn [ns trace world].
  intros Hws Hb Ht Hl. cbv [lookup_call] in Hl.
  cbv [Repository.run_all firstn skipn DriftNotebook.cells for_ snd].
  unfold DriftNotebook.assign_compute_target,
    DriftNotebook.create_drift_monitor, DriftNotebook.drift_kwargs.
  run_ops. ns_simpl. rewrite Hws. cbv beta iota. rewrite Hl.
  cbv [isinstance]. cbv beta iota.
  ns_simpl. rewrite Hws. cbv beta iota.
  ns_simpl. rewrite Hb. cbv beta iota.
  ns_simpl. rewrite Ht. cbv beta iota.
  ns_simpl. cbv beta iota.
  world_step; rewrite <- ?app_assoc, drop_app_length; reflexivity.
Qed.

Lemma drift_monitor_is_configured_without_the_cluster_witness :
  map call_name
    (calls_of (added (Repository.run_all
                        (firstn 2 (skipn 4 DriftNotebook.cells)))
                     (snd (Repository.run_all (firstn 4 DriftNotebook.cells)
                             (initial Worlds.no_cluster)))))
  = ["ComputeTarget"; "DataDriftDetector.create_from_datasets"].
Proof.
  rewrite (drift_monitor_is_configured_without_the_cluster
             (snd (Repository.run_all (firstn 4 DriftNotebook.cells)
                     (initial Worlds.no_cluster)))
             (VObj "Workspace.from_config" 1)
             (VObj "Dataset.register" 8)
             (VObj "Dataset.register" 28)
             "ComputeTargetNotFound").
  - reflexivity.
  - vm_compute. reflexivity.
  - vm_compute. reflexivity.
  - vm_compute. reflexivity.
  - vm_compute. reflexivity.
Defined.

(** *** A registration that is not guarded *)

(** X12: the baseline registration of the drift notebook is not inside
    a [try].  In a workspace where registering a dataset raises, whatever
    the exception, a "Run All" of the drift notebook from a fresh kernel
    does not reach its end, writes no simulated file and makes no call on
    the drift detector. *)
Theorem failed_baseline_registration_stops_the_drift_notebook
    (W : platform) (e : exn) :
  (forall h c, named "Dataset.register" c = true -> W h c = Raises e) ->
  is_ok (fst (Repository.run_all DriftNotebook.cells (initial W))) = false
  /\ Forall (event_ok no_drift_call)
       (added (Repository.run_all DriftNotebook.cells) (initial W))
  /\ csv_writes (added (Repository.run_all DriftNotebook.cells) (initial W))
     = [].
Proof.
  intros Hr.
  cbv [Repository.run_all DriftNotebook.cells for_ snd initial].
  unfold DriftNotebook.verify_package, DriftNotebook.connect_to_workspace,
    DriftNotebook.create_baseline_dataset.
  run_ops. cbn [app length drop].
  assert (Hend : forall (r : bool) (tr : list event),
             Forall (event_ok no_drift_call) tr ->
             csv_writes tr = [] ->
             r = false ->
             r = false /\ Forall (event_ok no_drift_call) tr
             /\ csv_writes tr = []) by (intros; repeat split; assumption).
  do 2 (world_step;
        [|apply Hend; [repeat constructor|reflexivity|reflexivity]]).
  ns_simpl. cbv beta iota.
  do 3 (world_step;
        [|apply Hend; [repeat constructor|reflexivity|reflexivity]]).
  rewrite Hr by reflexivity. cbv beta iota.
  apply Hend; [repeat constructor|reflexivity|reflexivity].
Qed.

Lemma failed_baseline_registration_stops_the_drift_notebook_witness :
  fst (Repository.run_all DriftNotebook.cells (initial Worlds.register_fails))
  = Raise (LibraryError "Exception" "registration failed").
Proof.
  destruct (failed_baseline_registration_stops_the_drift_notebook
              Worlds.register_fails
              (LibraryError "Exception" "registration failed")) as [H _].
  - intros h c Hn. unfold Worlds.register_fails, Worlds.failing.
    rewrite Hn. reflexivity.
  - destruct (fst (Repository.run_all DriftNotebook.cells
                     (initial Worlds.register_fails))) eqn:Hrun.
    + discriminate H.
    + vm_compute in Hrun. injection Hrun as <-. reflexivity.
Defined.

(** *** The cell that uses the web service *)

Lemma list_getitem_1 {A} (x y : A) (l : list A) :
  list_getitem (x :: y :: l) 1 = Ok y.
Proof.
  unfold list_getitem. cbn [length].
  replace (1 <? 0) with false by reflexivity.
  rewrite !Nat2Z.inj_succ.
  destruct (Z.ltb_spec 1 0); [lia|].
  destruct (Z.leb_spec (Z.succ (Z.succ (Z.of_nat (length l)))) 1); [lia|].
  reflexivity.
Qed.



(** X14: status 200.  When the body of the response decodes to a list
    of classes, the cell prints one line per patient of [x_new], the
    patient with the class at the same position, and ends well when the
    service answered at least two classes (classes beyond the second are
    ignored); with fewer classes it prints the lines it has a class for
    and ends with [IndexError]. *)
Theorem use_web_service_prints_one_line_per_patient
    (s : state) (endpoint input_json response body : value)
    (classes : list value) :
  ns s !! "endpoint" = Some endpoint ->
  (forall h, world s h dumps_call = Returns input_json) ->
  (forall h, world s h (post_call endpoint input_json) = Returns response) ->
  (forall h, world s h (status_call response) = Returns (VInt 200)) ->
  (forall h, world s h (body_call response) = Returns body) ->
  (forall h, world s h (loads_call body) = Returns (VList classes)) ->
  fst (TelemetryNotebook.use_web_service s)
  = (if (2 <=? length classes)%nat then Ok tt else Raise IndexError)
  /\ added TelemetryNotebook.use_web_service s
     = ([ECall dumps_call (Returns input_json);
         ECall (post_call endpoint input_json) (Returns response);
         ECall (status_call response) (Returns (VInt 200));
         EPrint [VInt 200];
         ECall (status_call response) (Returns (VInt 200));
         ECall (body_call response) (Returns body);
         ECall (loads_call body) (Returns (VList classes))]
        ++ patient_lines classes)%list.
Proof.
  destruct s as [m tr W]. cbn [ns trace world].
  intros He Hd Hp Hs Hb Hl.
  cbv [dumps_call post_call status_call body_call loads_call] in *.
  unfold TelemetryNotebook.use_web_service. run_ops.
  rewrite Hd. cbv beta iota. ns_simpl. rewrite He. cbv beta iota.
  rewrite Hp. cbv beta iota. rewrite Hs. cbv beta iota.
  rewrite Hs. cbv beta iota.
  change (TelemetryNotebook.value_eq_int 200 200) with true. cbv beta iota.
  rewrite Hb. cbv beta iota. rewrite Hl. cbv beta iota.
  cbv [TelemetryNotebook.x_new iterate]. cbv beta iota.
  cbn [length range seq map for_]. run_ops. cbv [getitem_int].
  change (Z.of_nat 0) with 0. change (Z.of_nat 1) with 1.
  rewrite !BatchDiabetesFacts.list_getitem_0, !list_getitem_1.
  cbv beta iota.
  destruct classes as [|c0 [|c1 rest]].
  - change (@list_getitem value [] 0) with (@Raise value IndexError).
    cbv beta iota. split; [reflexivity|].
    rewrite <- ?app_assoc, drop_app_length. reflexivity.
  - rewrite BatchDiabetesFacts.list_getitem_0. cbv beta iota.
    change (@list_getitem value [c0] 1) with (@Raise value IndexError).
    cbv beta iota. split; [reflexivity|].
    rewrite <- ?app_assoc, drop_app_length. reflexivity.
  - rewrite BatchDiabetesFacts.list_getitem_0, list_getitem_1.
    cbv beta iota. split; [reflexivity|].
    rewrite <- ?app_assoc, drop_app_length. reflexivity.
Qed.

Lemma use_web_service_prints_one_line_per_patient_witness :
  fst (TelemetryNotebook.use_web_service
         (MoreWorlds.with_endpoint
            (MoreWorlds.service (VInt 200) [VStr "diabetic"])))
  = Raise IndexError
  /\ List.filter (fun ev => match ev with EPrint _ => true | _ => false end)
       (added TelemetryNotebook.use_web_service
          (MoreWorlds.with_endpoint
             (MoreWorlds.service (VInt 200) [VStr "diabetic"])))
     = [EPrint [VInt 200];
        EPrint [VFormat "Patient {}"
                  [VList [VInt 2; VInt 180; VInt 74; VInt 24; VInt 21;
                          VDec 239091702 (-7); VDec 1488172308 (-9);
                          VInt 22]];
                VStr "diabetic"]].
Proof.
  destruct (use_web_service_prints_one_line_per_patient
              (MoreWorlds.with_endpoint
                 (MoreWorlds.service (VInt 200) [VStr "diabetic"]))
              (VStr "http://service/score") (VStr "{...}")
              (VObj "Response" 1) (VStr "[...]") [VStr "diabetic"])
    as [Hr Ha].
  - reflexivity.
  - intros h. reflexivity.
  - intros h. reflexivity.
  - intros h. reflexivity.
  - intros h. reflexivity.
  - intros h. reflexivity.
  - split; [exact Hr|]. rewrite Ha. reflexivity.
Defined.

(** *** The files of the web service *)

(** Case split on a value the next step takes apart. *)
Ltac value_step :=
  match goal with
  | |- context [str_add ?v _] => destruct v; cbv [str_add]; cbv beta iota
  end.

(** X15: every file the conda cell opens, it closes.  Whatever the
    world answers and wherever the cell stops, the files that [open]
    returned are the files whose [__exit__] ran, in the same order: a
    failure while serialising, writing or reading leaves no file
    open. *)
Theorem conda_cell_closes_its_files (s : state) :
  closed (added TelemetryNotebook.create_conda_file s)
  = opened (added TelemetryNotebook.create_conda_file s).
Proof.
  destruct s as [m tr W].
  unfold TelemetryNotebook.create_conda_file. run_ops.
  repeat (first [world_step | value_step]);
    rewrite <- ?app_assoc, drop_app_length; reflexivity.
Qed.

(** X16: the service is deployed from the files the notebook wrote.
    When the three cells before the deployment (the experiment folder,
    the scoring script, the conda file) run to their end, the scoring
    script has been written to ./diabetes_service/score_diabetes.py and
    the environment to diabetes_service/diabetes_env.yml, and the first
    call of the deployment cell is [InferenceConfig] with these two
    paths as entry script and conda file. *)
Theorem service_is_deployed_from_the_files_written (s s' : state) :
  Repository.run_all (firstn 3 (skipn 2 TelemetryNotebook.cells)) s
  = (Ok tt, s') ->
  written_scripts
    (added (Repository.run_all (firstn 3 (skipn 2 TelemetryNotebook.cells))) s)
  = [VStr "./diabetes_service/score_diabetes.py"]
  /\ opened_for "w"
       (added (Repository.run_all
                 (firstn 3 (skipn 2 TelemetryNotebook.cells))) s)
     = [VStr "diabetes_service/diabetes_env.yml"]
  /\ head (calls_of (added TelemetryNotebook.deploy_service s'))
     = Some (inference_config_call
               (VStr "./diabetes_service/score_diabetes.py")
               (VStr "diabetes_service/diabetes_env.yml")).
Proof.
  destruct s as [m tr W].
  cbv [Repository.run_all firstn skipn TelemetryNotebook.cells for_ snd].
  unfold TelemetryNotebook.create_experiment_folder,
    TelemetryNotebook.write_scoring_script,
    TelemetryNotebook.create_conda_file.
  run_ops. cbv [str_add].
  repeat (first [progress ns_simpl; cbv beta iota | world_step]);
    try (intros H; discriminate H).
  intros H. injection H as <-.
  split; [rewrite <- ?app_assoc, drop_app_length; vm_compute; reflexivity|].
  split; [rewrite <- ?app_assoc, drop_app_length; vm_compute; reflexivity|].
  match goal with
  | |- context [{| ns := _; trace := ?t; world := _ |}] => set (tr1 := t)
  end.
  unfold TelemetryNotebook.deploy_service. run_ops.
  repeat (first [progress ns_simpl; cbv beta iota | world_step]);
    rewrite <- ?app_assoc, drop_app_length; vm_compute; reflexivity.
Qed.

Lemma service_is_deployed_from_the_files_written_witness :
  head (calls_of
          (added TelemetryNotebook.deploy_service
             (snd (Repository.run_all
                     (firstn 3 (skipn 2 TelemetryNotebook.cells))
                     (initial Worlds.demo_platform)))))
  = Some (inference_config_call
            (VStr "./diabetes_service/score_diabetes.py")
            (VStr "diabetes_service/diabetes_env.yml")).
Proof.
  apply (service_is_deployed_from_the_files_written
           (initial Worlds.demo_platform)).
  vm_compute. reflexivity.
Defined.

End CellFacts.

(** ** The loops of the batch notebook *)

Module LoopFacts.
Import Py Notebook NotebookSpec CellSpec PathSpec NotebookFacts CellFacts.

Section Yields.
Context {X : Type} (sel : event -> list X).







End Yields.

(** *** The hundred files of the sample *)
















(** *** The result file *)





End LoopFacts.

(** ** The simulated drift *)

Module DriftFacts.
Import Py Notebook NotebookSpec CellSpec NotebookFacts CellFacts.

(** *** The drift of [Age] *)

Lemma In_ages (a : Z) : 0 <= a <= 1000 -> In a ages.
Proof.
  intros Ha. unfold ages. rewrite <- (Z2Nat.id a) by lia.
  apply in_map, in_seq. lia.
Qed.

Lemma age_table :
  forallb (fun a =>
             F64.round_astype_int (F64.mul (F64.of_Z a) F64.lit_1_2)
             =? (12 * a + 5) / 10) ages = true.
Proof. vm_compute. reflexivity. Qed.

(** X19: the drift of [Age].  For ages from 0 to 1000, one round of the
    simulation replaces the age [a] by the integer nearest to 1.2 a,
    which is the quotient of 12 a + 5 by 10: the product computed in
    binary64 with the double nearest to 1.2 and rounded half to even
    never differs from the exact one, 1.2 a never falling half way
    between two integers. *)
Theorem age_drifts_by_a_fifth (f : frame) :
  Forall (fun a => 0 <= a <= 1000) (Age f) ->
  Age (drift_step f) = map (fun a => (12 * a + 5) / 10) (Age f).
Proof.
  intros Hr. unfold drift_step, scale_bmi, scale_age, bump_pregnancies.
  cbn [Age]. apply map_ext_in. intros a Ha.
  rewrite List.Forall_forall in Hr. specialize (Hr a Ha).
  pose proof age_table as T. rewrite forallb_forall in T.
  apply Z.eqb_eq, T, In_ages, Hr.
Qed.

Lemma age_drifts_by_a_fifth_witness :
  Age (drift_step Worlds.demo_frame) = [25; 60; 52].
Proof.
  rewrite (age_drifts_by_a_fifth Worlds.demo_frame).
  - reflexivity.
  - repeat constructor; cbn; lia.
Defined.

(** *** Generating the files again *)

Lemma generation_spec (s : state) (f0 : frame) (d : Z) :
  (forall h, world s h (read_csv_call "data/diabetes2.csv")
             = Returns (VFrame f0)) ->
  (forall h, world s h today_call = Returns (VDate d)) ->
  (forall h data path, is_returns (world s h (to_csv_call data path)) = true) ->
  36 <= d <= max_ordinal ->
  exists s',
    DriftNotebook.generate_target_data s = (Ok tt, s')
    /\ world s' = world s
    /\ csv_writes (added DriftNotebook.generate_target_data s)
       = writes_from d f0 [5; 4; 3; 2; 1; 0]
    /\ ns s' !! "file_paths"
       = Some (VList (map (fun w => VStr (week_path d w)) [5; 4; 3; 2; 1; 0])).
Proof.
  intros Hread Htoday Hcsv Hd.
  destruct s as [m tr W]. cbn [world] in *.
  unfold DriftNotebook.generate_target_data.
  change (reversed (range 6)) with [5; 4; 3; 2; 1; 0].
  set (s1 := {| ns := <["file_paths" := VList []]>
                        (<["weeknos" := VList (map VInt [5; 4; 3; 2; 1; 0])]>
                           (<["data" := VFrame f0]> m));
                trace := ((tr ++ [EPrint [VStr "Generating simulated data..."]])
                          ++ [ECall (read_csv_call "data/diabetes2.csv")
                                    (Returns (VFrame f0))])%list;
                world := W |}).
  destruct (generate_weeks_spec d [5; 4; 3; 2; 1; 0]
              ltac:(repeat constructor; lia) s1 f0 [])
    as (s' & Hrun & Hpaths & suf & Ht & Hw);
    [exact Htoday|exact Hcsv|subst s1; cbn [ns]; ns_simpl; reflexivity
    |subst s1; cbn [ns]; ns_simpl; reflexivity|].
  assert (Heq : (print_ [VStr "Generating simulated data..."] ;;;
                 assign "data"
                   (invoke Pandas "read_csv" [VStr "data/diabetes2.csv"] []) ;;;
                 set "weeknos" (VList (map VInt [5; 4; 3; 2; 1; 0])) ;;;
                 set "file_paths" (VList []) ;;;
                 for_ [5; 4; 3; 2; 1; 0] DriftNotebook.generate_week)
                {| ns := m; trace := tr; world := W |}
                = (Ok tt, s')).
  { cbv [bind print_ assign invoke do_call set emit ret ns trace world].
    fold (read_csv_call "data/diabetes2.csv"). rewrite Hread.
    cbv beta iota. exact Hrun. }
  exists s'. split; [exact Heq|].
  assert (Hem : emits any_call
                  (print_ [VStr "Generating simulated data..."] ;;;
                   assign "data"
                     (invoke Pandas "read_csv" [VStr "data/diabetes2.csv"] []) ;;;
                   set "weeknos" (VList (map VInt [5; 4; 3; 2; 1; 0])) ;;;
                   set "file_paths" (VList []) ;;;
                   for_ [5; 4; 3; 2; 1; 0] DriftNotebook.generate_week))
    by emits_auto.
  destruct (Hem {| ns := m; trace := tr; world := W |}) as (suf0 & _ & Hw0 & _).
  rewrite Heq in Hw0. cbn [snd world] in Hw0.
  split; [exact Hw0|].
  split; [|exact Hpaths].
  unfold added. rewrite Heq. cbn [fst snd trace].
  rewrite Ht. subst s1. cbn [trace].
  rewrite <- !app_assoc, drop_app_length.
  rewrite !csv_writes_app, Hw. reflexivity.
Qed.

(** X20: generating the files again does not add drift to drift.  The
    cell reads the data file anew each time it runs: when the data file
    reads as a frame, today's date is a day from 0001-02-05 on and every
    write returns, a second run right after the first writes the same six
    files with the same contents as the first. *)
Theorem generating_again_writes_the_same_files
    (s : state) (f0 : frame) (d : Z) :
  (forall h, world s h (read_csv_call "data/diabetes2.csv")
             = Returns (VFrame f0)) ->
  (forall h, world s h today_call = Returns (VDate d)) ->
  (forall h data path, is_returns (world s h (to_csv_call data path)) = true) ->
  36 <= d <= max_ordinal ->
  csv_writes (added DriftNotebook.generate_target_data
                    (snd (DriftNotebook.generate_target_data s)))
  = csv_writes (added DriftNotebook.generate_target_data s).
Proof.
  intros Hread Htoday Hcsv Hd.
  destruct (generation_spec s f0 d Hread Htoday Hcsv Hd)
    as (s' & Hrun & Hworld & Hw & _).
  rewrite Hrun at 1. cbn [snd].
  destruct (generation_spec s' f0 d) as (s'' & _ & _ & Hw' & _);
    try (rewrite Hworld; assumption); [exact Hd|].
  rewrite Hw, Hw'. reflexivity.
Qed.

Lemma generating_again_writes_the_same_files_witness :
  map fst
    (csv_writes (added DriftNotebook.generate_target_data
                   (snd (DriftNotebook.generate_target_data
                           (initial Worlds.demo_platform)))))
  = map fst
      (csv_writes (added DriftNotebook.generate_target_data
                     (initial Worlds.demo_platform))).
Proof.
  rewrite (generating_again_writes_the_same_files
             (initial Worlds.demo_platform) Worlds.demo_frame 737935).
  - reflexivity.
  - intros h. reflexivity.
  - intros h. reflexivity.
  - intros h data path. reflexivity.
  - unfold max_ordinal. lia.
Defined.

(** *** What is uploaded *)

Lemma calls_named_app (name : string) (a b : list event) :
  calls_named name (a ++ b)
  = (calls_named name a ++ calls_named name b)%list.
Proof.
  unfold calls_named. rewrite calls_of_app, List.filter_app. reflexivity.
Qed.

Lemma calls_named_none (name : string) (tr : list event) :
  Forall (event_ok (not_named name)) tr -> calls_named name tr = [].
Proof.
  induction 1 as [|ev tr Hev _ IH]; [reflexivity|].
  change (ev :: tr) with ([ev] ++ tr)%list.
  rewrite calls_named_app, IH, app_nil_r.
  destruct ev as [c r| | |]; try reflexivity.
  cbn in Hev. unfold not_named in Hev. apply negb_true_iff in Hev.
  unfold calls_named. cbn. rewrite Hev. reflexivity.
Qed.

Lemma csv_writes_none (tr : list event) :
  Forall (event_ok (not_named "DataFrame.to_csv")) tr -> csv_writes tr = [].
Proof.
  induction 1 as [|ev tr Hev _ IH]; [reflexivity|].
  change (ev :: tr) with ([ev] ++ tr)%list.
  rewrite csv_writes_app, IH, app_nil_r.
  destruct ev as [c r| | |]; try reflexivity.
  cbn in Hev. unfold not_named, named in Hev. apply negb_true_iff in Hev.
  destruct c as [l fn args kwargs| |]; try reflexivity.
  cbn [call_name] in Hev.
  destruct l; try reflexivity.
  destruct args as [|data [|[] [|]]]; try reflexivity.
  destruct kwargs; try reflexivity.
  destruct r; try reflexivity.
  cbn. rewrite Hev. reflexivity.
Qed.

Lemma generation_keeps_the_datastore :
  touches ["data"; "weeknos"; "file_paths"; "weekno"; "data_date";
           "file_path"]
          DriftNotebook.generate_target_data.
Proof. touches_auto. Qed.

Lemma writes_from_paths (d : Z) (f : frame) (weeks : list Z) :
  map (fun p => VStr (fst p)) (writes_from d f weeks)
  = map (fun w => VStr (week_path d w)) weeks.
Proof.
  revert f. induction weeks as [|w rest IH]; intros f; [reflexivity|].
  cbn [writes_from map fst]. rewrite IH. reflexivity.
Qed.

(** X21: the files uploaded are the files written.  When the data file
    reads as a frame, today's date is a day from 0001-02-05 on, every
    write returns and the default datastore is bound, the cell that
    creates the target dataset makes one upload, to 'diabetes-target',
    and the files it uploads are the paths of the files the loop wrote,
    in the order written. *)
Theorem the_files_uploaded_are_the_files_written
    (s : state) (f0 : frame) (d : Z) (ds : value) :
  (forall h, world s h (read_csv_call "data/diabetes2.csv")
             = Returns (VFrame f0)) ->
  (forall h, world s h today_call = Returns (VDate d)) ->
  (forall h data path, is_returns (world s h (to_csv_call data path)) = true) ->
  36 <= d <= max_ordinal ->
  ns s !! "default_ds" = Some ds ->
  calls_named "Datastore.upload_files"
    (added DriftNotebook.create_target_dataset s)
  = [upload_call ds
       (VList (map (fun p => VStr (fst p))
                 (csv_writes (added DriftNotebook.create_target_dataset s))))
       "diabetes-target"].
Proof.
  intros Hread Htoday Hcsv Hd Hds.
  destruct (generation_spec s f0 d Hread Htoday Hcsv Hd)
    as (s' & Hrun & Hworld & Hw & Hpaths).
  assert (Hds' : ns s' !! "default_ds" = Some ds).
  { pose proof (generation_keeps_the_datastore s) as Hk.
    rewrite Hrun in Hk. cbn [snd] in Hk. rewrite Hk; [exact Hds|].
    cbn [In]. intros H. repeat (destruct H as [H|H]; [discriminate H|]).
    exact H. }
  unfold DriftNotebook.create_target_dataset.
  rewrite (added_bind_ok _ _ s s' tt) by
    (try exact Hrun; try (intros; emits_auto); emits_auto).
  rewrite calls_named_app, csv_writes_app.
  rewrite (calls_named_none "Datastore.upload_files"
             (added DriftNotebook.generate_target_data s))
    by (apply added_emits; emits_auto).
  rewrite (csv_writes_none (added DriftNotebook.register_target_data s'))
    by (apply added_emits; emits_auto).
  rewrite app_nil_r, Hw, writes_from_paths. cbn [app].
  clear Hrun Hworld Hw.
  destruct s' as [m' tr' W']. cbn [ns] in Hpaths, Hds'.
  unfold DriftNotebook.register_target_data. run_ops.
  ns_simpl. rewrite Hds'. cbv beta iota.
  ns_simpl. rewrite Hpaths. cbv beta iota.
  repeat (first [progress ns_simpl; cbv beta iota | world_step]);
    rewrite <- ?app_assoc, drop_app_length; reflexivity.
Qed.

Lemma the_files_uploaded_are_the_files_written_witness :
  map (fun c => assoc (kwargs_of c) "files")
    (calls_named "Datastore.upload_files"
       (added DriftNotebook.create_target_dataset
          (snd (Repository.run_all (firstn 3 DriftNotebook.cells)
                  (initial Worlds.demo_platform)))))
  = [Some (VList [VStr "data/diabetes_2021-04-20.csv";
                  VStr "data/diabetes_2021-04-27.csv";
                  VStr "data/diabetes_2021-05-04.csv";
                  VStr "data/diabetes_2021-05-11.csv";
                  VStr "data/diabetes_2021-05-18.csv";
                  VStr "data/diabetes_2021-05-25.csv"])].
Proof.
  rewrite (the_files_uploaded_are_the_files_written
             (snd (Repository.run_all (firstn 3 DriftNotebook.cells)
                     (initial Worlds.demo_platform)))
             Worlds.demo_frame 737935
             (VObj "Workspace.get_default_datastore" 4)).
  - vm_compute. reflexivity.
  - intros h. reflexivity.
  - intros h. reflexivity.
  - intros h data path. reflexivity.
  - unfold max_ordinal. lia.
  - vm_compute. reflexivity.
Defined.

(** *** The names of the files *)

Lemma before_month_bounds (m : Z) :
  1 <= m <= 12 -> 0 <= nth (Z.to_nat m) days_before_month 0 <= 334.
Proof.
  intros Hm.
  assert (Hc : m = 1 \/ m = 2 \/ m = 3 \/ m = 4 \/ m = 5 \/ m = 6 \/ m = 7
               \/ m = 8 \/ m = 9 \/ m = 10 \/ m = 11 \/ m = 12) by lia.
  repeat (destruct Hc as [->|Hc]); [..|subst m]; tabs; lia.
Qed.

(** The days from 1000-01-01 to 9999-12-31 are the days of the years
    with four digits. *)
Lemma year_of_ordinal (n y m d : Z) :
  364878 <= n <= 3652059 ->
  ymd2ord y m d = n -> 1 <= m <= 12 -> 1 <= d <= 31 ->
  1000 <= y <= 9999.
Proof.
  intros Hn He Hm Hd. unfold ymd2ord, days_before_year in He.
  pose proof (before_month_bounds m Hm) as Hb.
  set (b := nth (Z.to_nat m) days_before_month 0) in *. clearbody b.
  destruct ((2 <? m) && is_leap y) eqn:Hl.
  - apply andb_prop in Hl. destruct Hl as [_ Hl]. unfold is_leap in Hl.
    apply andb_prop in Hl. destruct Hl as [H4 _]. apply Z.eqb_eq in H4.
    Z.to_euclidean_division_equations; lia.
  - Z.to_euclidean_division_equations; lia.
Qed.

Lemma In_years (y : Z) : 1000 <= y <= 9999 -> In y years.
Proof.
  intros Hy. unfold years.
  replace y with (1000 + Z.of_nat (Z.to_nat (y - 1000))) by lia.
  apply (in_map (fun k => 1000 + Z.of_nat k)), in_seq. lia.
Qed.

Lemma year_table : forallb (fun y => digits 4 (str_int y)) years = true.
Proof. vm_compute. reflexivity. Qed.

Lemma field_table : forallb (fun z => digits 2 (pad2 z)) month_days = true.
Proof. vm_compute. reflexivity. Qed.

Lemma stamp_of_parts (a b c : string) :
  digits 4 a = true -> digits 2 b = true -> digits 2 c = true ->
  is_stamp (a +:+ "-" +:+ b +:+ "-" +:+ c) = true.
Proof.
  unfold digits. intros Ha Hb Hc.
  apply andb_prop in Ha, Hb, Hc.
  destruct Ha as [La Da], Hb as [Lb Db], Hc as [Lc Dc].
  destruct a as [|a1 [|a2 [|a3 [|a4 [|]]]]]; try discriminate La.
  destruct b as [|b1 [|b2 [|]]]; try discriminate Lb.
  destruct c as [|c1 [|c2 [|]]]; try discriminate Lc.
  cbn [all_digits] in Da, Db, Dc.
  repeat match goal with
         | H : _ && _ = true |- _ => apply andb_prop in H; destruct H
         end.
  cbv -[is_digit andb].
  repeat match goal with
         | H : is_digit _ = true |- _ => rewrite H; clear H
         end.
  reflexivity.
Qed.

(** X22: the file names carry the date as yyyy-MM-dd.  For every day
    from 1000-01-01 to 9999-12-31 the text that [strftime("%Y-%m-%d")]
    gives has ten characters, four digits, a dash, two digits, a dash
    and two digits, which is the form the partition format
    'diabetes_{date:yyyy-MM-dd}.csv' of the target dataset names. *)
Theorem file_names_carry_the_date_as_the_partition_format_has_it (n : Z) :
  364878 <= n <= max_ordinal ->
  is_stamp (strftime_ymd n) = true.
Proof.
  intros Hn. unfold max_ordinal in Hn. unfold strftime_ymd.
  pose proof (ymd2ord_ord2ymd n ltac:(lia)) as Hinv.
  destruct (ord2ymd n) as [[y m] d]. destruct Hinv as (He & Hm & Hd).
  pose proof (year_of_ordinal n y m d Hn He Hm Hd) as Hy.
  pose proof year_table as Ty. rewrite forallb_forall in Ty.
  pose proof field_table as Tf. rewrite forallb_forall in Tf.
  apply stamp_of_parts.
  - apply Ty, In_years, Hy.
  - apply Tf, In_month_days. lia.
  - apply Tf, In_month_days, Hd.
Qed.

Lemma file_names_carry_the_date_as_the_partition_format_has_it_witness :
  is_stamp (strftime_ymd 737935) = true
  /\ week_path 737935 0 = "data/diabetes_2021-05-25.csv".
Proof.
  split.
  - apply file_names_carry_the_date_as_the_partition_format_has_it.
    unfold max_ordinal. lia.
  - reflexivity.
Defined.

(** *** The metrics of the backfill *)

Lemma assoc_in (l : list (string * value)) (k : string) (v : value) :
  NoDup (map fst l) -> In (k, v) l -> assoc l k = Some v.
Proof.
  induction l as [|[k' v'] l IH]; intros Hnd Hin; [destruct Hin|].
  cbn [map fst] in Hnd. apply NoDup_cons in Hnd. destruct Hnd as [Hk Hnd].
  cbn [assoc]. destruct Hin as [Heq|Hin].
  - injection Heq as -> ->. rewrite String.eqb_refl. reflexivity.
  - destruct (String.eqb_spec k' k) as [->|Hne]; [|apply IH; assumption].
    exfalso. apply Hk. apply list_elem_of_In.
    apply (in_map fst) in Hin. exact Hin.
Qed.

Lemma metric_loop (l l' : list (string * value)) :
  (forall kv, In kv l' -> assoc l (fst kv) = Some (snd kv)) ->
  forall s0, exists ns',
    for_ (map (fun kv => VStr (fst kv)) l') (print_metric (VDict l)) s0
    = (Ok tt,
       {| ns := ns';
          trace := (trace s0
                    ++ map (fun kv => EPrint [VStr (fst kv); snd kv]) l')%list;
          world := world s0 |}).
Proof.
  induction l' as [|[k v] l' IH]; intros Hsub [m tr W].
  - exists m. cbn. rewrite app_nil_r. reflexivity.
  - cbn [map for_ fst snd]. unfold bind at 1, print_metric at 1.
    cbv [bind set lift print_ emit ret as_str dict_getitem ns trace world].
    pose proof (Hsub (k, v) (or_introl eq_refl)) as Hk.
    cbn [fst snd] in Hk. rewrite Hk. cbv beta iota.
    destruct (IH (fun kv H => Hsub kv (or_intror H))
                 {| ns := <["metric" := VStr k]> m;
                    trace := (tr ++ [EPrint [VStr k; v]])%list;
                    world := W |}) as (ns' & Heq).
    exists ns'. rewrite Heq. cbn [trace world].
    rewrite <- app_assoc. reflexivity.
Qed.

(** X23: the metrics of the backfill are printed one by one.  When the
    backfill run is bound and [get_metrics] answers a dict, the cell runs
    to its end and prints one line per metric, the name with its value,
    in the order of the dict: the lookup by name inside the loop cannot
    fail, the names being the keys of the dict it looks into. *)
Theorem analyze_drift_prints_every_metric
    (s : state) (backfill : value) (l : list (string * value)) :
  ns s !! "backfill" = Some backfill ->
  world s (trace s) (Invoke AzureML "Run.get_metrics" [backfill] [])
  = Returns (VDict l) ->
  NoDup (map fst l) ->
  fst (DriftNotebook.analyze_drift s) = Ok tt
  /\ added DriftNotebook.analyze_drift s
     = ECall (Invoke AzureML "Run.get_metrics" [backfill] [])
             (Returns (VDict l))
       :: map (fun kv => EPrint [VStr (fst kv); snd kv]) l.
Proof.
  destruct s as [m tr W]. cbn [ns trace world]. intros Hb Hm Hnd.
  unfold DriftNotebook.analyze_drift. run_ops.
  rewrite Hb. cbv beta iota. rewrite Hm. cbv beta iota. cbv [iterate].
  match goal with
  | |- context [for_ ?xs ?body ?st] =>
      change (for_ xs body st) with (for_ xs (print_metric (VDict l)) st);
      destruct (metric_loop l l
                  (fun kv H => assoc_in l (fst kv) (snd kv) Hnd
                                 ltac:(destruct kv; exact H)) st)
        as (ns' & Heq)
  end.
  rewrite Heq. cbn [fst snd trace].
  split; [reflexivity|].
  rewrite <- app_assoc, drop_app_length. reflexivity.
Qed.

Lemma analyze_drift_prints_every_metric_witness :
  added DriftNotebook.analyze_drift
    {| ns := <["backfill" := VObj "Run" 1]> ∅;
       trace := [];
       world := fun _ _ =>
                  Returns (VDict [("start_date", VStr "2021-04-19");
                                  ("drift", VDec 12 (-2))]) |}
  = [ECall (Invoke AzureML "Run.get_metrics" [VObj "Run" 1] [])
       (Returns (VDict [("start_date", VStr "2021-04-19");
                        ("drift", VDec 12 (-2))]));
     EPrint [VStr "start_date"; VStr "2021-04-19"];
     EPrint [VStr "drift"; VDec 12 (-2)]].
Proof.
  destruct (analyze_drift_prints_every_metric
              {| ns := <["backfill" := VObj "Run" 1]> ∅;
                 trace := [];
                 world := fun _ _ =>
                            Returns (VDict [("start_date", VStr "2021-04-19");
                                            ("drift", VDec 12 (-2))]) |}
              (VObj "Run" 1)
              [("start_date", VStr "2021-04-19"); ("drift", VDec 12 (-2))])
    as [_ H].
  - reflexivity.
  - reflexivity.
  - cbn [map fst]. apply (bool_decide_unpack _). vm_compute. reflexivity.
  - exact H.
Defined.

End DriftFacts.

(** ** Names read before they are bound *)

Module NameFacts.
Import Py Notebook NotebookSpec CellSpec NameSpec NotebookFacts CellFacts.



Lemma bound_same_ns (B : list string) (s s' : state) :
  ns s' = ns s -> bound B s -> bound B s'.
Proof. intros He Hb n Hn. rewrite He. apply Hb, Hn. Qed.

Section Defines.
Context (al : list string).



















End Defines.

Section Grows.








End Grows.
















End NameFacts.
